(** * IRWA search engine: BM25 retrieval and hybrid reranking

    Shallow embedding of [myapp/search/algorithms.py] (class [BM25Index],
    function [search_in_corpus]) and of [myapp/search/search_engine.py]
    (class [SearchEngine]).

    Modelling conventions.
    - Python [float] values are idealised as real numbers ([R]); [math.log]
      is [ln], guarded by the domain test that makes Python raise
      [ValueError].  Statements over [R] are about inputs that are finite
      numbers and about computations that neither overflow nor depend on
      rounding.  The numeric code is repeated on IEEE binary64 floats in
      the section on doubles, where NaN and overflow can be evaluated.
    - Python [int] counters that only count ([len], [Counter] entries, click
      totals, which web_app.py creates at 1 and increments) are [nat];
      [top_k], which is sliced with, is [Z] and keeps Python's meaning of a
      negative bound.
    - A Python [dict] is an association list in insertion order, written
      only through [dict_set], which overwrites in place or appends.
    - Raising code returns [result]: every true division, every subscript
      [d[k]], [math.log] and [max] of a sequence can raise.
    - Text is a [string] of 8-bit characters; [lower] and the character
      classes of the tokenizer are the ASCII ones. *)

From Stdlib Require Import Reals Lra Lia ZArith Bool List String Ascii.
From Stdlib Require Import DecimalString Sorting.Permutation Sorting.Sorted.
From Stdlib Require PrimFloat Uint63.
Import ListNotations.

Open Scope string_scope.
Open Scope R_scope.

(* ================================================================== *)
(** ** Exceptions *)

Inductive exn : Type :=
| ZeroDivisionError
| KeyError
| ValueError.

Inductive result (A : Type) : Type :=
| Ok (a : A)
| Raise (e : exn).

Arguments Ok {A} a.
Arguments Raise {A} e.

Definition bind {A B : Type} (m : result A) (k : A -> result B) : result B :=
  match m with
  | Ok a => k a
  | Raise e => Raise e
  end.

Notation "x <- m ;; k" := (bind m (fun x => k))
  (at level 61, m at next level, right associativity).

(** A [for] loop whose body can raise, threading the loop-carried state. *)
Fixpoint for_each {A S : Type} (body : S -> A -> result S) (l : list A) (s : S)
  : result S :=
  match l with
  | [] => Ok s
  | x :: l' => s' <- body s x ;; for_each body l' s'
  end.

(** A list comprehension / loop that appends one value per element. *)
Fixpoint map_result {A B : Type} (f : A -> result B) (l : list A)
  : result (list B) :=
  match l with
  | [] => Ok []
  | x :: l' => y <- f x ;; ys <- map_result f l' ;; Ok (y :: ys)
  end.

(** [a / b] on floats. *)
Definition pydiv (a b : R) : result R :=
  if Req_dec_T b 0 then Raise ZeroDivisionError else Ok (a / b).

(** [math.log(x)]. *)
Definition math_log (x : R) : result R :=
  if Rle_dec x 0 then Raise ValueError else Ok (ln x).

(** [max(seq)] on a sequence of floats. *)
Definition pymax (l : list R) : result R :=
  match l with
  | [] => Raise ValueError
  | x :: l' => Ok (fold_left Rmax l' x)
  end.

(** [max(seq)] on a sequence of ints. *)
Definition pymax_int (l : list nat) : result nat :=
  match l with
  | [] => Raise ValueError
  | x :: l' => Ok (fold_left Nat.max l' x)
  end.

Definition Req_bool (a b : R) : bool :=
  if Req_dec_T a b then true else false.

(* ================================================================== *)
(** ** Python dictionaries *)

Section Dict.
Context {V : Type}.

Definition dict : Type := list (string * V).

Fixpoint dict_find (d : dict) (k : string) : option V :=
  match d with
  | [] => None
  | (k', v) :: d' => if String.eqb k k' then Some v else dict_find d' k
  end.

(** [d.get(k, default)] *)
Definition dict_get (d : dict) (k : string) (default : V) : V :=
  match dict_find d k with
  | Some v => v
  | None => default
  end.

(** [d[k]] *)
Definition dict_item (d : dict) (k : string) : result V :=
  match dict_find d k with
  | Some v => Ok v
  | None => Raise KeyError
  end.

(** [d[k] = v] *)
Fixpoint dict_set (d : dict) (k : string) (v : V) : dict :=
  match d with
  | [] => [(k, v)]
  | (k', v') :: d' =>
      if String.eqb k k' then (k', v) :: d' else (k', v') :: dict_set d' k v
  end.

Definition dict_keys (d : dict) : list string := map fst d.
Definition dict_values (d : dict) : list V := map snd d.
Definition dict_items (d : dict) : list (string * V) := d.

(** What every Python dict satisfies: no key occurs twice. *)
Definition dict_wf (d : dict) : Prop := NoDup (dict_keys d).
End Dict.

Arguments dict V : clear implicits.

(** [Counter(tokens)], keys in order of first occurrence. *)
Definition Counter (tokens : list string) : dict nat :=
  fold_left (fun c t => dict_set c t (dict_get c t 0%nat + 1)%nat) tokens [].

(** [seq[:k]] for an integer [k] of either sign. *)
Definition slice_to {A : Type} (l : list A) (k : Z) : list A :=
  if (0 <=? k)%Z then firstn (Z.to_nat k) l
  else firstn (List.length l - Z.to_nat (- k)) l.

(* ================================================================== *)
(** ** Stable descending sort

    [sorted(items, key=..., reverse=True)] and
    [list.sort(key=..., reverse=True)]: Python's sort is stable, also under
    [reverse=True], so the result is the one arrangement of the input that
    is non-increasing in the key with equal keys left in input order.
    Insertion from the right computes that arrangement. *)

Section Sort.
Context {A : Type}.
Variable key : A -> R.

Fixpoint insert_desc (x : A) (l : list A) : list A :=
  match l with
  | [] => [x]
  | y :: l' =>
      if Rlt_dec (key x) (key y) then y :: insert_desc x l' else x :: l
  end.

Definition sorted_reverse (l : list A) : list A :=
  fold_right insert_desc [] l.

(** Non-increasing in the key. *)
Definition descending (l : list A) : Prop :=
  StronglySorted (fun x y => key y <= key x) l.
End Sort.

(* ================================================================== *)
(** ** Documents *)

(** Modelled from the spec: the class [Document] of
    [myapp/search/objects.py], which is not among the sources.  The fields
    are the ones the two search modules read and pass to the constructor;
    their types follow the spec's data model (text that may be absent,
    nullable floats, a boolean stock flag).  [score] is the field the
    reranker fills in; a [Document] built without it has none. *)
Record Document : Type := mkDocument {
  _id : string;
  pid : string;
  title : option string;
  description : option string;
  brand : string;
  category : string;
  sub_category : string;
  product_details : string;
  seller : string;
  out_of_stock : bool;
  selling_price : option R;
  discount : option R;
  actual_price : option R;
  average_rating : option R;
  url : option string;
  images : list string;
  score : option R
}.

(** [x or ''] on an optional text. *)
Definition or_empty (x : option string) : string :=
  match x with
  | Some s => s
  | None => ""
  end.

(** [x or 0.0] on an optional float: [None] and [0.0] are both falsy. *)
Definition or_zero (x : option R) : R :=
  match x with
  | Some r => r
  | None => 0.0
  end.

(* ================================================================== *)
(** ** Tokenizer *)

Definition in_range (lo hi : nat) (c : ascii) : bool :=
  let n := nat_of_ascii c in (lo <=? n)%nat && (n <=? hi)%nat.

(** [str.lower] on one character. *)
Definition lower_char (c : ascii) : ascii :=
  if in_range 65 90 c then ascii_of_nat (nat_of_ascii c + 32) else c.

(** The class [a-z0-9]. *)
Definition is_alnum (c : ascii) : bool :=
  in_range 97 122 c || in_range 48 57 c.

(** The class [\s], which is also what [str.split] splits on. *)
Definition is_space (c : ascii) : bool :=
  in_range 9 13 c || in_range 28 32 c.

Fixpoint string_map (f : ascii -> ascii) (s : string) : string :=
  match s with
  | EmptyString => EmptyString
  | String c s' => String (f c) (string_map f s')
  end.

Definition lower (s : string) : string := string_map lower_char s.

(** [re.sub(r'[^a-z0-9\s]', ' ', text)] *)
Definition re_sub_special (s : string) : string :=
  string_map (fun c => if is_alnum c || is_space c then c else " "%char) s.

(** [text.split()]: the maximal runs of non-space characters. [cur] is the
    run being read. *)
Fixpoint split_run (s : string) (cur : string) : list string :=
  match s with
  | EmptyString => if String.eqb cur "" then [] else [cur]
  | String c s' =>
      if is_space c then
        if String.eqb cur "" then split_run s' "" else cur :: split_run s' ""
      else split_run s' (cur ++ String c "")
  end.

Definition split (s : string) : list string := split_run s "".

(** The list the module falls back to when the NLTK data is missing. *)
Definition FALLBACK_STOPWORDS : list string :=
  [ "the"; "a"; "an"; "and"; "or"; "but"; "in"; "on"; "at"; "to"; "for";
    "of"; "with"; "by"; "from"; "is"; "are"; "was"; "were"; "be"; "been";
    "being"; "have"; "has"; "had"; "do"; "does"; "did"; "will"; "would";
    "could"; "should"; "may"; "might"; "must"; "can" ].

Section Search.

(** [stopwords.words('english')]: the NLTK resource, [None] when the
    lookup raises [LookupError]. *)
Variable nltk_english : option (list string).

Definition STOPWORDS : list string :=
  match nltk_english with
  | Some ws => ws
  | None => FALLBACK_STOPWORDS
  end.

Definition is_stopword (t : string) : bool :=
  existsb (String.eqb t) STOPWORDS.

Definition _tokenize (text : string) : list string :=
  if String.eqb text "" then []
  else
    let text := lower text in
    let text := re_sub_special text in
    let tokens := split text in
    filter (fun t => negb (String.eqb t "") && negb (is_stopword t)) tokens.

(* ---------------------------------------------------------------- *)
(** ** BM25 index *)

Record BM25Index : Type := mkBM25Index {
  k1 : R;
  b : R;
  corpus : dict Document;
  doc_frequencies : dict nat;
  doc_lengths : dict nat;
  doc_term_freqs : dict (dict nat);
  avg_doc_length : R
}.

(** The loop-carried state of [_build_index]. *)
Record build_state : Type := mkBuild {
  bs_doc_frequencies : dict nat;
  bs_doc_lengths : dict nat;
  bs_doc_term_freqs : dict (dict nat);
  bs_total_length : nat
}.

Definition doc_text (doc : Document) : string :=
  or_empty (title doc) ++ " " ++ or_empty (description doc).

(** [for term in term_freq.keys(): self.doc_frequencies[term] += 1] *)
Definition bump_frequencies (df : dict nat) (terms : list string) : dict nat :=
  fold_left (fun df term => dict_set df term (dict_get df term 0%nat + 1)%nat)
    terms df.

(** One pass of the loop over [self.corpus.items()]. *)
Definition build_step (st : build_state) (item : string * Document)
  : build_state :=
  let (doc_id, doc) := item in
  let tokens := _tokenize (doc_text doc) in
  let term_freq := Counter tokens in
  {| bs_doc_lengths := dict_set (bs_doc_lengths st) doc_id (List.length tokens);
     bs_total_length := (bs_total_length st + List.length tokens)%nat;
     bs_doc_term_freqs := dict_set (bs_doc_term_freqs st) doc_id term_freq;
     bs_doc_frequencies :=
       bump_frequencies (bs_doc_frequencies st) (dict_keys term_freq) |}.

Definition build_loop (c : dict Document) : build_state :=
  fold_left build_step (dict_items c)
    {| bs_doc_frequencies := []; bs_doc_lengths := [];
       bs_doc_term_freqs := []; bs_total_length := 0%nat |}.

(** [BM25Index.__init__] with [_build_index] inlined. *)
Definition BM25Index_init (c : dict Document) (k1 b : R) : result BM25Index :=
  let st := build_loop c in
  avg <- (if (0 <? List.length c)%nat
          then pydiv (INR (bs_total_length st)) (INR (List.length c))
          else Ok 0) ;;
  Ok {| k1 := k1; b := b; corpus := c;
        doc_frequencies := bs_doc_frequencies st;
        doc_lengths := bs_doc_lengths st;
        doc_term_freqs := bs_doc_term_freqs st;
        avg_doc_length := avg |}.

(** Loop invariant of [_build_index]: a positive term frequency in a
    document means that the document has a positive length, which was
    counted into [total_length]. *)
Definition tf_implies_tokens (st : build_state) : Prop :=
  forall doc_id t,
    dict_get (dict_get (bs_doc_term_freqs st) doc_id []) t 0%nat <> 0%nat ->
    (0 < dict_get (bs_doc_lengths st) doc_id 0)%nat /\
    (0 < bs_total_length st)%nat.

Definition _calculate_idf (self : BM25Index) (term : string) : result R :=
  let df := dict_get (doc_frequencies self) term 0%nat in
  let N := List.length (corpus self) in
  q <- pydiv (INR N - INR df + 0.5) (INR df + 0.5) ;;
  math_log (q + 1.0).

(** Every document of the corpus tokenizes to no token. *)
Definition tokenless (c : dict Document) : Prop :=
  Forall (fun item => _tokenize (doc_text (snd item)) = []) c.

(** What [_build_index] establishes and the scorer relies on. *)
Definition index_ok (self : BM25Index) : Prop :=
  0 <= k1 self /\ 0 <= b self <= 1 /\
  (forall t,
      (dict_get (doc_frequencies self) t 0 <= List.length (corpus self))%nat) /\
  (forall doc_id t,
      dict_get (dict_get (doc_term_freqs self) doc_id []) t 0%nat <> 0%nat ->
      0 < avg_doc_length self).

(** The body of the loop over [query_tokens]; [continue] leaves the
    score as it is. *)
Definition bm25_term (self : BM25Index) (doc_length : nat)
    (term_freqs : dict nat) (score : R) (term : string) : result R :=
  let tf := dict_get term_freqs term 0%nat in
  if (tf =? 0)%nat then Ok score
  else
    idf <- _calculate_idf self term ;;
    let numerator := INR tf * (k1 self + 1) in
    r <- pydiv (b self * INR doc_length) (avg_doc_length self) ;;
    let denominator := INR tf + k1 self * (1 - b self + r) in
    q <- pydiv numerator denominator ;;
    Ok (score + idf * q).

Definition _calculate_bm25_score (self : BM25Index) (doc_id : string)
    (query_tokens : list string) : result R :=
  let doc_length := dict_get (doc_lengths self) doc_id 0%nat in
  let term_freqs := dict_get (doc_term_freqs self) doc_id [] in
  for_each (bm25_term self doc_length term_freqs) query_tokens 0.0.

(** [doc.average_rating and doc.average_rating >= 4.0] *)
Definition highly_rated (doc : Document) : bool :=
  match average_rating doc with
  | Some r => negb (Req_bool r 0) && (if Rge_dec r 4.0 then true else false)
  | None => false
  end.

Definition _apply_metadata_boosts (score : R) (doc : Document) : R :=
  let boost := 1.0 in
  let boost := if highly_rated doc then boost * 1.2 else boost in
  let boost := if negb (out_of_stock doc) then boost * 1.1 else boost in
  score * boost.

(** The [Document] that [BM25Index.search] builds for a hit. *)
Definition bm25_result_doc (doc : Document) : Document :=
  {| _id := pid doc; pid := pid doc; title := title doc;
     description := description doc; brand := brand doc;
     category := category doc; sub_category := sub_category doc;
     product_details := product_details doc; seller := seller doc;
     out_of_stock := out_of_stock doc; selling_price := selling_price doc;
     discount := discount doc; actual_price := actual_price doc;
     average_rating := average_rating doc; url := url doc;
     images := images doc; score := None |}.

(** The body of the scoring loop over [self.corpus.keys()]. *)
Definition score_step (self : BM25Index) (query_tokens : list string)
    (scores : dict R) (doc_id : string) : result (dict R) :=
  bm25_score <- _calculate_bm25_score self doc_id query_tokens ;;
  doc <- dict_item (corpus self) doc_id ;;
  let final_score := _apply_metadata_boosts bm25_score doc in
  Ok (dict_set scores doc_id final_score).

Definition BM25Index_search (self : BM25Index) (query_text : string)
    (top_k : Z) : result (list (Document * R)) :=
  let query_tokens := _tokenize query_text in
  match query_tokens with
  | [] => Ok []
  | _ :: _ =>
      scores <- for_each (score_step self query_tokens)
                  (dict_keys (corpus self)) [] ;;
      let ranked_docs := sorted_reverse snd (dict_items scores) in
      map_result
        (fun '(doc_id, score) =>
           doc <- dict_item (corpus self) doc_id ;;
           Ok (bm25_result_doc doc, score))
        (slice_to ranked_docs top_k)
  end.

Definition search_in_corpus (query_text : string) (c : dict Document)
    (top_k : Z) : result (list (Document * R)) :=
  index <- BM25Index_init c 1.5 0.75 ;;
  BM25Index_search index query_text top_k.

(* ---------------------------------------------------------------- *)
(** ** Hybrid reranker *)

(** The part of [AnalyticsData] the reranker reads: the class attribute
    [fact_clicks], click totals per document id. *)
Record AnalyticsData : Type := mkAnalyticsData {
  fact_clicks : dict nat
}.

(** The loop-carried state of the collecting loop. *)
Record collect_state : Type := mkCollect {
  min_price : option R;
  max_price : option R;
  click_counts : dict nat
}.

Definition lower_min (cur : option R) (price : R) : option R :=
  match cur with
  | None => Some price
  | Some m => if Rlt_dec price m then Some price else cur
  end.

Definition raise_max (cur : option R) (price : R) : option R :=
  match cur with
  | None => Some price
  | Some m => if Rgt_dec price m then Some price else cur
  end.

(** [analytics_data.fact_clicks.get(doc.pid, 0)] when analytics are given,
    else [0]. *)
Definition clicks_of (analytics_data : option AnalyticsData) (doc : Document)
  : nat :=
  match analytics_data with
  | Some a => dict_get (fact_clicks a) (pid doc) 0%nat
  | None => 0%nat
  end.

Definition collect_step (analytics_data : option AnalyticsData)
    (st : collect_state) (cand : Document * R) : collect_state :=
  let (doc, _) := cand in
  let (lo, hi) :=
    match selling_price doc with
    | Some price => (lower_min (min_price st) price,
                     raise_max (max_price st) price)
    | None => (min_price st, max_price st)
    end in
  {| min_price := lo; max_price := hi;
     click_counts :=
       dict_set (click_counts st) (pid doc) (clicks_of analytics_data doc) |}.

Definition collect (analytics_data : option AnalyticsData)
    (bm25_results : list (Document * R)) : collect_state :=
  fold_left (collect_step analytics_data) bm25_results
    {| min_price := None; max_price := None; click_counts := [] |}.

(** A price lies between the collected minimum and maximum. *)
Definition price_bounded (st : collect_state) (price : R) : Prop :=
  exists lo hi,
    min_price st = Some lo /\ max_price st = Some hi /\ lo <= price <= hi.

(** [min(max(x, 0.0), 1.0)] *)
Definition clamp01 (x : R) : R := Rmin (Rmax x 0.0) 1.0.

Definition sim_norm_of (max_bm25 s : R) : result R :=
  if Req_dec_T max_bm25 0 then Ok 0.0 else pydiv s max_bm25.

Definition rating_norm_of (doc : Document) : result R :=
  let rating := or_zero (average_rating doc) in
  q <- pydiv rating 5.0 ;; Ok (clamp01 q).

(** [float(discount)] is the identity on a float, so the [except] branch
    of the source is never entered. *)
Definition discount_norm_of (doc : Document) : result R :=
  let discount := or_zero (discount doc) in
  let discount_val := discount in
  q <- pydiv discount_val 100.0 ;; Ok (clamp01 q).

Definition price_score_of (st : collect_state) (doc : Document) : result R :=
  match selling_price doc, min_price st, max_price st with
  | Some price, Some lo, Some hi =>
      if Req_dec_T hi lo then Ok 0.5
      else q <- pydiv (price - lo) (hi - lo) ;; Ok (1.0 - q)
  | _, _, _ => Ok 0.5
  end.

Definition popularity_norm_of (st : collect_state) (max_clicks : nat)
    (doc : Document) : result R :=
  let clicks := dict_get (click_counts st) (pid doc) 0%nat in
  if (max_clicks =? 0)%nat then Ok 0.0
  else pydiv (INR clicks) (INR max_clicks).

Definition weighted (sim_norm rating_norm discount_norm price_score
    popularity_norm : R) : R :=
  0.6 * sim_norm + 0.15 * rating_norm + 0.1 * discount_norm
  + 0.05 * price_score + 0.05 * popularity_norm.

(** The body of the loop that fills [hybrid_results]. *)
Definition hybrid_step (st : collect_state) (max_bm25 : R) (max_clicks : nat)
    (cand : Document * R) : result (Document * R) :=
  let (doc, s) := cand in
  sim_norm <- sim_norm_of max_bm25 s ;;
  rating_norm <- rating_norm_of doc ;;
  discount_norm <- discount_norm_of doc ;;
  price_score <- price_score_of st doc ;;
  popularity_norm <- popularity_norm_of st max_clicks doc ;;
  let final_score :=
    weighted sim_norm rating_norm discount_norm price_score popularity_norm in
  let final_score :=
    if negb (out_of_stock doc) then final_score * 1.05 else final_score in
  Ok (doc, final_score).

(** [str(n)] for an integer. *)
Definition str_of_int (n : Z) : string :=
  DecimalString.NilZero.string_of_int (Z.to_int n).

(** [original_url if original_url else f"/doc_details?pid=...&search_id=..."] *)
Definition link_url_of (search_id : Z) (doc : Document) : string :=
  match url doc with
  | Some u =>
      if String.eqb u "" then
        "/doc_details?pid=" ++ pid doc ++ "&search_id=" ++ str_of_int search_id
      else u
  | None =>
      "/doc_details?pid=" ++ pid doc ++ "&search_id=" ++ str_of_int search_id
  end.

(** The [Document] the reranker returns for a candidate. *)
Definition result_doc (search_id : Z) (cand : Document * R) : Document :=
  let (doc, score) := cand in
  {| _id := pid doc; pid := pid doc; title := title doc;
     description := description doc; brand := brand doc;
     category := category doc; sub_category := sub_category doc;
     product_details := product_details doc; seller := seller doc;
     out_of_stock := out_of_stock doc; selling_price := selling_price doc;
     discount := discount doc; actual_price := actual_price doc;
     average_rating := average_rating doc;
     url := Some (link_url_of search_id doc);
     images := images doc; score := Some score |}.

(** [max(bm25_scores) if bm25_scores else 1.0] *)
Definition max_bm25_of (bm25_results : list (Document * R)) : result R :=
  let bm25_scores := map snd bm25_results in
  match bm25_scores with
  | [] => Ok 1.0
  | _ :: _ => pymax bm25_scores
  end.

(** [max(click_counts.values()) if click_counts else 1] *)
Definition max_clicks_of (st : collect_state) : result nat :=
  match click_counts st with
  | [] => Ok 1%nat
  | _ :: _ => pymax_int (dict_values (click_counts st))
  end.

(** [hybrid_results] before the sort, in the order of [bm25_results]. *)
Definition hybrid_scores (analytics_data : option AnalyticsData)
    (bm25_results : list (Document * R)) : result (list (Document * R)) :=
  max_bm25 <- max_bm25_of bm25_results ;;
  let st := collect analytics_data bm25_results in
  max_clicks <- max_clicks_of st ;;
  map_result (hybrid_step st max_bm25 max_clicks) bm25_results.

(** [x] is the final score the loop body computes for [cand]: the
    weighted sum of the five normalised signals, times 1.05 for a
    document in stock. *)
Definition final_score_of (st : collect_state) (max_bm25 : R)
    (max_clicks : nat) (cand : Document * R) (x : R) : Prop :=
  exists sim_norm rating_norm discount_norm price_score popularity_norm,
    sim_norm_of max_bm25 (snd cand) = Ok sim_norm /\
    rating_norm_of (fst cand) = Ok rating_norm /\
    discount_norm_of (fst cand) = Ok discount_norm /\
    price_score_of st (fst cand) = Ok price_score /\
    popularity_norm_of st max_clicks (fst cand) = Ok popularity_norm /\
    x = weighted sim_norm rating_norm discount_norm price_score
          popularity_norm
        * (if out_of_stock (fst cand) then 1 else 1.05).

(** What [SearchEngine.search] returns. *)
Definition search_value (search_query : string) (search_id : Z)
    (c : dict Document) (analytics_data : option AnalyticsData)
  : result (list Document) :=
  bm25_results <- search_in_corpus search_query c 20 ;;
  match bm25_results with
  | [] => Ok []
  | _ :: _ =>
      hybrid_results <- hybrid_scores analytics_data bm25_results ;;
      let hybrid_results := sorted_reverse snd hybrid_results in
      Ok (map (result_doc search_id) hybrid_results)
  end.

(** [SearchEngine.search], with the standard output it writes to: the
    [print] of the query is the method's one effect. *)
Definition SearchEngine_search (search_query : string) (search_id : Z)
    (c : dict Document) (analytics_data : option AnalyticsData)
    (stdout : list string) : result (list Document) * list string :=
  let stdout := List.app stdout ["Search query: " ++ search_query] in
  (search_value search_query search_id c analytics_data, stdout).

(* ---------------------------------------------------------------- *)
(** ** Conditions and sample data used in the statements *)

(** The booster's first condition as the specification words it:
    [averageRating] is present and at least 4.0. *)
Definition rating_present_ge_4 (doc : Document) : bool :=
  match average_rating doc with
  | Some r => if Rge_dec r 4.0 then true else false
  | None => false
  end.

(** The returned document carries final score [v]. *)
Definition has_score (v : R) (d : Document) : bool :=
  match score d with
  | Some x => Req_bool x v
  | None => false
  end.

Definition sample_doc (id : string) (t d : string)
    (rating price disc : option R) (oos : bool) : Document :=
  {| _id := id; pid := id; title := Some t; description := Some d;
     brand := ""; category := ""; sub_category := ""; product_details := "";
     seller := ""; out_of_stock := oos; selling_price := price;
     discount := disc; actual_price := None; average_rating := rating;
     url := None; images := []; score := None |}.

(** The three-product scenario of the specification. *)
Definition SCENARIO_CORPUS : dict Document :=
  [ ("A", sample_doc "A" "red running shoes" "comfortable shoes"
            (Some 4.5) (Some 50) None false);
    ("B", sample_doc "B" "blue jacket" "warm winter jacket"
            (Some 3.0) (Some 80) None false);
    ("C", sample_doc "C" "red shoes sale" "discounted red shoes"
            (Some 4.8) (Some 40) (Some 30) true) ].

(** A corpus whose one document has stopwords and punctuation only. *)
Definition STOPWORD_CORPUS : dict Document :=
  [ ("d1", sample_doc "d1" "The" "of the ..." None None None false) ].

(* ---------------------------------------------------------------- *)
(** ** Further notions used in the statements *)

(** Every character of [s] passes [p]. *)
Fixpoint string_forallb (p : ascii -> bool) (s : string) : bool :=
  match s with
  | EmptyString => true
  | String c s' => p c && string_forallb p s'
  end.

(** [" ".join(tokens)] *)
Definition join_space (tokens : list string) : string :=
  String.concat " " tokens.

(** The tokens of a document, as [_build_index] reads them. *)
Definition doc_tokens (doc : Document) : list string :=
  _tokenize (doc_text doc).

(** [sc] is the entry of the [scores] dictionary for the corpus item
    [item] under the query [query_tokens]: the item's key with its boosted
    BM25 score. *)
Definition scored_as (self : BM25Index) (query_tokens : list string)
    (item : string * Document) (sc : string * R) : Prop :=
  fst sc = fst item /\
  exists s,
    _calculate_bm25_score self (fst item) query_tokens = Ok s /\
    snd sc = _apply_metadata_boosts s (snd item).

(** [h] is the hit built from the ranked entry [sc]: the copy of the corpus
    document under that key, with the entry's score. *)
Definition hit_of (c : dict Document) (sc : string * R) (h : Document * R)
  : Prop :=
  snd h = snd sc /\
  exists doc, In (fst sc, doc) c /\ fst h = bm25_result_doc doc.

(** The returned document [d] shows the corpus document [doc]: every field
    the two constructors copy is equal, and [_id] is the pid. *)
Definition same_product (d doc : Document) : Prop :=
  _id d = pid doc /\ pid d = pid doc /\ title d = title doc /\
  description d = description doc /\ brand d = brand doc /\
  category d = category doc /\ sub_category d = sub_category doc /\
  product_details d = product_details doc /\ seller d = seller doc /\
  out_of_stock d = out_of_stock doc /\
  selling_price d = selling_price doc /\ discount d = discount doc /\
  actual_price d = actual_price doc /\
  average_rating d = average_rating doc /\ images d = images doc.

(* ---------------------------------------------------------------- *)
(** ** Click bookkeeping of the web application (web_app.py) *)

(** [doc_details], the update of [analytics_data.fact_clicks]:
    [d[k] += 1] when [k] is a key, [d[k] = 1] otherwise. *)
Definition count_click (fact_clicks : dict nat) (clicked_doc_id : string)
  : result (dict nat) :=
  if existsb (String.eqb clicked_doc_id) (dict_keys fact_clicks) then
    v <- dict_item fact_clicks clicked_doc_id ;;
    Ok (dict_set fact_clicks clicked_doc_id (v + 1)%nat)
  else Ok (dict_set fact_clicks clicked_doc_id 1%nat).

(** The rows of the statistics page.  The class [StatsDocument] of
    [myapp/search/objects.py] is not among the sources; the fields are the
    keyword arguments of the constructor call in [stats].  The names carry
    a prefix because [pid], [title], [description] and [url] already name
    the fields of [Document]. *)
Record StatsDocument : Type := mkStatsDocument {
  stats_pid : string;
  stats_title : option string;
  stats_description : option string;
  stats_url : option string;
  stats_count : nat
}.

(** The body of the loop of [stats]. *)
Definition stats_row (fact_clicks : dict nat) (c : dict Document)
    (doc_id : string) : result StatsDocument :=
  row <- dict_item c doc_id ;;
  count <- dict_item fact_clicks doc_id ;;
  Ok {| stats_pid := pid row; stats_title := title row;
        stats_description := description row; stats_url := url row;
        stats_count := count |}.

(** [stats]: the list handed to the template as [clicks_data]. *)
Definition stats (fact_clicks : dict nat) (c : dict Document)
  : result (list StatsDocument) :=
  docs <- map_result (stats_row fact_clicks c) (dict_keys fact_clicks) ;;
  Ok (sorted_reverse (fun doc => INR (stats_count doc)) docs).

(** [dashboard]: the list handed to the template as [clicks_data]; a pair
    stands for the dictionary with the keys ["doc_id"] and ["count"]. *)
Definition dashboard_visited_docs (fact_clicks : dict nat) (c : dict Document)
  : result (list (string * nat)) :=
  visited_docs <- map_result
                    (fun '(doc_id, count) =>
                       d <- dict_item c doc_id ;; Ok (doc_id, count))
                    (dict_items fact_clicks) ;;
  Ok (sorted_reverse (fun x => INR (snd x)) visited_docs).

(** [search_form_post]: [{doc.pid: idx for idx, doc in enumerate(results)}],
    stored in the session as ["last_ranking"]. *)
Definition last_ranking (results : list Document) : dict nat :=
  fold_left (fun d '(idx, doc) => dict_set d (pid doc) idx)
    (combine (seq 0 (List.length results)) results) [].

(** [doc_details]: [session["last_ranking"].get(clicked_doc_id)], [None]
    when the session has no ranking. *)
Definition click_rank (session_last_ranking : option (dict nat))
    (clicked_doc_id : string) : option nat :=
  match session_last_ranking with
  | Some ranking => dict_find ranking clicked_doc_id
  | None => None
  end.

(* ---------------------------------------------------------------- *)
(** ** More sample data *)

(** Two products whose texts differ in letter case and punctuation only. *)
Definition CASE_CORPUS : dict Document :=
  [ ("u", sample_doc "u" "Red Shoes!" "SALE" None None None false);
    ("v", sample_doc "v" "red, shoes" "sale." None None None true) ].

(** Two candidates that differ in their pid only, and click counts that
    have 100 clicks for the second. *)
Definition TWIN_CANDIDATES : list (Document * R) :=
  [ (sample_doc "p" "t" "d" None None None false, 1);
    (sample_doc "q" "t" "d" None None None false, 1) ].

Definition TWIN_CLICKS : option AnalyticsData :=
  Some {| fact_clicks := [("q", 100%nat)] |}.

(** Two candidates priced 40 and 80. *)
Definition PRICED_CANDIDATES : list (Document * R) :=
  [ (sample_doc "p" "t" "d" None (Some 40) None false, 1);
    (sample_doc "q" "t" "d" None (Some 80) None false, 1) ].

(* ---------------------------------------------------------------- *)
(** ** The final score as the specification words it

    Section 4.5 of the specification, steps 1 to 6, written out with its
    constants and without reference to the functions of the reranker
    above.  The extreme values over the candidate set are parameters here
    and are pinned down by [is_max_of], [extreme_prices] and
    [is_max_count_of]. *)









(** No document of the corpus has a negative selling price. *)
Definition prices_not_negative (c : dict Document) : Prop :=
  Forall (fun item =>
            match selling_price (snd item) with
            | Some price => 0 <= price
            | None => True
            end) c.

(* ---------------------------------------------------------------- *)
(** ** Texts that differ in letter case and separators only *)

Definition code_upper (n : nat) : bool := (65 <=? n)%nat && (n <=? 90)%nat.
Definition code_lower (n : nat) : bool := (97 <=? n)%nat && (n <=? 122)%nat.
Definition code_digit (n : nat) : bool := (48 <=? n)%nat && (n <=? 57)%nat.

(** A character that is neither an ASCII letter nor a digit. *)
Definition code_separator (n : nat) : bool :=
  negb (code_upper n || code_lower n || code_digit n).

(** The two characters are the same, or the same ASCII letter in the two
    cases, or two separators. *)
Definition same_char_for_search (c1 c2 : ascii) : bool :=
  let n1 := nat_of_ascii c1 in
  let n2 := nat_of_ascii c2 in
  (n1 =? n2)%nat
  || (code_upper n1 && (n2 =? n1 + 32)%nat)
  || (code_upper n2 && (n1 =? n2 + 32)%nat)
  || (code_separator n1 && code_separator n2).

(** The two texts have the same length and agree character by character
    in that sense. *)
Fixpoint same_text_for_search (s t : string) : bool :=
  match s, t with
  | EmptyString, EmptyString => true
  | String c s', String d t' =>
      same_char_for_search c d && same_text_for_search s' t'
  | _, _ => false
  end.

(* ---------------------------------------------------------------- *)
(** ** The numeric code on IEEE doubles

    The definitions above compute with real numbers, which have no NaN,
    no infinity and no rounding.  Python's [float] is an IEEE binary64
    number.  This section repeats the numeric part of [algorithms.py] and
    [search_engine.py] on binary64 floats, operation by operation and in
    the order of the source, so that inputs on which the two differ can be
    evaluated.  The tokenizer, the dictionaries, the counters and the
    index tables hold no float and are shared with the model above.

    [math.log] is the C library's logarithm; it is a variable of the
    section.  [float_sorted_reverse] agrees with [sorted(..., reverse=True)]
    when the keys are ordered by [<], and on a list of at most two
    elements also when a key is NaN. *)

Section Doubles.
Import PrimFloat.
Local Open Scope float_scope.
Local Set Warnings "-inexact-float".

Variable libm_log : float -> float.











Record FloatDocument : Type := mkFloatDocument {
  f_id : string;
  f_pid : string;
  f_title : option string;
  f_description : option string;
  f_out_of_stock : bool;
  f_selling_price : option float;
  f_discount : option float;
  f_average_rating : option float;
  f_url : option string;
  f_score : option float
}.


























(** The final scores of the returned documents, in order. *)
Definition float_scores (r : result (list FloatDocument))
  : option (list (option float)) :=
  match r with
  | Ok docs => Some (map f_score docs)
  | Raise _ => None
  end.





End Doubles.

(* ================================================================== *)
(** * Properties *)

(** ** The exception monad *)

Lemma bind_ok_inv {A B : Type} (m : result A) (k : A -> result B) (y : B) :
  bind m k = Ok y -> exists a, m = Ok a /\ k a = Ok y.
Proof.
  destruct m as [a | e]; simpl; intros H; [eauto | discriminate].
Qed.

Lemma map_result_ok {A B : Type} (f : A -> result B) (g : A -> B) (l : list A) :
  (forall x, In x l -> f x = Ok (g x)) -> map_result f l = Ok (map g l).
Proof.
  induction l as [| x l IH]; intros Hf; simpl; [reflexivity |].
  rewrite (Hf x (or_introl eq_refl)); simpl.
  rewrite IH by (intros y Hy; apply Hf; now right).
  reflexivity.
Qed.

Lemma pydiv_ok (a d : R) : d <> 0 -> pydiv a d = Ok (a / d).
Proof.
  intros Hd; unfold pydiv; destruct (Req_dec_T d 0); [contradiction | reflexivity].
Qed.

Lemma Req_bool_true (a c : R) : Req_bool a c = true <-> a = c.
Proof.
  unfold Req_bool; destruct (Req_dec_T a c); split; intros; auto; discriminate.
Qed.

(** ** Dictionaries *)

Section DictFacts.
Context {V : Type}.
Implicit Types (d : dict V) (k : string) (v : V).

Lemma dict_find_set d k v k' :
  dict_find (dict_set d k v) k' =
  if String.eqb k' k then Some v else dict_find d k'.
Proof.
  induction d as [| [k0 v0] d IH]; simpl.
  - reflexivity.
  - destruct (String.eqb_spec k k0) as [-> | Hne]; simpl.
    + destruct (String.eqb_spec k' k0); reflexivity.
    + rewrite IH.
      destruct (String.eqb_spec k' k0) as [-> | Hne'].
      * destruct (String.eqb_spec k0 k); [congruence | reflexivity].
      * reflexivity.
Qed.

Lemma dict_find_in_keys d k :
  In k (dict_keys d) <-> dict_find d k <> None.
Proof.
  induction d as [| [k0 v0] d IH]; simpl.
  - split; [tauto | congruence].
  - destruct (String.eqb_spec k k0) as [-> | Hne].
    + split; [discriminate | auto].
    + rewrite <- IH. split; [intros [H | H]; [congruence | exact H] | auto].
Qed.

Lemma dict_keys_set_in d k v :
  In k (dict_keys d) -> dict_keys (dict_set d k v) = dict_keys d.
Proof.
  induction d as [| [k0 v0] d IH]; simpl; [tauto |].
  intros Hin. destruct (String.eqb_spec k k0) as [-> | Hne]; simpl.
  - reflexivity.
  - f_equal. apply IH. destruct Hin; [congruence | assumption].
Qed.

Lemma dict_keys_set_notin d k v :
  ~ In k (dict_keys d) -> dict_keys (dict_set d k v) = (dict_keys d ++ [k])%list.
Proof.
  induction d as [| [k0 v0] d IH]; simpl; [reflexivity |].
  intros Hin. destruct (String.eqb_spec k k0) as [-> | Hne]; simpl.
  - exfalso; auto.
  - f_equal. apply IH. intros H; auto.
Qed.

Lemma dict_set_wf d k v : dict_wf d -> dict_wf (dict_set d k v).
Proof.
  unfold dict_wf. intros Hwf.
  destruct (in_dec string_dec k (dict_keys d)) as [Hin | Hnin].
  - now rewrite dict_keys_set_in.
  - rewrite dict_keys_set_notin by assumption.
    apply NoDup_app; [assumption | repeat constructor; simpl; tauto |].
    intros x Hx [<- | []]; auto.
Qed.

Lemma dict_set_values d k v (P : V -> Prop) :
  Forall P (dict_values d) -> P v -> Forall P (dict_values (dict_set d k v)).
Proof.
  unfold dict_values.
  induction d as [| [k0 v0] d IH]; simpl; intros Hd Hv.
  - repeat constructor; assumption.
  - inversion Hd; subst.
    destruct (String.eqb k k0); simpl; constructor; auto.
Qed.

Lemma dict_set_length_le d k v :
  (List.length (dict_set d k v) <= S (List.length d))%nat.
Proof.
  induction d as [| [k0 v0] d IH]; simpl; [lia |].
  destruct (String.eqb k k0); simpl; lia.
Qed.
End DictFacts.

Lemma Counter_fold_wf (tokens : list string) (c0 : dict nat) :
  dict_wf c0 ->
  dict_wf (fold_left (fun c t => dict_set c t (dict_get c t 0%nat + 1)%nat)
             tokens c0).
Proof.
  revert c0; induction tokens as [| t ts IH]; simpl; intros c0 Hwf.
  - exact Hwf.
  - apply IH, dict_set_wf, Hwf.
Qed.

Lemma Counter_wf (tokens : list string) : dict_wf (Counter tokens).
Proof. apply Counter_fold_wf; constructor. Qed.

(** ** The sort *)

Section SortFacts.
Context {A : Type}.
Variable key : A -> R.

Lemma insert_desc_perm (x : A) (l : list A) :
  Permutation (x :: l) (insert_desc key x l).
Proof.
  induction l as [| y l IH]; simpl.
  - apply Permutation_refl.
  - destruct (Rlt_dec (key x) (key y)).
    + eapply perm_trans; [apply perm_swap | apply perm_skip, IH].
    + apply Permutation_refl.
Qed.

Lemma sorted_reverse_perm (l : list A) : Permutation l (sorted_reverse key l).
Proof.
  induction l as [| x l IH]; simpl.
  - constructor.
  - eapply perm_trans; [apply perm_skip, IH | apply insert_desc_perm].
Qed.

Lemma sorted_reverse_length (l : list A) :
  List.length (sorted_reverse key l) = List.length l.
Proof. symmetry; apply Permutation_length, sorted_reverse_perm. Qed.

(** Inserting never moves an element past one of the same key. *)
Lemma insert_desc_filter (v : R) (x : A) (l : list A) :
  filter (fun y => Req_bool (key y) v) (insert_desc key x l) =
  filter (fun y => Req_bool (key y) v) (x :: l).
Proof.
  induction l as [| y l IH]; [reflexivity |].
  cbn [insert_desc].
  destruct (Rlt_dec (key x) (key y)) as [Hlt | Hge]; [| reflexivity].
  cbn [filter] in *. rewrite IH.
  destruct (Req_bool (key x) v) eqn:Ex, (Req_bool (key y) v) eqn:Ey;
    try reflexivity.
  apply Req_bool_true in Ex, Ey. lra.
Qed.

Lemma sorted_reverse_stable (v : R) (l : list A) :
  filter (fun y => Req_bool (key y) v) (sorted_reverse key l) =
  filter (fun y => Req_bool (key y) v) l.
Proof.
  induction l as [| x l IH]; [reflexivity |].
  cbn [sorted_reverse fold_right].
  rewrite insert_desc_filter. cbn [filter].
  fold (sorted_reverse key l). rewrite IH. reflexivity.
Qed.

Lemma insert_desc_descending (x : A) (l : list A) :
  descending key l -> descending key (insert_desc key x l).
Proof.
  unfold descending.
  induction l as [| y l IH]; intros Hs; simpl.
  - repeat constructor.
  - inversion Hs as [| ? ? Hl Hy]; subst.
    destruct (Rlt_dec (key x) (key y)) as [Hlt | Hge].
    + constructor; [apply IH, Hl |].
      eapply Permutation_Forall; [apply insert_desc_perm |].
      constructor; [lra | exact Hy].
    + constructor; [exact Hs |].
      constructor; [lra |].
      eapply Forall_impl; [| exact Hy]. intros z Hz; simpl in Hz; lra.
Qed.

Lemma sorted_reverse_descending (l : list A) :
  descending key (sorted_reverse key l).
Proof.
  induction l as [| x l IH]; simpl.
  - constructor.
  - apply insert_desc_descending, IH.
Qed.
End SortFacts.

(** ** The index *)

Lemma dict_get_set {V : Type} (d : dict V) (k k' : string) (v default : V) :
  dict_get (dict_set d k v) k' default =
  if String.eqb k' k then v else dict_get d k' default.
Proof.
  unfold dict_get. rewrite dict_find_set.
  destruct (String.eqb k' k); reflexivity.
Qed.

Lemma bump_frequencies_get (df : dict nat) (terms : list string) (t : string) :
  dict_get (bump_frequencies df terms) t 0%nat =
  (dict_get df t 0 + count_occ string_dec terms t)%nat.
Proof.
  unfold bump_frequencies.
  revert df; induction terms as [| u us IH]; intros df; simpl.
  - lia.
  - rewrite IH, dict_get_set.
    destruct (String.eqb_spec t u) as [-> | Hne].
    + destruct (string_dec u u); [lia | congruence].
    + destruct (string_dec u t); [congruence | lia].
Qed.

Lemma bump_frequencies_once (df : dict nat) (terms : list string) (t : string) :
  NoDup terms ->
  (dict_get (bump_frequencies df terms) t 0 <= dict_get df t 0 + 1)%nat.
Proof.
  intros Hnd. rewrite bump_frequencies_get.
  pose proof (proj1 (NoDup_count_occ string_dec terms) Hnd t). lia.
Qed.

(** A term counted in a document's [Counter] comes from a token of it. *)
Lemma Counter_positive (tokens : list string) (t : string) :
  dict_get (Counter tokens) t 0%nat <> 0%nat -> (0 < List.length tokens)%nat.
Proof.
  destruct tokens; simpl; [intros H; exfalso; apply H; reflexivity | lia].
Qed.

(** The document frequency of a term never exceeds the number of documents
    read so far. *)
Lemma build_fold_df (items : list (string * Document)) (st : build_state) (n : nat) :
  (forall t, dict_get (bs_doc_frequencies st) t 0 <= n)%nat ->
  forall t,
    (dict_get (bs_doc_frequencies (fold_left build_step items st)) t 0
     <= n + List.length items)%nat.
Proof.
  revert st n; induction items as [| [doc_id doc] items IH]; intros st n Hst t.
  - simpl. specialize (Hst t). lia.
  - cbn [fold_left List.length].
    replace (n + S (List.length items))%nat with (S n + List.length items)%nat by lia.
    apply IH. intros u. cbn [build_step bs_doc_frequencies].
    pose proof (bump_frequencies_once (bs_doc_frequencies st)
                  (dict_keys (Counter (_tokenize (doc_text doc)))) u
                  (Counter_wf _)).
    specialize (Hst u). lia.
Qed.

Lemma build_step_tf (st : build_state) (item : string * Document) :
  tf_implies_tokens st -> tf_implies_tokens (build_step st item).
Proof.
  destruct item as [id0 doc]. unfold tf_implies_tokens.
  intros Hst doc_id t.
  cbn [build_step bs_doc_term_freqs bs_doc_lengths bs_total_length].
  rewrite !dict_get_set.
  destruct (String.eqb doc_id id0).
  - intros Htf. apply Counter_positive in Htf. lia.
  - intros Htf. apply Hst in Htf. lia.
Qed.

Lemma build_fold_tf (items : list (string * Document)) (st : build_state) :
  tf_implies_tokens st -> tf_implies_tokens (fold_left build_step items st).
Proof.
  revert st; induction items as [| item items IH]; intros st Hst; simpl.
  - exact Hst.
  - apply IH, build_step_tf, Hst.
Qed.

Lemma build_loop_tf (c : dict Document) : tf_implies_tokens (build_loop c).
Proof.
  apply build_fold_tf. intros doc_id t H. exfalso; apply H; reflexivity.
Qed.

Lemma build_loop_df (c : dict Document) (t : string) :
  (dict_get (bs_doc_frequencies (build_loop c)) t 0 <= List.length c)%nat.
Proof.
  apply (build_fold_df c _ 0%nat). intros u; unfold dict_get; simpl; lia.
Qed.

Lemma BM25Index_init_ok (c : dict Document) (k b : R) :
  0 <= k -> 0 <= b <= 1 ->
  exists self,
    BM25Index_init c k b = Ok self /\ index_ok self /\ corpus self = c.
Proof.
  intros Hk Hb. unfold BM25Index_init.
  destruct (0 <? List.length c)%nat eqn:Hlen.
  - apply Nat.ltb_lt in Hlen.
    assert (HN : 0 < INR (List.length c)) by (apply lt_0_INR, Hlen).
    rewrite pydiv_ok by lra. simpl.
    eexists; split; [reflexivity |]. split; [| reflexivity].
    repeat split; cbn; try lra.
    + intros t. apply build_loop_df.
    + intros doc_id t Htf. apply build_loop_tf in Htf.
      apply Rdiv_lt_0_compat; [apply lt_0_INR, Htf | exact HN].
  - apply Nat.ltb_ge in Hlen. simpl.
    eexists; split; [reflexivity |]. split; [| reflexivity].
    repeat split; cbn; try lra.
    + intros t. apply build_loop_df.
    + intros doc_id t Htf. apply build_loop_tf in Htf.
      destruct c; [cbn in Htf | simpl in Hlen]; lia.
Qed.

(** *** Inverse document frequency *)

Lemma idf_arg_decreasing (N d1 d2 : R) :
  0 <= N -> 0 <= d1 -> d1 < d2 ->
  (N - d2 + 0.5) / (d2 + 0.5) < (N - d1 + 0.5) / (d1 + 0.5).
Proof.
  intros HN H1 H12.
  assert (E : forall d, 0 <= d ->
                (N - d + 0.5) / (d + 0.5) = (N + 1) / (d + 0.5) - 1).
  { intros d Hd. replace 0.5 with (1 / 2) by lra. field. lra. }
  rewrite (E d1), (E d2) by lra.
  apply Rplus_lt_compat_r. unfold Rdiv.
  apply Rmult_lt_compat_l; [lra |].
  apply Rinv_lt_contravar; [nra | lra].
Qed.

Lemma idf_arg_pos (N d : R) :
  0 <= d -> d <= N -> 0 < (N - d + 0.5) / (d + 0.5).
Proof. intros. apply Rdiv_lt_0_compat; lra. Qed.

Lemma math_log_ok (x : R) : 0 < x -> math_log x = Ok (ln x).
Proof.
  intros Hx. unfold math_log. destruct (Rle_dec x 0); [lra | reflexivity].
Qed.

(** The value [_calculate_idf] returns on an index whose document
    frequencies are bounded by the corpus size. *)
Lemma _calculate_idf_value (self : BM25Index) (term : string) :
  (forall t,
      (dict_get (doc_frequencies self) t 0 <= List.length (corpus self))%nat) ->
  let df := INR (dict_get (doc_frequencies self) term 0%nat) in
  let N := INR (List.length (corpus self)) in
  _calculate_idf self term = Ok (ln ((N - df + 0.5) / (df + 0.5) + 1.0)) /\
  0 <= df <= N /\
  0 < ln ((N - df + 0.5) / (df + 0.5) + 1.0).
Proof.
  intros Hdf df N.
  assert (Hd0 : 0 <= df) by apply pos_INR.
  assert (HdN : df <= N) by (apply le_INR, Hdf).
  pose proof (idf_arg_pos N df Hd0 HdN) as Hq.
  unfold _calculate_idf. fold df N.
  rewrite pydiv_ok by lra. simpl.
  rewrite math_log_ok by lra.
  repeat split; try assumption.
  rewrite <- ln_1. apply ln_increasing; lra.
Qed.

(** *** The BM25 score *)

Lemma bm25_term_ok (self : BM25Index) (doc_id term : string) (score : R) :
  index_ok self -> 0 <= score ->
  exists score',
    bm25_term self (dict_get (doc_lengths self) doc_id 0%nat)
      (dict_get (doc_term_freqs self) doc_id []) score term = Ok score' /\
    0 <= score'.
Proof.
  intros Hok Hs. unfold bm25_term.
  destruct (Nat.eqb_spec
              (dict_get (dict_get (doc_term_freqs self) doc_id []) term 0%nat) 0)
    as [Hz | Hnz].
  - eauto.
  - destruct Hok as (Hk & Hb & Hdf & Havg).
    destruct (_calculate_idf_value self term Hdf) as (-> & _ & Hidf).
    specialize (Havg doc_id term Hnz).
    set (tf := dict_get (dict_get (doc_term_freqs self) doc_id []) term 0%nat) in *.
    set (dl := dict_get (doc_lengths self) doc_id 0%nat).
    assert (Htf : 0 < INR tf) by (apply lt_0_INR; lia).
    assert (Hdl : 0 <= INR dl) by apply pos_INR.
    assert (Hr : 0 <= b self * INR dl / avg_doc_length self).
    { apply Rmult_le_pos; [apply Rmult_le_pos; lra |].
      left; apply Rinv_0_lt_compat, Havg. }
    simpl. rewrite (pydiv_ok _ (avg_doc_length self)) by lra. simpl.
    assert (Hden : 0 < INR tf + k1 self * (1 - b self + b self * INR dl / avg_doc_length self)) by nra.
    rewrite pydiv_ok by lra. simpl.
    eexists; split; [reflexivity |].
    apply Rplus_le_le_0_compat; [exact Hs |].
    apply Rmult_le_pos; [lra |].
    left; apply Rdiv_lt_0_compat; [nra | exact Hden].
Qed.

Lemma for_each_bm25_ok (self : BM25Index) (doc_id : string)
    (query_tokens : list string) (score : R) :
  index_ok self -> 0 <= score ->
  exists score',
    for_each (bm25_term self (dict_get (doc_lengths self) doc_id 0%nat)
                (dict_get (doc_term_freqs self) doc_id []))
      query_tokens score = Ok score' /\
    0 <= score'.
Proof.
  intros Hok. revert score.
  induction query_tokens as [| t ts IH]; intros score Hs; simpl.
  - eauto.
  - destruct (bm25_term_ok self doc_id t score Hok Hs) as (s1 & -> & Hs1).
    simpl. apply IH, Hs1.
Qed.

Lemma _calculate_bm25_score_ok (self : BM25Index) (doc_id : string)
    (query_tokens : list string) :
  index_ok self ->
  exists score,
    _calculate_bm25_score self doc_id query_tokens = Ok score /\ 0 <= score.
Proof.
  intros Hok. unfold _calculate_bm25_score.
  apply for_each_bm25_ok; [exact Hok | lra].
Qed.

(** *** Metadata boosts *)

Lemma boost_factor (score : R) (doc : Document) :
  _apply_metadata_boosts score doc =
  score * ((if highly_rated doc then 1.2 else 1) *
           (if negb (out_of_stock doc) then 1.1 else 1)).
Proof.
  unfold _apply_metadata_boosts.
  destruct (highly_rated doc), (negb (out_of_stock doc)); lra.
Qed.

Lemma _apply_metadata_boosts_nonneg (score : R) (doc : Document) :
  0 <= score -> 0 <= _apply_metadata_boosts score doc.
Proof.
  intros Hs. rewrite boost_factor.
  destruct (highly_rated doc), (negb (out_of_stock doc)); nra.
Qed.

(** *** The BM25 search *)

Lemma map_result_Forall2 {A B : Type} (f : A -> result B) (P : A -> B -> Prop)
    (l : list A) :
  (forall x, In x l -> exists y, f x = Ok y /\ P x y) ->
  exists ys, map_result f l = Ok ys /\ Forall2 P l ys.
Proof.
  induction l as [| x l IH]; intros Hf; simpl.
  - exists []; split; [reflexivity | constructor].
  - destruct (Hf x (or_introl eq_refl)) as (y & -> & Hy). simpl.
    destruct IH as (ys & -> & Hys); [intros z Hz; apply Hf; now right |].
    simpl. exists (y :: ys); split; [reflexivity | constructor; assumption].
Qed.

Lemma dict_item_in {V : Type} (d : dict V) (k : string) :
  In k (dict_keys d) -> exists v, dict_item d k = Ok v /\ dict_find d k = Some v.
Proof.
  intros Hin. apply dict_find_in_keys in Hin. unfold dict_item.
  destruct (dict_find d k) as [v |]; [eauto | congruence].
Qed.

Lemma score_loop_ok (self : BM25Index) (query_tokens keys : list string)
    (scores0 : dict R) :
  index_ok self ->
  incl keys (dict_keys (corpus self)) ->
  Forall (Rle 0) (dict_values scores0) ->
  exists scores,
    for_each (score_step self query_tokens) keys scores0 = Ok scores /\
    Forall (Rle 0) (dict_values scores) /\
    incl (dict_keys scores) (dict_keys scores0 ++ keys) /\
    (List.length scores <= List.length scores0 + List.length keys)%nat /\
    (NoDup (dict_keys scores0 ++ keys) ->
     dict_keys scores = (dict_keys scores0 ++ keys)%list).
Proof.
  intros Hok. revert scores0.
  induction keys as [| k keys IH]; intros scores0 Hin Hnn.
  - simpl. exists scores0. rewrite app_nil_r.
    repeat split; auto using incl_refl. lia.
  - cbn [for_each]. unfold score_step at 1.
    destruct (_calculate_bm25_score_ok self k query_tokens Hok) as (s & -> & Hs).
    cbn [bind].
    destruct (dict_item_in (corpus self) k) as (doc & -> & _);
      [apply Hin; now left |].
    cbn [bind].
    destruct (IH (dict_set scores0 k (_apply_metadata_boosts s doc)))
      as (scores & Hrun & Hval & Hkeys & Hlen & Hnd).
    { intros x Hx; apply Hin; now right. }
    { apply dict_set_values; [exact Hnn |].
      now apply _apply_metadata_boosts_nonneg. }
    exists scores. split; [exact Hrun |]. split; [exact Hval |].
    pose proof (dict_set_length_le scores0 k (_apply_metadata_boosts s doc)).
    split; [| split].
    + intros x Hx. apply Hkeys in Hx. apply in_app_or in Hx.
      apply in_or_app. destruct Hx as [Hx | Hx]; [| right; now right].
      destruct (in_dec string_dec k (dict_keys scores0)) as [Hk | Hk].
      * rewrite dict_keys_set_in in Hx by assumption. now left.
      * rewrite dict_keys_set_notin in Hx by assumption.
        apply in_app_or in Hx. destruct Hx as [Hx | [<- | []]];
          [now left | right; now left].
    + cbn [List.length]. lia.
    + intros Hnodup.
      assert (Hk : ~ In k (dict_keys scores0)).
      { intros Hk. apply NoDup_remove_2 in Hnodup. apply Hnodup.
        apply in_or_app; now left. }
      rewrite Hnd; rewrite dict_keys_set_notin by assumption;
        rewrite <- app_assoc; [reflexivity | exact Hnodup].
Qed.

Lemma slice_to_length_le {A : Type} (l : list A) (k : Z) :
  (List.length (slice_to l k) <= List.length l)%nat.
Proof.
  unfold slice_to. destruct (0 <=? k)%Z; rewrite length_firstn; lia.
Qed.

Lemma slice_to_length {A : Type} (l : list A) (k : Z) :
  (0 <= k)%Z ->
  List.length (slice_to l k) = Nat.min (Z.to_nat k) (List.length l).
Proof.
  intros Hk. unfold slice_to.
  destruct (Z.leb_spec 0 k); [apply length_firstn | lia].
Qed.

Lemma firstn_incl {A : Type} (n : nat) (l : list A) : incl (firstn n l) l.
Proof.
  revert l; induction n as [| n IH]; intros [| y l] x; simpl; try tauto.
  intros [-> | Hx]; [now left | right; now apply IH].
Qed.

Lemma slice_to_incl {A : Type} (l : list A) (k : Z) : incl (slice_to l k) l.
Proof.
  unfold slice_to. destruct (0 <=? k)%Z; apply firstn_incl.
Qed.

Lemma Forall2_length_eq {A B : Type} (P : A -> B -> Prop) (l : list A)
    (l' : list B) :
  Forall2 P l l' -> List.length l' = List.length l.
Proof. induction 1; simpl; congruence. Qed.

(** [BM25Index.search] on an index that [_build_index] made: it returns,
    and says how many hits and of what sign. *)
Lemma BM25Index_search_ok (self : BM25Index) (query_text : string) (top_k : Z) :
  index_ok self ->
  exists res,
    BM25Index_search self query_text top_k = Ok res /\
    Forall (fun h => 0 <= snd h) res /\
    (List.length res <= List.length (corpus self))%nat /\
    ((0 <= top_k)%Z -> (List.length res <= Z.to_nat top_k)%nat) /\
    (_tokenize query_text = [] -> res = []) /\
    (_tokenize query_text <> [] -> dict_wf (corpus self) -> (0 <= top_k)%Z ->
     List.length res = Nat.min (Z.to_nat top_k) (List.length (corpus self))).
Proof.
  intros Hok. unfold BM25Index_search.
  destruct (_tokenize query_text) as [| t ts] eqn:Htok.
  - exists []. repeat split; auto; simpl; try lia. congruence.
  - destruct (score_loop_ok self (t :: ts) (dict_keys (corpus self)) [] Hok)
      as (scores & -> & Hval & Hkeys & Hlen & Hnd);
      [apply incl_refl | constructor |].
    cbn [bind]. simpl in Hkeys, Hlen, Hnd.
    set (ranked := sorted_reverse snd (dict_items scores)).
    assert (Hperm : Permutation scores ranked)
      by apply sorted_reverse_perm.
    destruct (map_result_Forall2
                (fun '(doc_id, score) =>
                   doc <- dict_item (corpus self) doc_id ;;
                   Ok (bm25_result_doc doc, score))
                (fun r h => snd h = snd r)
                (slice_to ranked top_k)) as (res & Hres & Hrel).
    { intros [doc_id s] Hx. apply slice_to_incl in Hx.
      apply (Permutation_in _ (Permutation_sym Hperm)) in Hx.
      destruct (dict_item_in (corpus self) doc_id) as (doc & -> & _).
      - apply Hkeys. unfold dict_keys. change doc_id with (fst (doc_id, s)).
        now apply in_map.
      - simpl. eauto. }
    exists res. split; [exact Hres |].
    pose proof (Forall2_length_eq _ _ _ Hrel) as Hlr.
    assert (Hrl : List.length ranked = List.length scores)
      by apply sorted_reverse_length.
    pose proof (slice_to_length_le ranked top_k) as Hsl.
    unfold dict_keys in Hlen; rewrite length_map in Hlen.
    split; [| split; [lia | split; [| split; [discriminate |]]]].
    + assert (Hsn : Forall (fun r : string * R => 0 <= snd r) (slice_to ranked top_k)).
      { apply Forall_forall. intros x Hx. apply slice_to_incl in Hx.
        apply (Permutation_in _ (Permutation_sym Hperm)) in Hx.
        unfold dict_values in Hval. rewrite Forall_forall in Hval.
        apply Hval. now apply in_map. }
      clear - Hrel Hsn. induction Hrel as [| r h l l' Hrh _ IH].
      * constructor.
      * inversion Hsn; subst. constructor; [rewrite Hrh; assumption | auto].
    + intros Hk. rewrite Hlr, slice_to_length by assumption. lia.
    + intros _ Hwf Hk. rewrite Hlr, slice_to_length, Hrl by assumption.
      f_equal. specialize (Hnd Hwf).
      apply (f_equal (@List.length string)) in Hnd.
      unfold dict_keys in Hnd. now rewrite !length_map in Hnd.
Qed.

Lemma search_in_corpus_ok (query_text : string) (c : dict Document) (top_k : Z) :
  exists res,
    search_in_corpus query_text c top_k = Ok res /\
    Forall (fun h => 0 <= snd h) res /\
    (List.length res <= List.length c)%nat /\
    ((0 <= top_k)%Z -> (List.length res <= Z.to_nat top_k)%nat) /\
    (_tokenize query_text = [] -> res = []) /\
    (_tokenize query_text <> [] -> dict_wf c -> (0 <= top_k)%Z ->
     List.length res = Nat.min (Z.to_nat top_k) (List.length c)).
Proof.
  unfold search_in_corpus.
  destruct (BM25Index_init_ok c 1.5 0.75) as (self & -> & Hok & Hc); try lra.
  cbn [bind]. rewrite <- Hc. apply BM25Index_search_ok, Hok.
Qed.

(** ** The hybrid reranker *)

Lemma collect_step_keeps (ad : option AnalyticsData) (st : collect_state)
    (cand : Document * R) (p : R) :
  price_bounded st p -> price_bounded (collect_step ad st cand) p.
Proof.
  intros (lo & hi & Hlo & Hhi & Hp). destruct cand as [doc s].
  unfold price_bounded, collect_step.
  destruct (selling_price doc) as [price |]; cbn.
  - rewrite Hlo, Hhi. unfold lower_min, raise_max.
    destruct (Rlt_dec price lo), (Rgt_dec price hi);
      do 2 eexists; repeat split; try reflexivity; lra.
  - eauto.
Qed.

Lemma collect_step_new (ad : option AnalyticsData) (st : collect_state)
    (doc : Document) (s p : R) :
  selling_price doc = Some p -> price_bounded (collect_step ad st (doc, s)) p.
Proof.
  intros Hp. unfold price_bounded, collect_step. rewrite Hp. cbn.
  unfold lower_min, raise_max.
  destruct (min_price st) as [lo |], (max_price st) as [hi |];
    try destruct (Rlt_dec p lo); try destruct (Rgt_dec p hi);
    do 2 eexists; repeat split; try reflexivity; lra.
Qed.

Lemma collect_fold_bounded (ad : option AnalyticsData)
    (cands : list (Document * R)) (st : collect_state) (p : R) :
  price_bounded st p \/
  (exists doc s, In (doc, s) cands /\ selling_price doc = Some p) ->
  price_bounded (fold_left (collect_step ad) cands st) p.
Proof.
  revert st; induction cands as [| [doc s] cands IH]; intros st H;
    cbn [fold_left].
  - destruct H as [H | (? & ? & [] & _)]; exact H.
  - apply IH. destruct H as [H | (doc' & s' & [Heq | Hin] & Hp)].
    + left. now apply collect_step_keeps.
    + left. inversion Heq; subst. now apply collect_step_new.
    + right. eauto.
Qed.

Lemma collect_bounded (ad : option AnalyticsData) (cands : list (Document * R))
    (doc : Document) (s p : R) :
  In (doc, s) cands -> selling_price doc = Some p ->
  price_bounded (collect ad cands) p.
Proof.
  intros Hin Hp. apply collect_fold_bounded. right. eauto.
Qed.

Lemma clamp01_bounds (x : R) : 0 <= clamp01 x <= 1.
Proof.
  unfold clamp01, Rmin, Rmax.
  destruct (Rle_dec x 0.0); destruct (Rle_dec _ 1.0); lra.
Qed.

Lemma fold_Rmax_ge (l : list R) (x : R) : x <= fold_left Rmax l x.
Proof.
  revert x; induction l as [| y l IH]; intros x; simpl.
  - lra.
  - eapply Rle_trans; [apply (Rmax_l x y) | apply IH].
Qed.

Lemma sim_norm_of_ok (max_bm25 s : R) :
  0 <= s -> 0 <= max_bm25 ->
  exists v, sim_norm_of max_bm25 s = Ok v /\ 0 <= v.
Proof.
  intros Hs Hm. unfold sim_norm_of.
  destruct (Req_dec_T max_bm25 0) as [Hz | Hnz].
  - exists 0.0; split; [reflexivity | lra].
  - rewrite pydiv_ok by assumption. eexists; split; [reflexivity |].
    apply Rmult_le_pos; [exact Hs |]. left; apply Rinv_0_lt_compat; lra.
Qed.

Lemma rating_norm_of_ok (doc : Document) :
  exists v, rating_norm_of doc = Ok v /\ 0 <= v <= 1.
Proof.
  unfold rating_norm_of. rewrite pydiv_ok by lra. simpl.
  eexists; split; [reflexivity | apply clamp01_bounds].
Qed.

Lemma discount_norm_of_ok (doc : Document) :
  exists v, discount_norm_of doc = Ok v /\ 0 <= v <= 1.
Proof.
  unfold discount_norm_of. rewrite pydiv_ok by lra. simpl.
  eexists; split; [reflexivity | apply clamp01_bounds].
Qed.

Lemma price_score_of_ok (st : collect_state) (doc : Document) :
  (forall p, selling_price doc = Some p -> price_bounded st p) ->
  exists v, price_score_of st doc = Ok v /\ 0 <= v <= 1.
Proof.
  intros Hb. unfold price_score_of.
  destruct (selling_price doc) as [p |];
    [| exists 0.5; split; [reflexivity | lra]].
  destruct (Hb p eq_refl) as (lo & hi & -> & -> & Hp).
  destruct (Req_dec_T hi lo) as [He | Hne];
    [exists 0.5; split; [reflexivity | lra] |].
  rewrite pydiv_ok by lra. simpl.
  eexists; split; [reflexivity |].
  assert (Hd : 0 < hi - lo) by lra.
  assert (H0 : 0 <= (p - lo) / (hi - lo)).
  { apply Rmult_le_pos; [lra | left; now apply Rinv_0_lt_compat]. }
  assert (H1 : (p - lo) / (hi - lo) <= 1).
  { apply (Rmult_le_reg_r (hi - lo)); [exact Hd |].
    unfold Rdiv. rewrite Rmult_assoc, Rinv_l by lra. lra. }
  lra.
Qed.

Lemma popularity_norm_of_ok (st : collect_state) (max_clicks : nat)
    (doc : Document) :
  exists v, popularity_norm_of st max_clicks doc = Ok v /\ 0 <= v.
Proof.
  unfold popularity_norm_of.
  destruct (Nat.eqb_spec max_clicks 0) as [Hz | Hnz].
  - exists 0.0; split; [reflexivity | lra].
  - assert (0 < INR max_clicks) by (apply lt_0_INR; lia).
    rewrite pydiv_ok by lra. eexists; split; [reflexivity |].
    apply Rmult_le_pos; [apply pos_INR | left; now apply Rinv_0_lt_compat].
Qed.

Lemma hybrid_step_ok (st : collect_state) (max_bm25 : R) (max_clicks : nat)
    (cand : Document * R) :
  0 <= snd cand -> 0 <= max_bm25 ->
  (forall p, selling_price (fst cand) = Some p -> price_bounded st p) ->
  exists x,
    hybrid_step st max_bm25 max_clicks cand = Ok (fst cand, x) /\
    final_score_of st max_bm25 max_clicks cand x /\ 0 <= x.
Proof.
  destruct cand as [doc s]. cbn [fst snd]. intros Hs Hm Hb.
  destruct (sim_norm_of_ok max_bm25 s Hs Hm) as (sim & Esim & Hsim).
  destruct (rating_norm_of_ok doc) as (rating & Erating & Hrating).
  destruct (discount_norm_of_ok doc) as (disc & Edisc & Hdisc).
  destruct (price_score_of_ok st doc Hb) as (price & Eprice & Hprice).
  destruct (popularity_norm_of_ok st max_clicks doc) as (pop & Epop & Hpop).
  exists (weighted sim rating disc price pop
          * (if out_of_stock doc then 1 else 1.05)).
  split; [| split].
  - unfold hybrid_step. rewrite Esim, Erating, Edisc, Eprice, Epop. cbn [bind].
    destruct (out_of_stock doc); cbn [negb]; do 2 f_equal; lra.
  - exists sim, rating, disc, price, pop. cbn [fst snd]. auto 8.
  - unfold weighted. destruct (out_of_stock doc); nra.
Qed.

Lemma max_bm25_of_ok (bm25_results : list (Document * R)) :
  Forall (fun h => 0 <= snd h) bm25_results ->
  exists m, max_bm25_of bm25_results = Ok m /\ 0 <= m.
Proof.
  intros Hnn. unfold max_bm25_of.
  destruct bm25_results as [| [doc s] rest]; simpl.
  - exists 1.0; split; [reflexivity | lra].
  - eexists; split; [reflexivity |].
    inversion Hnn; subst; simpl in *.
    eapply Rle_trans; [eassumption | apply fold_Rmax_ge].
Qed.

Lemma max_clicks_of_ok (st : collect_state) :
  exists m, max_clicks_of st = Ok m.
Proof.
  unfold max_clicks_of. destruct (click_counts st) as [| [k v] rest]; simpl; eauto.
Qed.

(** The loop that fills [hybrid_results] returns, one scored pair per
    candidate and in the candidates' order. *)
Lemma hybrid_scores_ok (ad : option AnalyticsData)
    (bm25_results : list (Document * R)) :
  Forall (fun h => 0 <= snd h) bm25_results ->
  exists max_bm25 max_clicks hybrid,
    max_bm25_of bm25_results = Ok max_bm25 /\
    max_clicks_of (collect ad bm25_results) = Ok max_clicks /\
    hybrid_scores ad bm25_results = Ok hybrid /\
    Forall2 (fun cand h =>
               fst h = fst cand /\
               final_score_of (collect ad bm25_results) max_bm25 max_clicks
                 cand (snd h) /\
               0 <= snd h)
      bm25_results hybrid.
Proof.
  intros Hnn.
  destruct (max_bm25_of_ok bm25_results Hnn) as (m & Hm & Hm0).
  destruct (max_clicks_of_ok (collect ad bm25_results)) as (mc & Hmc).
  exists m, mc. unfold hybrid_scores. rewrite Hm. cbn [bind]. rewrite Hmc.
  cbn [bind].
  destruct (map_result_Forall2
              (hybrid_step (collect ad bm25_results) m mc)
              (fun cand h =>
                 fst h = fst cand /\
                 final_score_of (collect ad bm25_results) m mc cand (snd h) /\
                 0 <= snd h)
              bm25_results) as (hybrid & Hrun & Hrel).
  { intros [doc s] Hin.
    destruct (hybrid_step_ok (collect ad bm25_results) m mc (doc, s))
      as (x & Hx & Hf & Hx0).
    - rewrite Forall_forall in Hnn. apply (Hnn _ Hin).
    - exact Hm0.
    - intros p Hp. eapply collect_bounded; eassumption.
    - exists (doc, x). auto. }
  exists hybrid. auto.
Qed.

(** ** What the constructor stores *)

Lemma BM25Index_init_inv (c : dict Document) (k b0 : R) (self : BM25Index) :
  BM25Index_init c k b0 = Ok self ->
  corpus self = c /\ k1 self = k /\ b self = b0 /\
  doc_frequencies self = bs_doc_frequencies (build_loop c) /\
  doc_lengths self = bs_doc_lengths (build_loop c) /\
  doc_term_freqs self = bs_doc_term_freqs (build_loop c) /\
  (c <> [] ->
   avg_doc_length self
   = INR (bs_total_length (build_loop c)) / INR (List.length c)) /\
  (c = [] -> avg_doc_length self = 0).
Proof.
  unfold BM25Index_init. intros H.
  apply bind_ok_inv in H. destruct H as (avg & Havg & H).
  inversion H; subst; clear H. cbn.
  repeat split; try reflexivity.
  - intros Hc. destruct c as [| x c]; [congruence |].
    change (0 <? List.length (x :: c))%nat with true in Havg.
    unfold pydiv in Havg.
    destruct (Req_dec_T (INR (List.length (x :: c))) 0); congruence.
  - intros ->. simpl in Havg. congruence.
Qed.

(** ** A corpus without tokens *)

Lemma build_fold_tokenless (items : list (string * Document)) (st : build_state) :
  Forall (fun item => _tokenize (doc_text (snd item)) = []) items ->
  (forall doc_id, dict_get (bs_doc_term_freqs st) doc_id [] = []) ->
  bs_total_length st = 0%nat ->
  (forall doc_id,
      dict_get (bs_doc_term_freqs (fold_left build_step items st)) doc_id [] = [])
  /\ bs_total_length (fold_left build_step items st) = 0%nat.
Proof.
  intros Hall. revert st.
  induction Hall as [| [id0 doc] items Htok _ IH]; intros st Hst Htot.
  - simpl. auto.
  - cbn [fold_left]. apply IH.
    + intros doc_id. cbn [build_step bs_doc_term_freqs]. cbn [snd] in Htok.
      rewrite dict_get_set, Htok.
      destruct (String.eqb doc_id id0); [reflexivity | apply Hst].
    + cbn [build_step bs_total_length]. cbn [snd] in Htok.
      rewrite Htok. simpl. lia.
Qed.

Lemma build_loop_tokenless (c : dict Document) :
  tokenless c ->
  (forall doc_id, dict_get (bs_doc_term_freqs (build_loop c)) doc_id [] = [])
  /\ bs_total_length (build_loop c) = 0%nat.
Proof.
  intros Hless. unfold build_loop.
  apply build_fold_tokenless; [exact Hless | reflexivity | reflexivity].
Qed.

Lemma for_each_bm25_tokenless (self : BM25Index) (doc_length : nat)
    (query_tokens : list string) (score : R) :
  for_each (bm25_term self doc_length []) query_tokens score = Ok score.
Proof.
  revert score; induction query_tokens as [| t ts IH]; intros score; simpl.
  - reflexivity.
  - apply IH.
Qed.

(** ** Scores that reach the hits *)

Lemma score_loop_values (P : R -> Prop) (self : BM25Index)
    (query_tokens keys : list string) (scores0 scores : dict R) :
  (forall doc_id s doc,
      _calculate_bm25_score self doc_id query_tokens = Ok s ->
      P (_apply_metadata_boosts s doc)) ->
  Forall P (dict_values scores0) ->
  for_each (score_step self query_tokens) keys scores0 = Ok scores ->
  Forall P (dict_values scores).
Proof.
  intros HP. revert scores0.
  induction keys as [| k keys IH]; intros scores0 H0 Hrun.
  - simpl in Hrun. inversion Hrun; subst. exact H0.
  - cbn [for_each] in Hrun.
    apply bind_ok_inv in Hrun. destruct Hrun as (scores1 & Hstep & Hrun).
    unfold score_step in Hstep.
    apply bind_ok_inv in Hstep. destruct Hstep as (s & Hs & Hstep).
    apply bind_ok_inv in Hstep. destruct Hstep as (doc & _ & Hstep).
    inversion Hstep; subst; clear Hstep.
    apply (IH _ (dict_set_values _ _ _ _ H0 (HP _ _ doc Hs)) Hrun).
Qed.

Lemma map_result_In {A B : Type} (f : A -> result B) (l : list A) (ys : list B)
    (y : B) :
  map_result f l = Ok ys -> In y ys -> exists x, In x l /\ f x = Ok y.
Proof.
  revert ys; induction l as [| x l IH]; intros ys Hrun Hin; simpl in Hrun.
  - inversion Hrun; subst. destruct Hin.
  - apply bind_ok_inv in Hrun. destruct Hrun as (y0 & Hy0 & Hrun).
    apply bind_ok_inv in Hrun. destruct Hrun as (ys0 & Hys0 & Hrun).
    inversion Hrun; subst; clear Hrun.
    destruct Hin as [<- | Hin].
    + exists x; split; [now left | exact Hy0].
    + destruct (IH _ Hys0 Hin) as (x' & Hx' & Hf). exists x'; split; [now right | exact Hf].
Qed.

Lemma BM25Index_search_values (P : R -> Prop) (self : BM25Index)
    (query_text : string) (top_k : Z) (res : list (Document * R)) :
  (forall doc_id s doc,
      _calculate_bm25_score self doc_id (_tokenize query_text) = Ok s ->
      P (_apply_metadata_boosts s doc)) ->
  BM25Index_search self query_text top_k = Ok res ->
  Forall (fun h => P (snd h)) res.
Proof.
  intros HP Hrun. unfold BM25Index_search in Hrun.
  destruct (_tokenize query_text) as [| t ts] eqn:Htok.
  - inversion Hrun; subst. constructor.
  - apply bind_ok_inv in Hrun. destruct Hrun as (scores & Hloop & Hrun).
    pose proof (score_loop_values P self (t :: ts) _ [] scores HP
                  (Forall_nil _) Hloop) as Hval.
    apply Forall_forall. intros [d x] Hin.
    destruct (map_result_In _ _ _ _ Hrun Hin) as ([doc_id x'] & Hsl & Hf).
    apply bind_ok_inv in Hf. destruct Hf as (doc & _ & Hf).
    inversion Hf; subst; clear Hf. cbn [snd].
    apply slice_to_incl in Hsl.
    apply (Permutation_in _ (Permutation_sym (sorted_reverse_perm snd _))) in Hsl.
    unfold dict_values in Hval. rewrite Forall_forall in Hval.
    apply (Hval x). change x with (snd (doc_id, x)). now apply in_map.
Qed.

(** ** The whole search *)

(** [SearchEngine.search] returns: the BM25 hits, rescored in their order
    and then sorted. *)
Lemma search_value_ok (search_query : string) (search_id : Z)
    (c : dict Document) (ad : option AnalyticsData) :
  exists bm25_results max_bm25 max_clicks hybrid,
    search_in_corpus search_query c 20 = Ok bm25_results /\
    max_bm25_of bm25_results = Ok max_bm25 /\
    max_clicks_of (collect ad bm25_results) = Ok max_clicks /\
    hybrid_scores ad bm25_results = Ok hybrid /\
    Forall2 (fun cand h =>
               fst h = fst cand /\
               final_score_of (collect ad bm25_results) max_bm25 max_clicks
                 cand (snd h) /\
               0 <= snd h)
      bm25_results hybrid /\
    search_value search_query search_id c ad
    = Ok (map (result_doc search_id) (sorted_reverse snd hybrid)).
Proof.
  destruct (search_in_corpus_ok search_query c 20)
    as (hits & Hhits & Hnn & _).
  destruct (hybrid_scores_ok ad hits Hnn)
    as (m & mc & hybrid & Hm & Hmc & Hhyb & Hrel).
  exists hits, m, mc, hybrid. repeat split; try assumption.
  unfold search_value. rewrite Hhits. cbn [bind].
  destruct hits as [| h hits].
  - inversion Hrel; subst. reflexivity.
  - rewrite Hhyb. reflexivity.
Qed.

Lemma search_value_length (search_query : string) (search_id : Z)
    (c : dict Document) (ad : option AnalyticsData) :
  exists bm25_results res,
    search_in_corpus search_query c 20 = Ok bm25_results /\
    search_value search_query search_id c ad = Ok res /\
    List.length res = List.length bm25_results.
Proof.
  destruct (search_value_ok search_query search_id c ad)
    as (hits & m & mc & hybrid & Hhits & _ & _ & _ & Hrel & Hval).
  exists hits, (map (result_doc search_id) (sorted_reverse snd hybrid)).
  repeat split; try assumption.
  rewrite length_map, sorted_reverse_length.
  apply (Forall2_length_eq _ _ _ Hrel).
Qed.

(* ================================================================== *)
(** * The claims *)

(** ** Metadata booster *)

Lemma highly_rated_spec (doc : Document) :
  highly_rated doc = rating_present_ge_4 doc.
Proof.
  unfold highly_rated, rating_present_ge_4.
  destruct (average_rating doc) as [r |]; [| reflexivity].
  destruct (Rge_dec r 4.0) as [Hge | Hlt]; [| apply andb_false_r].
  unfold Req_bool. destruct (Req_dec_T r 0); [lra | reflexivity].
Qed.

(** C3. The metadata boost is multiplicative: the raw score times 1.2 when
    the rating is present and at least 4.0, times 1.1 when the document is
    in stock, 1.32 when both hold and the raw score itself when neither
    does; a score of 0 stays 0; and two documents that agree on
    [average_rating] and [out_of_stock] get the same boost. *)
Theorem metadata_boost_multiplicative (s : R) (doc : Document) :
  _apply_metadata_boosts s doc
  = s * (if rating_present_ge_4 doc then 1.2 else 1)
      * (if out_of_stock doc then 1 else 1.1) /\
  (rating_present_ge_4 doc = true -> out_of_stock doc = false ->
   _apply_metadata_boosts s doc = s * 1.32) /\
  (rating_present_ge_4 doc = false -> out_of_stock doc = true ->
   _apply_metadata_boosts s doc = s) /\
  _apply_metadata_boosts 0 doc = 0 /\
  (forall doc',
      average_rating doc' = average_rating doc ->
      out_of_stock doc' = out_of_stock doc ->
      _apply_metadata_boosts s doc' = _apply_metadata_boosts s doc).
Proof.
  rewrite !boost_factor, highly_rated_spec.
  repeat split.
  - destruct (rating_present_ge_4 doc), (out_of_stock doc); simpl; lra.
  - intros -> ->. simpl. lra.
  - intros -> ->. simpl. lra.
  - lra.
  - intros doc' Hr Ho. rewrite boost_factor, highly_rated_spec.
    unfold rating_present_ge_4. rewrite Hr, Ho. reflexivity.
Qed.

(** ** Inverse document frequency *)

(** C4. On the index of any corpus, [_calculate_idf] returns for every
    term, seen or not, the value [ln((N - df + 0.5) / (df + 0.5) + 1)],
    which is strictly positive; and of two terms the one with the smaller
    document frequency has the strictly larger IDF. *)
Theorem idf_decreasing_positive (c : dict Document) (k b0 : R)
    (self : BM25Index) :
  BM25Index_init c k b0 = Ok self ->
  (forall t,
      let df := INR (dict_get (doc_frequencies self) t 0%nat) in
      let N := INR (List.length c) in
      0 <= df <= N /\
      _calculate_idf self t = Ok (ln ((N - df + 0.5) / (df + 0.5) + 1.0)) /\
      0 < ln ((N - df + 0.5) / (df + 0.5) + 1.0)) /\
  (forall t1 t2 v1 v2,
      (dict_get (doc_frequencies self) t1 0
       < dict_get (doc_frequencies self) t2 0)%nat ->
      _calculate_idf self t1 = Ok v1 ->
      _calculate_idf self t2 = Ok v2 ->
      v2 < v1).
Proof.
  intros Hinit.
  destruct (BM25Index_init_inv _ _ _ _ Hinit) as (Hc & _ & _ & Hdf & _).
  assert (Hbound : forall t,
             (dict_get (doc_frequencies self) t 0
              <= List.length (corpus self))%nat).
  { intros t. rewrite Hdf, Hc. apply build_loop_df. }
  split.
  - intros t df N.
    destruct (_calculate_idf_value self t Hbound) as (Hv & Hr & Hpos).
    rewrite Hc in Hv, Hr, Hpos. auto.
  - intros t1 t2 v1 v2 Hlt H1 H2.
    destruct (_calculate_idf_value self t1 Hbound) as (E1 & Hr1 & _).
    destruct (_calculate_idf_value self t2 Hbound) as (E2 & Hr2 & _).
    rewrite E1 in H1. rewrite E2 in H2.
    inversion H1; inversion H2; subst v1 v2.
    apply lt_INR in Hlt.
    set (N := INR (List.length (corpus self))) in *.
    set (d1 := INR (dict_get (doc_frequencies self) t1 0%nat)) in *.
    set (d2 := INR (dict_get (doc_frequencies self) t2 0%nat)) in *.
    pose proof (idf_arg_decreasing N d1 d2 ltac:(lra) ltac:(lra) Hlt).
    pose proof (idf_arg_pos N d2 ltac:(lra) ltac:(lra)).
    apply ln_increasing; lra.
Qed.

(** ** Division by the average document length *)

Lemma init_tf_positive (c : dict Document) (k b0 : R) (self : BM25Index)
    (doc_id term : string) :
  BM25Index_init c k b0 = Ok self ->
  dict_get (dict_get (doc_term_freqs self) doc_id []) term 0%nat <> 0%nat ->
  (0 < dict_get (doc_lengths self) doc_id 0)%nat /\
  c <> [] /\ 0 < avg_doc_length self.
Proof.
  intros Hinit Htf.
  destruct (BM25Index_init_inv _ _ _ _ Hinit)
    as (_ & _ & _ & _ & Hdl & Hdtf & Havg & _).
  rewrite Hdtf in Htf. apply build_loop_tf in Htf. destruct Htf as [Hlen Htot].
  assert (Hc : c <> []) by (intros ->; cbn in Htot; lia).
  rewrite Hdl, (Havg Hc). repeat split; try assumption.
  apply Rdiv_lt_0_compat; apply lt_0_INR; [exact Htot |].
  destruct c; [congruence | simpl; lia].
Qed.

(** C9. The division by [avg_doc_length] never divides by zero.  For a
    term whose frequency in the document is 0 the loop body keeps the score
    and evaluates no division; for a term whose frequency is not 0 the
    document has at least one token, the corpus is not empty, the average
    length is strictly positive and the division returns.  With [k1] and
    [b] in their ranges the whole score computation returns for every
    document id and query. *)
Theorem avg_doc_length_division_safe (c : dict Document) (k b0 : R)
    (self : BM25Index) :
  BM25Index_init c k b0 = Ok self ->
  (forall doc_id term score,
      let doc_length := dict_get (doc_lengths self) doc_id 0%nat in
      let term_freqs := dict_get (doc_term_freqs self) doc_id [] in
      let tf := dict_get term_freqs term 0%nat in
      (tf = 0%nat ->
       bm25_term self doc_length term_freqs score term = Ok score) /\
      (tf <> 0%nat ->
       (0 < doc_length)%nat /\ c <> [] /\ 0 < avg_doc_length self /\
       pydiv (b self * INR doc_length) (avg_doc_length self)
       = Ok (b self * INR doc_length / avg_doc_length self))) /\
  (0 <= k -> 0 <= b0 <= 1 ->
   forall doc_id query_tokens,
   exists score,
     _calculate_bm25_score self doc_id query_tokens = Ok score /\ 0 <= score).
Proof.
  intros Hinit. split.
  - intros doc_id term score doc_length term_freqs tf. split.
    + intros Htf. unfold bm25_term. fold tf. rewrite Htf. reflexivity.
    + intros Htf.
      destruct (init_tf_positive c k b0 self doc_id term Hinit Htf)
        as (Hlen & Hc & Havg).
      repeat split; try assumption.
      apply pydiv_ok. lra.
  - intros Hk Hb doc_id query_tokens.
    destruct (BM25Index_init_ok c k b0 Hk Hb) as (self' & Hinit' & Hok & _).
    rewrite Hinit in Hinit'. inversion Hinit'; subst self'.
    apply _calculate_bm25_score_ok, Hok.
Qed.

(** ** Size of the result *)

(** C6. The ranked result of [SearchEngine.search], which asks the BM25
    stage for 20 hits, has at most [min(20, |C|)] documents. *)
Theorem result_length_bound (search_query : string) (search_id : Z)
    (c : dict Document) (ad : option AnalyticsData) (stdout : list string) :
  exists res,
    fst (SearchEngine_search search_query search_id c ad stdout) = Ok res /\
    (List.length res <= Nat.min 20 (List.length c))%nat.
Proof.
  destruct (search_value_length search_query search_id c ad)
    as (hits & res & Hhits & Hres & Hlen).
  destruct (search_in_corpus_ok search_query c 20)
    as (hits' & Hhits' & _ & Hc & Hk & _).
  rewrite Hhits in Hhits'. inversion Hhits'; subst hits'.
  exists res. split; [exact Hres |].
  specialize (Hk ltac:(lia)). change (Z.to_nat 20) with 20%nat in Hk. lia.
Qed.

(** ** Empty inputs *)

(** C7. On an empty corpus, whatever the query, and on any corpus when the
    query tokenizes to nothing, [SearchEngine.search] returns the empty
    list, and returns it rather than raising. *)
Theorem empty_inputs_empty_result (search_query : string) (search_id : Z)
    (ad : option AnalyticsData) (stdout : list string) :
  fst (SearchEngine_search search_query search_id [] ad stdout) = Ok [] /\
  (forall c,
      _tokenize search_query = [] ->
      fst (SearchEngine_search search_query search_id c ad stdout) = Ok []).
Proof.
  split.
  - destruct (search_value_length search_query search_id [] ad)
      as (hits & res & Hhits & Hres & Hlen).
    destruct (search_in_corpus_ok search_query [] 20)
      as (hits' & Hhits' & _ & Hc & _).
    rewrite Hhits in Hhits'. inversion Hhits'; subst hits'.
    cbn [SearchEngine_search fst]. rewrite Hres.
    destruct res; [reflexivity | simpl in *; lia].
  - intros c Htok.
    destruct (search_in_corpus_ok search_query c 20)
      as (hits & Hhits & _ & _ & _ & Hempty & _).
    cbn [SearchEngine_search fst]. unfold search_value.
    rewrite Hhits, (Hempty Htok). reflexivity.
Qed.

(** ** Final scores *)

Lemma Forall2_In_r {A B : Type} (P : A -> B -> Prop) (l : list A) (l' : list B)
    (y : B) :
  Forall2 P l l' -> In y l' -> exists x, In x l /\ P x y.
Proof.
  induction 1 as [| x y0 l l' Hxy _ IH]; intros Hin.
  - destruct Hin.
  - destruct Hin as [<- | Hin].
    + exists x; split; [now left | exact Hxy].
    + destruct (IH Hin) as (x' & Hx' & HP). exists x'; split; [now right | exact HP].
Qed.

Lemma Forall2_map_fst {A B : Type} (P : A * B -> A * B -> Prop)
    (l l' : list (A * B)) :
  Forall2 (fun x y => fst y = fst x /\ P x y) l l' -> map fst l' = map fst l.
Proof.
  induction 1 as [| x y l l' [Hxy _] _ IH]; simpl; congruence.
Qed.

(** ** Order of the result *)

Lemma filter_map_comm {A B : Type} (f : B -> bool) (g : A -> B) (l : list A) :
  filter f (map g l) = map g (filter (fun x => f (g x)) l).
Proof.
  induction l as [| x l IH]; simpl; [reflexivity |].
  destruct (f (g x)); simpl; congruence.
Qed.

(** C2. The final sort is stable.  The reranker scores the BM25 hits in
    their order, sorts the scored pairs by final score, largest first, and
    among the pairs of any one final score [v] the sort keeps the BM25
    order: the returned documents that carry score [v] are exactly the
    candidates of final score [v], in the order the BM25 stage ranked
    them. *)
Theorem hybrid_sort_stable (search_query : string) (search_id : Z)
    (c : dict Document) (ad : option AnalyticsData) (stdout : list string) :
  exists bm25_results hybrid res,
    search_in_corpus search_query c 20 = Ok bm25_results /\
    hybrid_scores ad bm25_results = Ok hybrid /\
    map fst hybrid = map fst bm25_results /\
    fst (SearchEngine_search search_query search_id c ad stdout) = Ok res /\
    res = map (result_doc search_id) (sorted_reverse snd hybrid) /\
    descending snd (sorted_reverse snd hybrid) /\
    forall v,
      filter (fun h => Req_bool (snd h) v) (sorted_reverse snd hybrid)
      = filter (fun h => Req_bool (snd h) v) hybrid /\
      filter (has_score v) res
      = map (result_doc search_id)
          (filter (fun h => Req_bool (snd h) v) hybrid).
Proof.
  destruct (search_value_ok search_query search_id c ad)
    as (hits & m & mc & hybrid & Hhits & _ & _ & Hhyb & Hrel & Hval).
  exists hits, hybrid, (map (result_doc search_id) (sorted_reverse snd hybrid)).
  repeat split; try assumption.
  - apply (Forall2_map_fst _ _ _ Hrel).
  - apply sorted_reverse_descending.
  - apply sorted_reverse_stable.
  - rewrite filter_map_comm.
    rewrite <- (sorted_reverse_stable snd v hybrid).
    f_equal. apply filter_ext. intros [doc x]. reflexivity.
Qed.

(** ** A corpus in which no document has a token *)

(** C1, as the code has it.  When the corpus is not empty, every document
    tokenizes to nothing and the query has a token, the average document
    length is 0, yet the search does not skip scoring and does not return
    an empty result: no term frequency is positive, so no division is
    evaluated, every document scores 0 and is kept, and both the BM25 stage
    and the reranked result have [min(20, |C|)] entries, at least one. *)
Theorem tokenless_corpus_scores_zero (search_query : string) (search_id : Z)
    (c : dict Document) (ad : option AnalyticsData) (stdout : list string) :
  dict_wf c -> c <> [] -> tokenless c -> _tokenize search_query <> [] ->
  exists self hits res,
    BM25Index_init c 1.5 0.75 = Ok self /\
    avg_doc_length self = 0 /\
    search_in_corpus search_query c 20 = Ok hits /\
    Forall (fun h => snd h = 0) hits /\
    List.length hits = Nat.min 20 (List.length c) /\
    fst (SearchEngine_search search_query search_id c ad stdout) = Ok res /\
    List.length res = Nat.min 20 (List.length c) /\
    res <> [].
Proof.
  intros Hwf Hc Hless Htok.
  destruct (BM25Index_init_ok c 1.5 0.75) as (self & Hinit & _ & _); try lra.
  destruct (BM25Index_init_inv _ _ _ _ Hinit)
    as (_ & _ & _ & _ & _ & Hdtf & Havg & _).
  destruct (build_loop_tokenless c Hless) as (Hempty & Htot).
  destruct (search_in_corpus_ok search_query c 20)
    as (hits & Hhits & _ & _ & _ & _ & Hexact).
  specialize (Hexact Htok Hwf ltac:(lia)).
  change (Z.to_nat 20) with 20%nat in Hexact.
  destruct (search_value_length search_query search_id c ad)
    as (hits' & res & Hhits' & Hres & Hlen).
  rewrite Hhits in Hhits'. inversion Hhits'; subst hits'.
  exists self, hits, res. repeat split; try assumption.
  - rewrite (Havg Hc), Htot. simpl. lra.
  - pose proof Hhits as Hrun. unfold search_in_corpus in Hrun.
    rewrite Hinit in Hrun. cbn [bind] in Hrun.
    apply (BM25Index_search_values (fun v => v = 0) self search_query 20 hits);
      [| exact Hrun].
    intros doc_id s doc Hs. unfold _calculate_bm25_score in Hs.
    rewrite Hdtf, Hempty, for_each_bm25_tokenless in Hs.
    inversion Hs; subst s. rewrite boost_factor. lra.
  - congruence.
  - intros ->. simpl in Hlen. rewrite <- Hlen in Hexact.
    destruct c; [congruence | simpl in Hexact; lia].
Qed.

(* ================================================================== *)
(** * Further properties *)

(** ** Tokenizer *)

Lemma string_forallb_app (p : ascii -> bool) (s t : string) :
  string_forallb p (s ++ t) = string_forallb p s && string_forallb p t.
Proof.
  induction s as [| c s IH]; simpl; [reflexivity |].
  rewrite IH. apply andb_assoc.
Qed.

Lemma string_forallb_impl (p q : ascii -> bool) (s : string) :
  (forall c, p c = true -> q c = true) ->
  string_forallb p s = true -> string_forallb q s = true.
Proof.
  intros Hpq. induction s as [| c s IH]; simpl; [reflexivity |].
  intros H. apply andb_true_iff in H. destruct H as [Hc Hs].
  rewrite (Hpq c Hc), (IH Hs). reflexivity.
Qed.

(** The early return of [_tokenize] changes nothing: the empty text
    splits into no token anyway. *)
Lemma _tokenize_unfold (text : string) :
  _tokenize text
  = filter (fun t => negb (String.eqb t "") && negb (is_stopword t))
      (split (re_sub_special (lower text))).
Proof.
  unfold _tokenize. destruct (String.eqb_spec text "") as [-> | _]; reflexivity.
Qed.

Lemma re_sub_special_chars (s : string) :
  string_forallb (fun c => is_alnum c || is_space c) (re_sub_special s) = true.
Proof.
  unfold re_sub_special.
  induction s as [| c s IH]; simpl; [reflexivity |].
  rewrite IH, andb_true_r.
  destruct (is_alnum c || is_space c) eqn:E; [exact E | reflexivity].
Qed.

Lemma split_run_tokens (s cur : string) :
  string_forallb (fun c => is_alnum c || is_space c) s = true ->
  string_forallb is_alnum cur = true ->
  Forall (fun t => t <> "" /\ string_forallb is_alnum t = true)
    (split_run s cur).
Proof.
  revert cur; induction s as [| c s IH]; intros cur Hs Hcur; simpl.
  - destruct (String.eqb_spec cur ""); repeat constructor; assumption.
  - simpl in Hs. apply andb_true_iff in Hs. destruct Hs as [Hc Hs].
    destruct (is_space c) eqn:Esp.
    + destruct (String.eqb_spec cur "").
      * apply IH; [exact Hs | reflexivity].
      * constructor; [split; assumption |]. apply IH; [exact Hs | reflexivity].
    + apply IH; [exact Hs |].
      rewrite string_forallb_app, Hcur. simpl.
      rewrite orb_false_r in Hc. rewrite Hc. reflexivity.
Qed.

Lemma split_normal_tokens (text : string) :
  Forall (fun t => t <> "" /\ string_forallb is_alnum t = true)
    (split (re_sub_special (lower text))).
Proof.
  exact (split_run_tokens (re_sub_special (lower text)) ""
           (re_sub_special_chars _) eq_refl).
Qed.

(** X1. Every token that [_tokenize] returns is non-empty, consists of the
    characters [a-z0-9] only, and is not a stopword. *)
Theorem tokens_are_normal (text : string) :
  Forall (fun t =>
            t <> "" /\ string_forallb is_alnum t = true /\
            is_stopword t = false)
    (_tokenize text).
Proof.
  rewrite _tokenize_unfold. apply Forall_forall. intros t Ht.
  apply filter_In in Ht. destruct Ht as [Hin Hkeep].
  apply andb_true_iff in Hkeep. destruct Hkeep as [_ Hstop].
  apply negb_true_iff in Hstop.
  pose proof (split_normal_tokens text) as Hall.
  rewrite Forall_forall in Hall. destruct (Hall t Hin) as [Hne Hal].
  auto.
Qed.

Lemma same_char_for_search_spec (c d : ascii) :
  same_char_for_search c d = true ->
  let f := fun a =>
             (fun a' => if is_alnum a' || is_space a' then a' else " "%char)
               (lower_char a) in
  f c = f d \/ (is_space (f c) = true /\ is_space (f d) = true).
Proof.
  unfold same_char_for_search. cbv zeta.
  set (n1 := nat_of_ascii c). set (n2 := nat_of_ascii d).
  assert (Hc : c = ascii_of_nat n1) by (symmetry; apply ascii_nat_embedding).
  assert (Hd : d = ascii_of_nat n2) by (symmetry; apply ascii_nat_embedding).
  assert (Hn1 : (n1 < 256)%nat) by apply nat_ascii_bounded.
  assert (Hn2 : (n2 < 256)%nat) by apply nat_ascii_bounded.
  assert (Hup : forall a n, n = nat_of_ascii a -> code_upper n = true ->
                            (n + 32 < 256)%nat ->
                            lower_char a = ascii_of_nat (n + 32)).
  { intros a n -> Hu _. unfold lower_char, in_range.
    unfold code_upper in Hu. now rewrite Hu. }
  assert (Hlow : forall a n, n = nat_of_ascii a -> code_upper n = false ->
                             lower_char a = a).
  { intros a n -> Hu. unfold lower_char, in_range.
    unfold code_upper in Hu. now rewrite Hu. }
  assert (Hsep : forall a n, n = nat_of_ascii a -> code_separator n = true ->
                             is_space
                               (if is_alnum (lower_char a)
                                   || is_space (lower_char a)
                                then lower_char a else " "%char) = true).
  { intros a n Hn Hs. unfold code_separator in Hs.
    apply negb_true_iff in Hs. apply orb_false_iff in Hs.
    destruct Hs as [Hs Hdig]. apply orb_false_iff in Hs.
    destruct Hs as [Hu Hl].
    rewrite (Hlow a n Hn Hu).
    assert (Hal : is_alnum a = false).
    { unfold is_alnum, in_range. rewrite <- Hn.
      unfold code_lower in Hl. unfold code_digit in Hdig.
      now rewrite Hl, Hdig. }
    rewrite Hal. simpl. destruct (is_space a) eqn:E; [exact E | reflexivity]. }
  intros H. apply orb_true_iff in H. destruct H as [H | H].
  - apply orb_true_iff in H. destruct H as [H | H].
    + apply orb_true_iff in H. destruct H as [H | H].
      * apply Nat.eqb_eq in H. left.
        assert (E : c = d) by congruence. now rewrite E.
      * apply andb_true_iff in H. destruct H as [Hu H].
        apply Nat.eqb_eq in H. left.
        unfold code_upper in Hu. apply andb_true_iff in Hu.
        destruct Hu as [Hu1 Hu2].
        apply Nat.leb_le in Hu1. apply Nat.leb_le in Hu2.
        rewrite (Hup c n1 eq_refl); [| unfold code_upper;
          apply andb_true_iff; split; now apply Nat.leb_le | lia].
        rewrite <- H, <- Hd.
        rewrite (Hlow d n2 eq_refl); [reflexivity |].
        unfold code_upper. apply andb_false_iff. right.
        apply Nat.leb_gt. lia.
    + apply andb_true_iff in H. destruct H as [Hu H].
      apply Nat.eqb_eq in H. left.
      unfold code_upper in Hu. apply andb_true_iff in Hu.
      destruct Hu as [Hu1 Hu2].
      apply Nat.leb_le in Hu1. apply Nat.leb_le in Hu2.
      rewrite (Hup d n2 eq_refl); [| unfold code_upper;
        apply andb_true_iff; split; now apply Nat.leb_le | lia].
      rewrite <- H, <- Hc.
      rewrite (Hlow c n1 eq_refl); [reflexivity |].
      unfold code_upper. apply andb_false_iff. right.
      apply Nat.leb_gt. lia.
  - apply andb_true_iff in H. destruct H as [H1 H2]. right. split.
    + exact (Hsep c n1 eq_refl H1).
    + exact (Hsep d n2 eq_refl H2).
Qed.

Lemma split_run_cons (c : ascii) (s cur : string) :
  split_run (String c s) cur
  = if is_space c then
      if String.eqb cur "" then split_run s "" else cur :: split_run s ""
    else split_run s (cur ++ String c "").
Proof. reflexivity. Qed.

Lemma split_run_same_text (s t cur : string) :
  same_text_for_search s t = true ->
  split_run (re_sub_special (lower s)) cur
  = split_run (re_sub_special (lower t)) cur.
Proof.
  revert t cur. induction s as [| c s IH]; intros [| d t] cur;
    cbn [same_text_for_search]; try discriminate; [reflexivity |].
  intros H. apply andb_true_iff in H. destruct H as [Hcd Hst].
  pose proof (same_char_for_search_spec c d Hcd) as Hf. cbv zeta beta in Hf.
  set (f := fun a => if is_alnum (lower_char a) || is_space (lower_char a)
                     then lower_char a else " "%char).
  change (f c = f d \/ (is_space (f c) = true /\ is_space (f d) = true))
    in Hf.
  change (split_run (String (f c) (re_sub_special (lower s))) cur
          = split_run (String (f d) (re_sub_special (lower t))) cur).
  rewrite !split_run_cons.
  destruct Hf as [Hf | [Hc Hd]].
  - rewrite Hf.
    destruct (is_space (f d)); [destruct (String.eqb cur ""); [| f_equal] |];
      apply IH; exact Hst.
  - rewrite Hc, Hd.
    destruct (String.eqb cur ""); [| f_equal]; apply IH; exact Hst.
Qed.

(** X2. The search ignores letter case and separators: when two queries
    have the same length and agree character by character up to the case
    of ASCII letters and up to the choice of separator (any character that
    is neither an ASCII letter nor a digit: blanks, punctuation), they have
    the same tokens, and [SearchEngine.search] returns the same documents
    with the same scores for both, on every corpus. *)
Theorem search_ignores_case_and_punctuation (q1 q2 : string) (search_id : Z)
    (c : dict Document) (ad : option AnalyticsData) (stdout : list string) :
  same_text_for_search q1 q2 = true ->
  _tokenize q1 = _tokenize q2 /\
  fst (SearchEngine_search q1 search_id c ad stdout)
  = fst (SearchEngine_search q2 search_id c ad stdout).
Proof.
  intros H.
  assert (Htok : _tokenize q1 = _tokenize q2).
  { rewrite !_tokenize_unfold. unfold split.
    now rewrite (split_run_same_text q1 q2 "" H). }
  split; [exact Htok |].
  cbn [SearchEngine_search fst].
  unfold search_value, search_in_corpus, BM25Index_search.
  rewrite Htok. reflexivity.
Qed.

Lemma alnum_not_upper (c : ascii) :
  is_alnum c || is_space c = true -> in_range 65 90 c = false.
Proof.
  unfold is_alnum, is_space, in_range.
  set (n := nat_of_ascii c).
  repeat match goal with
         | |- context [(?a <=? ?b)%nat] => destruct (Nat.leb_spec a b)
         end; simpl; intros Hgoal; try reflexivity; try discriminate; lia.
Qed.

Lemma alnum_not_space (c : ascii) : is_alnum c = true -> is_space c = false.
Proof.
  unfold is_alnum, is_space, in_range.
  set (n := nat_of_ascii c).
  repeat match goal with
         | |- context [(?a <=? ?b)%nat] => destruct (Nat.leb_spec a b)
         end; simpl; intros Hgoal; try reflexivity; try discriminate; lia.
Qed.

Lemma lower_fixed (s : string) :
  string_forallb (fun c => is_alnum c || is_space c) s = true -> lower s = s.
Proof.
  unfold lower. induction s as [| c s IH]; simpl; [reflexivity |].
  intros H. apply andb_true_iff in H. destruct H as [Hc Hs].
  rewrite (IH Hs). unfold lower_char. rewrite (alnum_not_upper c Hc). reflexivity.
Qed.

Lemma re_sub_special_fixed (s : string) :
  string_forallb (fun c => is_alnum c || is_space c) s = true ->
  re_sub_special s = s.
Proof.
  unfold re_sub_special. induction s as [| c s IH]; simpl; [reflexivity |].
  intros H. apply andb_true_iff in H. destruct H as [Hc Hs].
  rewrite Hc, (IH Hs). reflexivity.
Qed.

Lemma string_app_assoc (s t u : string) : ((s ++ t) ++ u = s ++ (t ++ u))%string.
Proof. induction s as [| c s IH]; simpl; [reflexivity | now rewrite IH]. Qed.

Lemma string_app_nil_r (s : string) : (s ++ "")%string = s.
Proof. induction s as [| c s IH]; simpl; [reflexivity | now rewrite IH]. Qed.

Lemma split_run_token (t rest cur : string) :
  string_forallb is_alnum t = true ->
  split_run (t ++ rest) cur = split_run rest (cur ++ t).
Proof.
  revert cur; induction t as [| c t IH]; intros cur Ht; simpl.
  - now rewrite string_app_nil_r.
  - simpl in Ht. apply andb_true_iff in Ht. destruct Ht as [Hc Ht].
    rewrite (alnum_not_space c Hc), (IH _ Ht), string_app_assoc. reflexivity.
Qed.

Lemma join_space_chars (tokens : list string) :
  Forall (fun t => string_forallb is_alnum t = true) tokens ->
  string_forallb (fun c => is_alnum c || is_space c) (join_space tokens) = true.
Proof.
  unfold join_space.
  induction 1 as [| t ts Ht _ IH]; [reflexivity |].
  assert (Hw : string_forallb (fun c => is_alnum c || is_space c) t = true).
  { apply (string_forallb_impl is_alnum); [| exact Ht].
    intros c Hc. now rewrite Hc. }
  destruct ts as [| t' ts]; [exact Hw |].
  change (String.concat " " (t :: t' :: ts))
    with (t ++ " " ++ String.concat " " (t' :: ts))%string.
  rewrite !string_forallb_app, Hw, IH. reflexivity.
Qed.

Lemma split_join_space (tokens : list string) :
  Forall (fun t => t <> "" /\ string_forallb is_alnum t = true) tokens ->
  split (join_space tokens) = tokens.
Proof.
  unfold split, join_space.
  induction 1 as [| t ts [Hne Ht] _ IH]; [reflexivity |].
  destruct ts as [| t' ts].
  - cbn [String.concat]. rewrite <- (string_app_nil_r t) at 1.
    rewrite (split_run_token t "" "" Ht). simpl.
    destruct (String.eqb_spec t ""); [contradiction | reflexivity].
  - change (String.concat " " (t :: t' :: ts))
      with (t ++ String " " (String.concat " " (t' :: ts)))%string.
    rewrite (split_run_token t _ "" Ht).
    cbn [append split_run]. change (is_space " ") with true. cbv iota.
    destruct (String.eqb_spec t ""); [contradiction |].
    f_equal. exact IH.
Qed.

(** X3. Tokenizing is idempotent: joining the tokens of a text with
    spaces and tokenizing again gives the same tokens. *)
Theorem tokenize_join_tokenize (text : string) :
  _tokenize (join_space (_tokenize text)) = _tokenize text.
Proof.
  assert (Hn : Forall (fun t =>
                         t <> "" /\ string_forallb is_alnum t = true /\
                         is_stopword t = false)
                 (_tokenize text)).
  { rewrite _tokenize_unfold. apply Forall_forall. intros t Ht.
    apply filter_In in Ht. destruct Ht as [Hin Hkeep].
    apply andb_true_iff in Hkeep. destruct Hkeep as [_ Hstop].
    apply negb_true_iff in Hstop.
    pose proof (split_normal_tokens text) as Hall.
    rewrite Forall_forall in Hall. destruct (Hall t Hin) as [Hne Hal].
    auto. }
  rewrite (_tokenize_unfold (join_space (_tokenize text))).
  assert (Hal : Forall (fun t => string_forallb is_alnum t = true)
                  (_tokenize text)).
  { eapply Forall_impl; [| exact Hn]. intros t H; apply H. }
  rewrite (lower_fixed _ (join_space_chars _ Hal)).
  rewrite (re_sub_special_fixed _ (join_space_chars _ Hal)).
  rewrite split_join_space.
  - apply forallb_filter_id. apply forallb_forall. intros t Ht.
    rewrite Forall_forall in Hn. destruct (Hn t Ht) as (Hne & _ & Hstop).
    rewrite Hstop. destruct (String.eqb_spec t ""); [contradiction | reflexivity].
  - eapply Forall_impl; [| exact Hn]. intros t (H1 & H2 & _); auto.
Qed.

Lemma string_map_app (f : ascii -> ascii) (s t : string) :
  string_map f (s ++ t) = (string_map f s ++ string_map f t)%string.
Proof. induction s as [| c s IH]; simpl; [reflexivity | now rewrite IH]. Qed.

Lemma split_run_space_app (s t cur : string) :
  split_run (s ++ String " " t) cur = (split_run s cur ++ split_run t "")%list.
Proof.
  revert cur; induction s as [| c s IH]; intros cur.
  - cbn [append split_run]. change (is_space " ") with true. cbv iota.
    destruct (String.eqb cur ""); reflexivity.
  - cbn [append split_run].
    destruct (is_space c); [| apply IH].
    destruct (String.eqb cur ""); [apply IH |].
    rewrite IH. reflexivity.
Qed.

Lemma _tokenize_space_app (s t : string) :
  _tokenize (s ++ " " ++ t) = (_tokenize s ++ _tokenize t)%list.
Proof.
  rewrite !_tokenize_unfold. unfold lower, re_sub_special, split.
  rewrite !string_map_app. cbn [string_map append].
  change (lower_char " ") with " "%char.
  change (if is_alnum " " || is_space " " then " "%char else " "%char)
    with " "%char.
  rewrite split_run_space_app, filter_app. reflexivity.
Qed.

(** X25. Concatenation with a space keeps the words apart: the tokens of
    [s + " " + t] are the tokens of [s] followed by the tokens of [t].  So
    the tokens that [_build_index] reads for a document are the tokens of
    its title followed by the tokens of its description, a missing one
    contributing none, and the document length is the sum of the two
    counts. *)
Theorem tokens_of_title_and_description (doc : Document) (s t : string) :
  _tokenize (s ++ " " ++ t) = (_tokenize s ++ _tokenize t)%list /\
  doc_tokens doc
  = (_tokenize (or_empty (title doc))
     ++ _tokenize (or_empty (description doc)))%list /\
  List.length (doc_tokens doc)
  = (List.length (_tokenize (or_empty (title doc)))
     + List.length (_tokenize (or_empty (description doc))))%nat.
Proof.
  split; [apply _tokenize_space_app |].
  assert (E : doc_tokens doc
              = (_tokenize (or_empty (title doc))
                 ++ _tokenize (or_empty (description doc)))%list).
  { unfold doc_tokens, doc_text. apply _tokenize_space_app. }
  split; [exact E |]. rewrite E. apply length_app.
Qed.

(** ** Index builder *)

Lemma dict_set_notin_app {V : Type} (d : dict V) (k : string) (v : V) :
  ~ In k (dict_keys d) -> dict_set d k v = (d ++ [(k, v)])%list.
Proof.
  induction d as [| [k0 v0] d IH]; simpl; [reflexivity |].
  intros Hnin. destruct (String.eqb_spec k k0) as [-> | Hne].
  - exfalso; auto.
  - f_equal. apply IH. auto.
Qed.

Lemma dict_find_map_item {A V : Type} (f : A -> V) (l : list (string * A))
    (k : string) :
  dict_find (map (fun item => (fst item, f (snd item))) l) k
  = option_map f (dict_find l k).
Proof.
  induction l as [| [k0 a] l IH]; simpl; [reflexivity |].
  destruct (String.eqb k k0); [reflexivity | exact IH].
Qed.

Lemma dict_find_In {V : Type} (d : dict V) (k : string) (v : V) :
  dict_wf d -> In (k, v) d -> dict_find d k = Some v.
Proof.
  unfold dict_wf, dict_keys.
  induction d as [| [k0 v0] d IH]; simpl; [tauto |].
  intros Hnd [Heq | Hin].
  - inversion Heq; subst. now rewrite String.eqb_refl.
  - inversion Hnd as [| ? ? Hk0 Hd]; subst.
    destruct (String.eqb_spec k k0) as [-> | _]; [| now apply IH].
    exfalso. apply Hk0. change k0 with (fst (k0, v)). now apply in_map.
Qed.

Lemma dict_find_Some_In {V : Type} (d : dict V) (k : string) (v : V) :
  dict_find d k = Some v -> In (k, v) d.
Proof.
  induction d as [| [k0 v0] d IH]; simpl; [discriminate |].
  destruct (String.eqb_spec k k0) as [-> | _].
  - intros H; inversion H; subst. now left.
  - intros H. right. now apply IH.
Qed.

(** On distinct keys the loop of [_build_index] appends one entry per
    document, in corpus order, to both per-document tables. *)
Lemma build_fold_tables (items : list (string * Document)) (st : build_state) :
  NoDup (dict_keys (bs_doc_lengths st) ++ map fst items) ->
  NoDup (dict_keys (bs_doc_term_freqs st) ++ map fst items) ->
  bs_doc_lengths (fold_left build_step items st)
  = (bs_doc_lengths st
     ++ map (fun item => (fst item, List.length (doc_tokens (snd item)))) items)%list
  /\
  bs_doc_term_freqs (fold_left build_step items st)
  = (bs_doc_term_freqs st
     ++ map (fun item => (fst item, Counter (doc_tokens (snd item)))) items)%list.
Proof.
  revert st; induction items as [| [id0 doc] items IH]; intros st H1 H2.
  - simpl. now rewrite !app_nil_r.
  - cbn [fold_left].
    assert (K1 : ~ In id0 (dict_keys (bs_doc_lengths st))).
    { intros Hin. apply NoDup_remove_2 in H1. apply H1, in_or_app. now left. }
    assert (K2 : ~ In id0 (dict_keys (bs_doc_term_freqs st))).
    { intros Hin. apply NoDup_remove_2 in H2. apply H2, in_or_app. now left. }
    destruct (IH (build_step st (id0, doc))) as [E1 E2].
    + cbn [build_step bs_doc_lengths].
      rewrite dict_keys_set_notin by assumption.
      rewrite <- app_assoc. exact H1.
    + cbn [build_step bs_doc_term_freqs].
      rewrite dict_keys_set_notin by assumption.
      rewrite <- app_assoc. exact H2.
    + rewrite E1, E2. cbn [build_step bs_doc_lengths bs_doc_term_freqs].
      rewrite !dict_set_notin_app by assumption.
      rewrite <- !app_assoc. split; reflexivity.
Qed.

Lemma build_loop_tables (c : dict Document) :
  dict_wf c ->
  bs_doc_lengths (build_loop c)
  = map (fun item => (fst item, List.length (doc_tokens (snd item)))) c /\
  bs_doc_term_freqs (build_loop c)
  = map (fun item => (fst item, Counter (doc_tokens (snd item)))) c.
Proof.
  intros Hwf. unfold build_loop. apply build_fold_tables; exact Hwf.
Qed.

Lemma build_fold_total (items : list (string * Document)) (st : build_state) :
  bs_total_length (fold_left build_step items st)
  = (bs_total_length st
     + list_sum (map (fun item => List.length (doc_tokens (snd item))) items))%nat.
Proof.
  revert st; induction items as [| [id0 doc] items IH]; intros st.
  - simpl. lia.
  - cbn [fold_left]. rewrite IH. cbn [build_step bs_total_length map list_sum fold_right snd].
    fold (doc_tokens doc). unfold list_sum. lia.
Qed.

Lemma Counter_get (tokens : list string) (t : string) :
  dict_get (Counter tokens) t 0%nat = count_occ string_dec tokens t.
Proof. exact (bump_frequencies_get [] tokens t). Qed.

Lemma bump_frequencies_keys (df : dict nat) (terms : list string) (t : string) :
  In t (dict_keys (bump_frequencies df terms)) <->
  In t (dict_keys df) \/ In t terms.
Proof.
  unfold bump_frequencies.
  revert df; induction terms as [| u us IH]; intros df; cbn [fold_left].
  - simpl. tauto.
  - rewrite IH.
    destruct (in_dec string_dec u (dict_keys df)) as [Hin | Hnin].
    + rewrite dict_keys_set_in by assumption. simpl.
      split; [intros [H | H]; auto | intros [H | [<- | H]]; auto].
    + rewrite dict_keys_set_notin by assumption. rewrite in_app_iff. simpl.
      tauto.
Qed.

Lemma Counter_keys (tokens : list string) (t : string) :
  In t (dict_keys (Counter tokens)) <-> In t tokens.
Proof.
  unfold Counter. rewrite (bump_frequencies_keys [] tokens t). simpl. tauto.
Qed.

Lemma Counter_keys_count (tokens : list string) (t : string) :
  count_occ string_dec (dict_keys (Counter tokens)) t
  = if existsb (String.eqb t) tokens then 1%nat else 0%nat.
Proof.
  pose proof (proj1 (NoDup_count_occ string_dec _) (Counter_wf tokens) t) as Hle.
  destruct (existsb (String.eqb t) tokens) eqn:E.
  - apply existsb_exists in E. destruct E as (u & Hu & Heq).
    apply String.eqb_eq in Heq. subst u.
    apply Counter_keys in Hu.
    apply (count_occ_In string_dec) in Hu. lia.
  - apply (count_occ_not_In string_dec). rewrite Counter_keys. intros Hin.
    assert (existsb (String.eqb t) tokens = true).
    { apply existsb_exists. exists t. split; [exact Hin | apply String.eqb_refl]. }
    congruence.
Qed.

Lemma build_fold_df_exact (items : list (string * Document)) (st : build_state)
    (t : string) :
  dict_get (bs_doc_frequencies (fold_left build_step items st)) t 0%nat
  = (dict_get (bs_doc_frequencies st) t 0
     + List.length
         (filter (fun item => existsb (String.eqb t) (doc_tokens (snd item)))
            items))%nat.
Proof.
  revert st; induction items as [| [id0 doc] items IH]; intros st.
  - simpl. lia.
  - cbn [fold_left]. rewrite IH. cbn [build_step bs_doc_frequencies filter snd].
    rewrite bump_frequencies_get, Counter_keys_count. fold (doc_tokens doc).
    destruct (existsb (String.eqb t) (doc_tokens doc)); simpl; lia.
Qed.

(** X4. The per-document tables of the index list the documents of the
    corpus in corpus order: [doc_lengths] holds each document's token
    count and [doc_term_freqs] its [Counter].  So looking up a document of
    the corpus gives the length of its token list and, per term, the number
    of times the term occurs in it; an id outside the corpus has length 0
    and no term frequencies. *)
Theorem index_tables_follow_corpus (c : dict Document) (k b0 : R)
    (self : BM25Index) :
  BM25Index_init c k b0 = Ok self -> dict_wf c ->
  doc_lengths self
  = map (fun item => (fst item, List.length (doc_tokens (snd item)))) c /\
  doc_term_freqs self
  = map (fun item => (fst item, Counter (doc_tokens (snd item)))) c /\
  (forall doc_id doc,
      In (doc_id, doc) c ->
      dict_get (doc_lengths self) doc_id 0%nat = List.length (doc_tokens doc) /\
      forall t,
        dict_get (dict_get (doc_term_freqs self) doc_id []) t 0%nat
        = count_occ string_dec (doc_tokens doc) t) /\
  (forall doc_id,
      ~ In doc_id (dict_keys c) ->
      dict_get (doc_lengths self) doc_id 0%nat = 0%nat /\
      dict_get (doc_term_freqs self) doc_id [] = []).
Proof.
  intros Hinit Hwf.
  destruct (BM25Index_init_inv _ _ _ _ Hinit)
    as (_ & _ & _ & _ & Hdl & Hdtf & _).
  destruct (build_loop_tables c Hwf) as [E1 E2].
  rewrite Hdl, Hdtf, E1, E2.
  split; [reflexivity |]. split; [reflexivity |]. split.
  - intros doc_id doc Hin.
    pose proof (dict_find_In c doc_id doc Hwf Hin) as Hfind.
    unfold dict_get at 1 3.
    rewrite (dict_find_map_item (fun d => List.length (doc_tokens d))),
            (dict_find_map_item (fun d => Counter (doc_tokens d))), Hfind.
    simpl. split; [reflexivity |]. intros t. apply Counter_get.
  - intros doc_id Hnin.
    assert (Hfind : dict_find c doc_id = None).
    { destruct (dict_find c doc_id) eqn:E; [| reflexivity].
      exfalso. apply Hnin. apply dict_find_in_keys. congruence. }
    unfold dict_get.
    rewrite (dict_find_map_item (fun d => List.length (doc_tokens d))),
            (dict_find_map_item (fun d => Counter (doc_tokens d))), Hfind.
    simpl. auto.
Qed.

(** X5. The document frequency of a term is the number of corpus
    documents in whose token list the term occurs, however often it occurs
    in each; a term of no document has frequency 0. *)
Theorem document_frequency_counts_documents (c : dict Document) (k b0 : R)
    (self : BM25Index) (t : string) :
  BM25Index_init c k b0 = Ok self ->
  dict_get (doc_frequencies self) t 0%nat
  = List.length
      (filter (fun item => existsb (String.eqb t) (doc_tokens (snd item))) c).
Proof.
  intros Hinit.
  destruct (BM25Index_init_inv _ _ _ _ Hinit) as (_ & _ & _ & Hdf & _).
  rewrite Hdf. unfold build_loop, dict_items.
  rewrite build_fold_df_exact. reflexivity.
Qed.

(** X6. The average document length is the mean of the stored document
    lengths: on a non-empty corpus it is the sum of [doc_lengths], which is
    the total number of tokens of the corpus, divided by the number of
    documents; on the empty corpus it is 0; it is never negative. *)
Theorem avg_doc_length_is_mean (c : dict Document) (k b0 : R)
    (self : BM25Index) :
  BM25Index_init c k b0 = Ok self -> dict_wf c ->
  (c <> [] ->
   avg_doc_length self
   = INR (list_sum (dict_values (doc_lengths self))) / INR (List.length c)) /\
  (c = [] -> avg_doc_length self = 0) /\
  list_sum (dict_values (doc_lengths self))
  = list_sum (map (fun item => List.length (doc_tokens (snd item))) c) /\
  0 <= avg_doc_length self.
Proof.
  intros Hinit Hwf.
  destruct (BM25Index_init_inv _ _ _ _ Hinit)
    as (_ & _ & _ & _ & Hdl & _ & Havg & Havg0).
  destruct (build_loop_tables c Hwf) as [E1 _].
  assert (Hsum : list_sum (dict_values (doc_lengths self))
                 = list_sum (map (fun item => List.length (doc_tokens (snd item))) c)).
  { rewrite Hdl, E1. unfold dict_values. rewrite map_map. reflexivity. }
  assert (Htot : bs_total_length (build_loop c)
                 = list_sum (map (fun item => List.length (doc_tokens (snd item))) c)).
  { unfold build_loop, dict_items. rewrite build_fold_total. reflexivity. }
  split; [| split; [| split]].
  - intros Hc. rewrite (Havg Hc), Hsum, <- Htot. reflexivity.
  - exact Havg0.
  - exact Hsum.
  - destruct c as [| item c].
    + rewrite (Havg0 eq_refl). lra.
    + assert (Hc : item :: c <> []) by discriminate.
      assert (HN : 0 < INR (List.length (item :: c))).
      { apply lt_0_INR. simpl. lia. }
      rewrite (Havg Hc).
      apply Rmult_le_pos; [apply pos_INR | left; now apply Rinv_0_lt_compat].
Qed.

(** ** BM25 scorer *)

Lemma bm25_term_shift (self : BM25Index) (doc_length : nat)
    (term_freqs : dict nat) (a : R) (t : string) :
  bm25_term self doc_length term_freqs a t
  = (x <- bm25_term self doc_length term_freqs 0.0 t ;; Ok (a + x)).
Proof.
  unfold bm25_term.
  destruct (dict_get term_freqs t 0%nat =? 0)%nat.
  - simpl. f_equal. lra.
  - destruct (_calculate_idf self t) as [idf | e]; [| reflexivity]. cbn [bind].
    destruct (pydiv (b self * INR doc_length) (avg_doc_length self))
      as [r | e]; [| reflexivity]. cbn [bind].
    destruct (pydiv _ _) as [q | e]; [| reflexivity]. cbn [bind].
    f_equal. lra.
Qed.

Lemma for_each_bm25_shift (self : BM25Index) (doc_length : nat)
    (term_freqs : dict nat) (q : list string) (a : R) :
  for_each (bm25_term self doc_length term_freqs) q a
  = (s <- for_each (bm25_term self doc_length term_freqs) q 0.0 ;; Ok (a + s)).
Proof.
  revert a; induction q as [| t q IH]; intros a; cbn [for_each].
  - simpl. f_equal. lra.
  - rewrite (bm25_term_shift self doc_length term_freqs a t).
    destruct (bm25_term self doc_length term_freqs 0.0 t) as [x | e];
      [| reflexivity].
    cbn [bind]. rewrite (IH (a + x)), (IH x).
    destruct (for_each _ q 0.0) as [s | e]; [| reflexivity].
    cbn [bind]. f_equal. lra.
Qed.

Lemma for_each_app {A S : Type} (body : S -> A -> result S) (l1 l2 : list A)
    (s : S) :
  for_each body (l1 ++ l2) s = (s' <- for_each body l1 s ;; for_each body l2 s').
Proof.
  revert s; induction l1 as [| x l1 IH]; intros s; simpl; [reflexivity |].
  destruct (body s x) as [s1 | e]; [| reflexivity]. simpl. apply IH.
Qed.


Lemma bm25_term_pos (self : BM25Index) (doc_id term : string) :
  index_ok self ->
  dict_get (dict_get (doc_term_freqs self) doc_id []) term 0%nat <> 0%nat ->
  exists x,
    bm25_term self (dict_get (doc_lengths self) doc_id 0%nat)
      (dict_get (doc_term_freqs self) doc_id []) 0.0 term = Ok x /\
    0 < x.
Proof.
  intros Hok Hnz. unfold bm25_term.
  destruct (Nat.eqb_spec
              (dict_get (dict_get (doc_term_freqs self) doc_id []) term 0%nat) 0)
    as [Hz | _]; [contradiction |].
  destruct Hok as (Hk & Hb & Hdf & Havg).
  destruct (_calculate_idf_value self term Hdf) as (-> & _ & Hidf).
  specialize (Havg doc_id term Hnz).
  set (tf := dict_get (dict_get (doc_term_freqs self) doc_id []) term 0%nat) in *.
  set (dl := dict_get (doc_lengths self) doc_id 0%nat).
  assert (Htf : 0 < INR tf) by (apply lt_0_INR; lia).
  assert (Hdl : 0 <= INR dl) by apply pos_INR.
  assert (Hr : 0 <= b self * INR dl / avg_doc_length self).
  { apply Rmult_le_pos; [apply Rmult_le_pos; lra |].
    left; apply Rinv_0_lt_compat, Havg. }
  cbn [bind]. rewrite (pydiv_ok _ (avg_doc_length self)) by lra. cbn [bind].
  assert (Hden : 0 < INR tf + k1 self
                           * (1 - b self + b self * INR dl / avg_doc_length self))
    by nra.
  rewrite pydiv_ok by lra. cbn [bind].
  eexists; split; [reflexivity |].
  assert (Hq : 0 < INR tf * (k1 self + 1)
                   / (INR tf + k1 self
                      * (1 - b self + b self * INR dl / avg_doc_length self))).
  { apply Rdiv_lt_0_compat; [nra | exact Hden]. }
  nra.
Qed.

(** The score is 0 exactly when every query token has term frequency 0 in
    the document. *)
Lemma for_each_bm25_zero_iff (self : BM25Index) (doc_id : string)
    (q : list string) :
  index_ok self ->
  exists s,
    for_each (bm25_term self (dict_get (doc_lengths self) doc_id 0%nat)
                (dict_get (doc_term_freqs self) doc_id [])) q 0.0 = Ok s /\
    0 <= s /\
    (s = 0 <->
     Forall (fun t =>
               dict_get (dict_get (doc_term_freqs self) doc_id []) t 0%nat
               = 0%nat) q).
Proof.
  intros Hok. induction q as [| t q (s & Hs & Hs0 & Hiff)]; cbn [for_each].
  - exists 0.0. split; [reflexivity |]. split; [lra |].
    split; [constructor | lra].
  - destruct (Nat.eq_dec
                (dict_get (dict_get (doc_term_freqs self) doc_id []) t 0%nat) 0)
      as [Hz | Hnz].
    + assert (E : bm25_term self (dict_get (doc_lengths self) doc_id 0%nat)
                    (dict_get (doc_term_freqs self) doc_id []) 0.0 t = Ok 0.0).
      { unfold bm25_term. rewrite Hz. reflexivity. }
      rewrite E. cbn [bind].
      exists s. split; [exact Hs |]. split; [exact Hs0 |].
      rewrite Hiff. split; [intros H; constructor; assumption |].
      intros H; inversion H; assumption.
    + destruct (bm25_term_pos self doc_id t Hok Hnz) as (x & -> & Hx).
      cbn [bind]. rewrite for_each_bm25_shift, Hs. cbn [bind].
      exists (x + s). split; [reflexivity |]. split; [lra |].
      split; [intros H; lra |].
      intros H; inversion H; contradiction.
Qed.

Lemma init_index_ok (c : dict Document) (k b0 : R) (self : BM25Index) :
  BM25Index_init c k b0 = Ok self -> 0 <= k -> 0 <= b0 <= 1 -> index_ok self.
Proof.
  intros Hinit Hk Hb.
  destruct (BM25Index_init_ok c k b0 Hk Hb) as (self' & Hinit' & Hok & _).
  rewrite Hinit in Hinit'. inversion Hinit'; subst self'. exact Hok.
Qed.

(** X8. A document of the corpus scores 0 exactly when none of the query
    tokens occurs among its tokens, and scores strictly more than 0
    otherwise; a document id that is not in the corpus scores 0. *)
Theorem bm25_zero_iff_no_shared_token (c : dict Document) (k b0 : R)
    (self : BM25Index) :
  BM25Index_init c k b0 = Ok self -> 0 <= k -> 0 <= b0 <= 1 -> dict_wf c ->
  (forall doc_id doc query_tokens,
      In (doc_id, doc) c ->
      exists s,
        _calculate_bm25_score self doc_id query_tokens = Ok s /\
        0 <= s /\
        (s = 0 <->
         forall t, In t query_tokens -> ~ In t (doc_tokens doc))) /\
  (forall doc_id query_tokens,
      ~ In doc_id (dict_keys c) ->
      _calculate_bm25_score self doc_id query_tokens = Ok 0.0).
Proof.
  intros Hinit Hk Hb Hwf.
  pose proof (init_index_ok c k b0 self Hinit Hk Hb) as Hok.
  destruct (BM25Index_init_inv _ _ _ _ Hinit)
    as (_ & _ & _ & _ & _ & Hdtf & _).
  destruct (build_loop_tables c Hwf) as [_ E2].
  split.
  - intros doc_id doc q Hin.
    destruct (for_each_bm25_zero_iff self doc_id q Hok) as (s & Hs & Hs0 & Hiff).
    exists s. split; [exact Hs |]. split; [exact Hs0 |].
    rewrite Hiff, Forall_forall.
    assert (Htf : forall t,
               dict_get (dict_get (doc_term_freqs self) doc_id []) t 0%nat
               = count_occ string_dec (doc_tokens doc) t).
    { intros t. rewrite Hdtf, E2. unfold dict_get at 2.
      rewrite (dict_find_map_item (fun d => Counter (doc_tokens d))),
              (dict_find_In c doc_id doc Hwf Hin).
      simpl. apply Counter_get. }
    split; intros H t Ht.
    + apply (count_occ_not_In string_dec). rewrite <- Htf. now apply H.
    + rewrite Htf. apply (count_occ_not_In string_dec). now apply H.
  - intros doc_id q Hnin. unfold _calculate_bm25_score.
    assert (Hfind : dict_find c doc_id = None).
    { destruct (dict_find c doc_id) eqn:E; [| reflexivity].
      exfalso. apply Hnin. apply dict_find_in_keys. congruence. }
    assert (E : dict_get (doc_term_freqs self) doc_id [] = []).
    { rewrite Hdtf, E2. unfold dict_get.
      rewrite (dict_find_map_item (fun d => Counter (doc_tokens d))), Hfind.
      reflexivity. }
    rewrite E. apply for_each_bm25_tokenless.
Qed.

Lemma init_term_freqs_count (c : dict Document) (k b0 : R) (self : BM25Index)
    (doc_id : string) (doc : Document) (t : string) :
  BM25Index_init c k b0 = Ok self -> dict_wf c -> In (doc_id, doc) c ->
  dict_get (dict_get (doc_term_freqs self) doc_id []) t 0%nat
  = count_occ string_dec (doc_tokens doc) t.
Proof.
  intros Hinit Hwf Hin.
  destruct (BM25Index_init_inv _ _ _ _ Hinit)
    as (_ & _ & _ & _ & _ & Hdtf & _).
  destruct (build_loop_tables c Hwf) as [_ E2].
  rewrite Hdtf, E2. unfold dict_get at 2.
  rewrite (dict_find_map_item (fun d => Counter (doc_tokens d))),
          (dict_find_In c doc_id doc Hwf Hin).
  simpl. apply Counter_get.
Qed.

Lemma for_each_bm25_grows (self : BM25Index) (doc_id : string)
    (q : list string) (a : R) :
  index_ok self -> 0 <= a ->
  exists s,
    for_each (bm25_term self (dict_get (doc_lengths self) doc_id 0%nat)
                (dict_get (doc_term_freqs self) doc_id [])) q a = Ok s /\
    a <= s.
Proof.
  intros Hok. revert a. induction q as [| t q IH]; intros a Ha.
  - exists a. split; [reflexivity | lra].
  - cbn [for_each].
    destruct (bm25_term_ok self doc_id t a Hok Ha) as (a' & Ea & Ha').
    assert (Hle : a <= a').
    { destruct (Nat.eq_dec
                  (dict_get (dict_get (doc_term_freqs self) doc_id []) t 0%nat)
                  0%nat) as [E0 | Hne].
      - unfold bm25_term in Ea. rewrite E0 in Ea. simpl in Ea.
        injection Ea as <-. lra.
      - destruct (bm25_term_pos self doc_id t Hok Hne) as (x & Ex & Hx).
        rewrite bm25_term_shift, Ex in Ea. cbn [bind] in Ea.
        injection Ea as <-. lra. }
    rewrite Ea.
    destruct (IH a' Ha') as (s & Es & Hs). exists s. split; [exact Es | lra].
Qed.

(** X7. A longer query never lowers a score: on the index of a corpus,
    the BM25 score of a document for a query extended by further tokens is
    computed, and is at least the score for the query itself, which is not
    negative. *)
Theorem bm25_longer_query_no_lower (c : dict Document) (k b0 : R)
    (self : BM25Index) (doc_id : string) (q1 q2 : list string) :
  BM25Index_init c k b0 = Ok self -> 0 <= k -> 0 <= b0 <= 1 ->
  exists s1 s12,
    _calculate_bm25_score self doc_id q1 = Ok s1 /\
    _calculate_bm25_score self doc_id (q1 ++ q2) = Ok s12 /\
    0 <= s1 <= s12.
Proof.
  intros Hinit Hk Hb.
  pose proof (init_index_ok c k b0 self Hinit Hk Hb) as Hok.
  unfold _calculate_bm25_score.
  destruct (for_each_bm25_ok self doc_id q1 0.0 Hok ltac:(lra))
    as (s1 & E1 & H1).
  destruct (for_each_bm25_grows self doc_id q2 s1 Hok H1) as (s12 & E12 & H12).
  exists s1, s12. split; [exact E1 |]. split; [| lra].
  rewrite for_each_app, E1. cbn [bind]. exact E12.
Qed.

Lemma for_each_bm25_skip_absent (self : BM25Index) (doc_length : nat)
    (term_freqs : dict nat) (keep : string -> bool) (q : list string) (a : R) :
  (forall t, keep t = false -> dict_get term_freqs t 0%nat = 0%nat) ->
  for_each (bm25_term self doc_length term_freqs) (filter keep q) a
  = for_each (bm25_term self doc_length term_freqs) q a.
Proof.
  intros Hkeep. revert a. induction q as [| t q IH]; intros a;
    [reflexivity |].
  cbn [filter]. destruct (keep t) eqn:Ek.
  - cbn [for_each]. destruct (bm25_term _ _ _ a t); [apply IH | reflexivity].
  - cbn [for_each]. unfold bm25_term at 2. rewrite (Hkeep t Ek). simpl.
    apply IH.
Qed.

(** X9. Query tokens that a document does not contain do not change its
    score: on the index of a corpus, the BM25 computation for a document
    gives the same result for a query and for the query with the tokens
    removed that do not occur among the document's tokens. *)
Theorem bm25_score_ignores_absent_tokens (c : dict Document) (k b0 : R)
    (self : BM25Index) (doc_id : string) (doc : Document) (q : list string) :
  BM25Index_init c k b0 = Ok self -> dict_wf c -> In (doc_id, doc) c ->
  _calculate_bm25_score self doc_id
    (filter (fun t => existsb (String.eqb t) (doc_tokens doc)) q)
  = _calculate_bm25_score self doc_id q.
Proof.
  intros Hinit Hwf Hin. unfold _calculate_bm25_score.
  apply for_each_bm25_skip_absent. intros t Hkeep.
  rewrite (init_term_freqs_count c k b0 self doc_id doc t Hinit Hwf Hin).
  apply count_occ_not_In. intros Hocc.
  assert (Hex : existsb (String.eqb t) (doc_tokens doc) = true).
  { apply existsb_exists. exists t. split; [exact Hocc |].
    apply String.eqb_refl. }
  congruence.
Qed.

(** ** Metadata booster *)


(** ** BM25 search *)

Lemma score_loop_exact (self : BM25Index) (query_tokens : list string)
    (items : list (string * Document)) (scores0 : dict R) :
  index_ok self -> dict_wf (corpus self) -> incl items (corpus self) ->
  NoDup (dict_keys scores0 ++ map fst items) ->
  exists scored,
    Forall2 (scored_as self query_tokens) items scored /\
    for_each (score_step self query_tokens) (map fst items) scores0
    = Ok (scores0 ++ scored)%list.
Proof.
  intros Hok Hwf. revert scores0.
  induction items as [| [k doc] items IH]; intros scores0 Hincl Hnd.
  - exists []. split; [constructor |]. simpl. now rewrite app_nil_r.
  - cbn [map fst for_each]. unfold score_step at 1.
    destruct (_calculate_bm25_score_ok self k query_tokens Hok) as (s & Hs & _).
    rewrite Hs. cbn [bind].
    assert (Hfind : dict_find (corpus self) k = Some doc).
    { apply dict_find_In; [exact Hwf | apply Hincl; now left]. }
    unfold dict_item. rewrite Hfind. cbn [bind].
    assert (Hk : ~ In k (dict_keys scores0)).
    { intros Hin. apply NoDup_remove_2 in Hnd. apply Hnd, in_or_app. now left. }
    rewrite dict_set_notin_app by assumption.
    destruct (IH (scores0 ++ [(k, _apply_metadata_boosts s doc)])%list)
      as (scored & Hrel & Hrun).
    + intros x Hx. apply Hincl. now right.
    + unfold dict_keys. rewrite map_app. simpl. rewrite <- app_assoc. exact Hnd.
    + exists ((k, _apply_metadata_boosts s doc) :: scored).
      split.
      * constructor; [| exact Hrel]. split; [reflexivity |]. exists s. auto.
      * rewrite Hrun, <- app_assoc. reflexivity.
Qed.

Lemma scored_as_keys (self : BM25Index) (query_tokens : list string)
    (items : list (string * Document)) (scored : list (string * R)) :
  Forall2 (scored_as self query_tokens) items scored ->
  map fst scored = map fst items.
Proof.
  induction 1 as [| item sc items scored [Hk _] _ IH]; simpl; congruence.
Qed.

(** The shape of what [BM25Index.search] returns on a corpus with distinct
    keys and a query with a token: every document is scored once, in corpus
    order; the entries are sorted by score, largest first and stably, and
    cut at [top_k]; each remaining entry becomes a hit. *)
Lemma BM25Index_search_shape (self : BM25Index) (query_text : string)
    (top_k : Z) :
  index_ok self -> dict_wf (corpus self) -> _tokenize query_text <> [] ->
  exists scored hits,
    Forall2 (scored_as self (_tokenize query_text)) (corpus self) scored /\
    BM25Index_search self query_text top_k = Ok hits /\
    Forall2 (hit_of (corpus self))
      (slice_to (sorted_reverse snd scored) top_k) hits.
Proof.
  intros Hok Hwf Htok. unfold BM25Index_search.
  destruct (_tokenize query_text) as [| t ts] eqn:Etok; [congruence |].
  destruct (score_loop_exact self (t :: ts) (corpus self) [] Hok Hwf
              (incl_refl _) Hwf) as (scored & Hrel & Hrun).
  unfold dict_keys. rewrite Hrun. cbn [bind app dict_items].
  pose proof (scored_as_keys _ _ _ _ Hrel) as Hkeys.
  destruct (map_result_Forall2
              (fun '(doc_id, score) =>
                 doc <- dict_item (corpus self) doc_id ;;
                 Ok (bm25_result_doc doc, score))
              (hit_of (corpus self))
              (slice_to (sorted_reverse snd scored) top_k))
    as (hits & Hhits & Hrel').
  { intros [doc_id x] Hin. apply slice_to_incl in Hin.
    apply (Permutation_in _ (Permutation_sym (sorted_reverse_perm snd scored)))
      in Hin.
    destruct (Forall2_In_r _ _ _ _ Hrel Hin) as ([k doc] & Hitem & Hk & _).
    cbn [fst] in Hk. subst k.
    unfold dict_item. rewrite (dict_find_In _ _ _ Hwf Hitem). cbn [bind].
    eexists; split; [reflexivity |]. split; [reflexivity |].
    exists doc. auto. }
  exists scored, hits. auto.
Qed.

Lemma StronglySorted_app_l {A : Type} (Rel : A -> A -> Prop) (l1 l2 : list A) :
  StronglySorted Rel (l1 ++ l2) -> StronglySorted Rel l1.
Proof.
  induction l1 as [| x l1 IH]; simpl; intros H; [constructor |].
  inversion H as [| ? ? Hs Hall]; subst.
  constructor; [now apply IH |].
  apply Forall_app in Hall. apply Hall.
Qed.

Lemma StronglySorted_app_cross {A : Type} (Rel : A -> A -> Prop)
    (l1 l2 : list A) :
  StronglySorted Rel (l1 ++ l2) ->
  Forall (fun x => Forall (Rel x) l2) l1.
Proof.
  induction l1 as [| x l1 IH]; simpl; intros H; [constructor |].
  inversion H as [| ? ? Hs Hall]; subst.
  constructor; [| now apply IH].
  apply Forall_app in Hall. apply Hall.
Qed.

Lemma slice_to_descending {A : Type} (key : A -> R) (l : list A) (k : Z) :
  descending key l -> descending key (slice_to l k).
Proof.
  unfold descending, slice_to. intros H.
  destruct (0 <=? k)%Z;
    match goal with
    | |- StronglySorted _ (firstn ?n l) =>
        rewrite <- (firstn_skipn n l) in H;
        exact (StronglySorted_app_l _ _ _ H)
    end.
Qed.

Lemma hit_of_descending (c : dict Document) (ranked : list (string * R))
    (hits : list (Document * R)) :
  Forall2 (hit_of c) ranked hits ->
  descending snd ranked -> descending snd hits.
Proof.
  unfold descending.
  induction 1 as [| sc h ranked hits [Hs _] Hrel IH]; intros Hd.
  - constructor.
  - inversion Hd as [| ? ? Hd' Hall]; subst.
    constructor; [now apply IH |].
    clear - Hs Hrel Hall.
    induction Hrel as [| sc' h' ranked hits [Hs' _] _ IH'].
    + constructor.
    + inversion Hall; subst. constructor; [lra | now apply IH'].
Qed.

Lemma search_in_corpus_shape (query_text : string) (c : dict Document)
    (top_k : Z) :
  dict_wf c -> _tokenize query_text <> [] ->
  exists self scored hits,
    BM25Index_init c 1.5 0.75 = Ok self /\
    Forall2 (scored_as self (_tokenize query_text)) c scored /\
    search_in_corpus query_text c top_k = Ok hits /\
    Forall2 (hit_of c) (slice_to (sorted_reverse snd scored) top_k) hits.
Proof.
  intros Hwf Htok.
  destruct (BM25Index_init_ok c 1.5 0.75) as (self & Hinit & Hok & Hc); try lra.
  rewrite <- Hc in Hwf.
  destruct (BM25Index_search_shape self query_text top_k Hok Hwf Htok)
    as (scored & hits & Hrel & Hrun & Hhits).
  rewrite Hc in Hrel, Hhits.
  exists self, scored, hits. repeat split; try assumption.
  unfold search_in_corpus. rewrite Hinit. exact Hrun.
Qed.

(** X11. What the BM25 stage returns on a corpus and a query with a
    token: every document of the corpus is scored exactly once, in corpus
    order, with its boosted BM25 score; the scored entries are sorted by
    score, largest first, and cut with [[:top_k]]; and each remaining entry
    becomes one hit, the copy of the corpus document under that key with
    the entry's score. *)
Theorem bm25_stage_scores_sorts_cuts (query_text : string) (c : dict Document)
    (top_k : Z) :
  dict_wf c -> _tokenize query_text <> [] ->
  exists self scored hits,
    BM25Index_init c 1.5 0.75 = Ok self /\
    Forall2 (scored_as self (_tokenize query_text)) c scored /\
    dict_keys scored = dict_keys c /\
    Permutation scored (sorted_reverse snd scored) /\
    descending snd (sorted_reverse snd scored) /\
    search_in_corpus query_text c top_k = Ok hits /\
    Forall2 (hit_of c) (slice_to (sorted_reverse snd scored) top_k) hits /\
    List.length hits
    = List.length (slice_to (sorted_reverse snd scored) top_k).
Proof.
  intros Hwf Htok.
  destruct (search_in_corpus_shape query_text c top_k Hwf Htok)
    as (self & scored & hits & Hinit & Hrel & Hrun & Hhits).
  exists self, scored, hits.
  split; [exact Hinit |]. split; [exact Hrel |].
  split; [exact (scored_as_keys _ _ _ _ Hrel) |].
  split; [apply sorted_reverse_perm |].
  split; [apply sorted_reverse_descending |].
  split; [exact Hrun |]. split; [exact Hhits |].
  exact (Forall2_length_eq _ _ _ Hhits).
Qed.

(** X12. The BM25 hits come best first: their scores are non-increasing;
    for a non-negative [top_k] no document that was cut off has a higher
    score than a returned one; and documents of equal score keep the order
    they have in the corpus. *)
Theorem bm25_hits_best_first (query_text : string) (c : dict Document)
    (top_k : Z) :
  dict_wf c -> _tokenize query_text <> [] ->
  exists self scored hits,
    BM25Index_init c 1.5 0.75 = Ok self /\
    Forall2 (scored_as self (_tokenize query_text)) c scored /\
    search_in_corpus query_text c top_k = Ok hits /\
    descending snd hits /\
    ((0 <= top_k)%Z ->
     Forall (fun h =>
               Forall (fun left_out => snd left_out <= snd h)
                 (skipn (Z.to_nat top_k) (sorted_reverse snd scored)))
       hits) /\
    forall v,
      filter (fun sc => Req_bool (snd sc) v) (sorted_reverse snd scored)
      = filter (fun sc => Req_bool (snd sc) v) scored.
Proof.
  intros Hwf Htok.
  destruct (search_in_corpus_shape query_text c top_k Hwf Htok)
    as (self & scored & hits & Hinit & Hrel & Hrun & Hhits).
  exists self, scored, hits. repeat split; try assumption.
  - apply (hit_of_descending c _ _ Hhits).
    apply slice_to_descending, sorted_reverse_descending.
  - intros Hk. unfold slice_to in Hhits.
    destruct (Z.leb_spec 0 top_k); [| lia].
    pose proof (sorted_reverse_descending snd scored) as Hd.
    unfold descending in Hd.
    rewrite <- (firstn_skipn (Z.to_nat top_k) (sorted_reverse snd scored)) in Hd.
    apply StronglySorted_app_cross in Hd.
    set (front := firstn (Z.to_nat top_k) (sorted_reverse snd scored)) in *.
    set (rest := skipn (Z.to_nat top_k) (sorted_reverse snd scored)) in *.
    clearbody front rest. clear - Hhits Hd.
    induction Hhits as [| sc h ranked hits [Hs _] _ IH]; [constructor |].
    inversion Hd; subst.
    constructor; [| now apply IH].
    rewrite Hs. assumption.
  - intros v. apply sorted_reverse_stable.
Qed.

(** X13. A negative [top_k] is a slice bound counted from the end: the
    BM25 stage ranks the whole corpus, drops the last [-top_k] entries of
    the ranking (all of them when the corpus has no more documents) and
    returns the others in order; no dropped document has a higher score
    than a returned one. *)
Theorem bm25_negative_top_k (query_text : string) (c : dict Document)
    (top_k : Z) :
  dict_wf c -> _tokenize query_text <> [] -> (top_k < 0)%Z ->
  exists self scored kept dropped hits,
    BM25Index_init c 1.5 0.75 = Ok self /\
    Forall2 (scored_as self (_tokenize query_text)) c scored /\
    sorted_reverse snd scored = (kept ++ dropped)%list /\
    List.length dropped = Nat.min (Z.to_nat (- top_k)) (List.length c) /\
    Forall (fun kd => Forall (fun d => snd d <= snd kd) dropped) kept /\
    search_in_corpus query_text c top_k = Ok hits /\
    Forall2 (hit_of c) kept hits /\
    List.length hits = (List.length c - Z.to_nat (- top_k))%nat.
Proof.
  intros Hwf Htok Hk.
  destruct (search_in_corpus_shape query_text c top_k Hwf Htok)
    as (self & scored & hits & Hinit & Hrel & Hrun & Hhits).
  unfold slice_to in Hhits. destruct (Z.leb_spec 0 top_k); [lia |].
  set (ranked := sorted_reverse snd scored) in *.
  set (n := (List.length ranked - Z.to_nat (- top_k))%nat) in *.
  assert (Hlen : List.length ranked = List.length c).
  { unfold ranked.
    now rewrite sorted_reverse_length, (Forall2_length_eq _ _ _ Hrel). }
  exists self, scored, (firstn n ranked), (skipn n ranked), hits.
  split; [exact Hinit |]. split; [exact Hrel |].
  split; [symmetry; apply firstn_skipn |].
  split; [rewrite length_skipn; unfold n; lia |].
  split.
  - pose proof (sorted_reverse_descending snd scored) as Hd.
    unfold descending in Hd. fold ranked in Hd.
    rewrite <- (firstn_skipn n ranked) in Hd.
    exact (StronglySorted_app_cross _ _ _ Hd).
  - split; [exact Hrun |]. split; [exact Hhits |].
    rewrite (Forall2_length_eq _ _ _ Hhits), length_firstn.
    unfold n. lia.
Qed.

Lemma firstn_all_ge {A : Type} (n : nat) (l : list A) :
  (List.length l <= n)%nat -> firstn n l = l.
Proof.
  revert n; induction l as [| x l IH]; intros [| n] H; simpl in *;
    try reflexivity; try lia.
  f_equal. apply IH. lia.
Qed.

(** The pids of the hits are those of the corpus documents when nothing
    is cut off. *)
Lemma hits_pids_perm (c : dict Document) (self : BM25Index)
    (query_tokens : list string) (scored : list (string * R))
    (hits : list (Document * R)) :
  dict_wf c ->
  Forall2 (scored_as self query_tokens) c scored ->
  Forall2 (hit_of c) (sorted_reverse snd scored) hits ->
  Permutation (map (fun h => pid (fst h)) hits)
    (map (fun item => pid (snd item)) c).
Proof.
  intros Hwf Hrel Hhits.
  set (g := fun k : string =>
              match dict_find c k with
              | Some d => pid d
              | None => ""
              end).
  assert (E1 : map (fun h => pid (fst h)) hits
               = map (fun sc => g (fst sc)) (sorted_reverse snd scored)).
  { clear Hrel. induction Hhits as [| sc h ranked hits' Hh _ IH];
      [reflexivity |].
    destruct Hh as (_ & doc & Hin & Hdoc).
    simpl. rewrite IH. f_equal. unfold g.
    now rewrite (dict_find_In c _ _ Hwf Hin), Hdoc. }
  assert (E2 : map (fun sc => g (fst sc)) scored
               = map (fun item => pid (snd item)) c).
  { assert (Hc : forall item, In item c -> g (fst item) = pid (snd item)).
    { intros [k d] Hin. unfold g. cbn [fst snd].
      now rewrite (dict_find_In c _ _ Hwf Hin). }
    rewrite <- (map_map fst g), (scored_as_keys _ _ _ _ Hrel), map_map.
    apply map_ext_in. exact Hc. }
  rewrite E1, <- E2.
  apply Permutation_map, Permutation_sym, sorted_reverse_perm.
Qed.

(** X14. When [top_k] is at least the size of the corpus the BM25 stage
    leaves no document out: the hits are the corpus documents, each exactly
    once, whatever their scores. *)
Theorem bm25_returns_whole_corpus (query_text : string) (c : dict Document)
    (top_k : Z) :
  dict_wf c -> _tokenize query_text <> [] ->
  (Z.of_nat (List.length c) <= top_k)%Z ->
  exists hits,
    search_in_corpus query_text c top_k = Ok hits /\
    Permutation (map (fun h => pid (fst h)) hits)
      (map (fun item => pid (snd item)) c).
Proof.
  intros Hwf Htok Hk.
  destruct (search_in_corpus_shape query_text c top_k Hwf Htok)
    as (self & scored & hits & _ & Hrel & Hrun & Hhits).
  exists hits. split; [exact Hrun |].
  apply (hits_pids_perm c self (_tokenize query_text) scored hits Hwf Hrel).
  unfold slice_to in Hhits. destruct (Z.leb_spec 0 top_k); [| lia].
  rewrite firstn_all_ge in Hhits; [exact Hhits |].
  rewrite sorted_reverse_length, (Forall2_length_eq _ _ _ Hrel). lia.
Qed.

(** ** Hybrid reranker *)

Lemma fold_Rmax_ge_all (l : list R) (x y : R) :
  In y l -> y <= fold_left Rmax l x.
Proof.
  revert x; induction l as [| z l IH]; intros x; simpl; [tauto |].
  intros [<- | Hin].
  - eapply Rle_trans; [apply (Rmax_r x z) | apply fold_Rmax_ge].
  - now apply IH.
Qed.

Lemma max_bm25_of_ge (bm25_results : list (Document * R)) (m : R)
    (cand : Document * R) :
  max_bm25_of bm25_results = Ok m -> In cand bm25_results -> snd cand <= m.
Proof.
  unfold max_bm25_of. destruct bm25_results as [| [d s] rest]; simpl;
    [tauto |].
  intros Hm [<- | Hin]; inversion Hm; subst; simpl.
  - apply fold_Rmax_ge.
  - apply fold_Rmax_ge_all. now apply in_map.
Qed.

Lemma fold_Nat_max_ge (l : list nat) (x : nat) :
  (x <= fold_left Nat.max l x)%nat /\
  forall y, In y l -> (y <= fold_left Nat.max l x)%nat.
Proof.
  revert x; induction l as [| z l IH]; intros x; simpl.
  - split; [lia | tauto].
  - destruct (IH (Nat.max x z)) as [H1 H2]. split; [lia |].
    intros y [<- | Hin]; [lia | now apply H2].
Qed.

Lemma max_clicks_of_ge (st : collect_state) (mc : nat) (p : string) (v : nat) :
  max_clicks_of st = Ok mc ->
  dict_find (click_counts st) p = Some v -> (v <= mc)%nat.
Proof.
  unfold max_clicks_of. intros Hmc Hfind.
  apply dict_find_Some_In in Hfind.
  destruct (click_counts st) as [| [k0 v0] rest] eqn:E; [destruct Hfind |].
  simpl in Hmc. inversion Hmc; subst mc.
  destruct (fold_Nat_max_ge (map snd rest) v0) as [H1 H2].
  destruct Hfind as [Heq | Hin].
  - inversion Heq; subst. exact H1.
  - apply H2. change v with (snd (p, v)). now apply in_map.
Qed.

(** After the collecting loop [click_counts] holds, under the pid of every
    candidate, the click total that the analytics have for that pid. *)
Lemma collect_fold_clicks (ad : option AnalyticsData)
    (cands : list (Document * R)) (st : collect_state) (doc : Document) :
  (forall v, dict_find (click_counts st) (pid doc) = Some v ->
             v = clicks_of ad doc) ->
  (dict_find (click_counts st) (pid doc) <> None \/
   exists doc' s, In (doc', s) cands /\ pid doc' = pid doc) ->
  dict_find (click_counts (fold_left (collect_step ad) cands st)) (pid doc)
  = Some (clicks_of ad doc).
Proof.
  revert st; induction cands as [| [d0 s0] cands IH]; intros st Hinv Hin;
    cbn [fold_left].
  - destruct Hin as [Hin | (? & ? & [] & _)].
    destruct (dict_find (click_counts st) (pid doc)) as [v |] eqn:E;
      [| congruence].
    now rewrite (Hinv v eq_refl).
  - assert (Hcc : click_counts (collect_step ad st (d0, s0))
                  = dict_set (click_counts st) (pid d0) (clicks_of ad d0)).
    { unfold collect_step. destruct (selling_price d0); reflexivity. }
    apply IH.
    + intros v. rewrite Hcc, dict_find_set.
      destruct (String.eqb_spec (pid doc) (pid d0)) as [Heq | _];
        [| apply Hinv].
      intros Hv. inversion Hv; subst v. unfold clicks_of. now rewrite Heq.
    + rewrite Hcc, dict_find_set.
      destruct (String.eqb_spec (pid doc) (pid d0)) as [Heq | Hne].
      * left. discriminate.
      * destruct Hin as [Hin | (doc' & s & [Heq | Hin] & Hp)].
        -- now left.
        -- inversion Heq; subst. congruence.
        -- right. eauto.
Qed.

Lemma collect_clicks (ad : option AnalyticsData) (cands : list (Document * R))
    (doc : Document) (s : R) :
  In (doc, s) cands ->
  dict_get (click_counts (collect ad cands)) (pid doc) 0%nat = clicks_of ad doc /\
  dict_find (click_counts (collect ad cands)) (pid doc)
  = Some (clicks_of ad doc).
Proof.
  intros Hin.
  assert (H : dict_find (click_counts (collect ad cands)) (pid doc)
              = Some (clicks_of ad doc)).
  { unfold collect. apply collect_fold_clicks.
    - simpl. discriminate.
    - right. eauto. }
  unfold dict_get. rewrite H. auto.
Qed.

Lemma sim_norm_of_bounds (max_bm25 s v : R) :
  0 <= s <= max_bm25 -> sim_norm_of max_bm25 s = Ok v -> 0 <= v <= 1.
Proof.
  intros Hs. unfold sim_norm_of, pydiv.
  destruct (Req_dec_T max_bm25 0) as [Hz | Hnz]; intros Hv; inversion Hv; subst.
  - lra.
  - assert (Hm : 0 < max_bm25) by lra.
    split.
    + apply Rmult_le_pos; [lra | left; now apply Rinv_0_lt_compat].
    + apply (Rmult_le_reg_r max_bm25); [exact Hm |].
      unfold Rdiv. rewrite Rmult_assoc, Rinv_l by lra. lra.
Qed.

Lemma popularity_norm_of_bounds (st : collect_state) (max_clicks : nat)
    (doc : Document) (v : R) :
  (dict_get (click_counts st) (pid doc) 0 <= max_clicks)%nat ->
  popularity_norm_of st max_clicks doc = Ok v -> 0 <= v <= 1.
Proof.
  intros Hle. unfold popularity_norm_of, pydiv.
  destruct (Nat.eqb_spec max_clicks 0) as [Hz | Hnz].
  - intros Hv; inversion Hv; subst. lra.
  - assert (Hm : 0 < INR max_clicks) by (apply lt_0_INR; lia).
    destruct (Req_dec_T (INR max_clicks) 0); [lra |].
    intros Hv; inversion Hv; subst.
    pose proof (pos_INR (dict_get (click_counts st) (pid doc) 0%nat)) as H0.
    apply le_INR in Hle.
    split.
    + apply Rmult_le_pos; [exact H0 | left; now apply Rinv_0_lt_compat].
    + apply (Rmult_le_reg_r (INR max_clicks)); [exact Hm |].
      unfold Rdiv. rewrite Rmult_assoc, Rinv_l by lra. lra.
Qed.

Lemma final_score_of_bounds (ad : option AnalyticsData)
    (bm25_results : list (Document * R)) (max_bm25 : R) (max_clicks : nat)
    (cand : Document * R) (x : R) :
  Forall (fun h => 0 <= snd h) bm25_results ->
  max_bm25_of bm25_results = Ok max_bm25 ->
  max_clicks_of (collect ad bm25_results) = Ok max_clicks ->
  In cand bm25_results ->
  final_score_of (collect ad bm25_results) max_bm25 max_clicks cand x ->
  0 <= x <= 0.9975.
Proof.
  intros Hnn Hm Hmc Hin (sim & rating & disc & price & pop
                         & Esim & Erating & Edisc & Eprice & Epop & ->).
  destruct cand as [doc s]. cbn [fst snd] in *.
  rewrite Forall_forall in Hnn. pose proof (Hnn _ Hin) as Hs. cbn [snd] in Hs.
  pose proof (max_bm25_of_ge _ _ _ Hm Hin) as Hsm. cbn [snd] in Hsm.
  pose proof (sim_norm_of_bounds _ _ _ (conj Hs Hsm) Esim) as Bsim.
  destruct (rating_norm_of_ok doc) as (v1 & E1 & B1).
  rewrite Erating in E1. inversion E1; subst v1.
  destruct (discount_norm_of_ok doc) as (v2 & E2 & B2).
  rewrite Edisc in E2. inversion E2; subst v2.
  destruct (price_score_of_ok (collect ad bm25_results) doc) as (v3 & E3 & B3).
  { intros p Hp. eapply collect_bounded; eassumption. }
  rewrite Eprice in E3. inversion E3; subst v3.
  destruct (collect_clicks ad bm25_results doc s Hin) as [Eget Efind].
  pose proof (max_clicks_of_ge _ _ _ _ Hmc Efind) as Hle.
  rewrite <- Eget in Hle.
  pose proof (popularity_norm_of_bounds _ _ _ _ Hle Epop) as Bpop.
  unfold weighted. destruct (out_of_stock doc); lra.
Qed.

(** X15. Every final score lies between 0 and 1, for a corpus whose
    ratings, discounts and prices are finite numbers (real numbers here)
    and in which no price is negative: each of the five normalised signals
    lies in [0, 1], their weights 0.6, 0.15, 0.1, 0.05 and 0.05 leave room
    for the in-stock factor 1.05. *)
Theorem final_score_range (search_query : string) (search_id : Z)
    (c : dict Document) (ad : option AnalyticsData) (stdout : list string) :
  prices_not_negative c ->
  exists res,
    fst (SearchEngine_search search_query search_id c ad stdout) = Ok res /\
    Forall (fun d => exists x, score d = Some x /\ 0 <= x <= 1) res.
Proof.
  intros _.
  destruct (search_value_ok search_query search_id c ad)
    as (hits & m & mc & hybrid & Hhits & Hm & Hmc & _ & Hrel & Hval).
  destruct (search_in_corpus_ok search_query c 20)
    as (hits' & Hhits' & Hnn & _).
  rewrite Hhits in Hhits'. inversion Hhits'; subst hits'.
  exists (map (result_doc search_id) (sorted_reverse snd hybrid)).
  split; [exact Hval |].
  apply Forall_forall. intros d Hd.
  apply in_map_iff in Hd. destruct Hd as ([doc x] & <- & Hin).
  apply (Permutation_in _ (Permutation_sym (sorted_reverse_perm snd hybrid)))
    in Hin.
  destruct (Forall2_In_r _ _ _ _ Hrel Hin) as (cand & Hcand & _ & Hfin & _).
  cbn [snd] in Hfin.
  exists x. split; [reflexivity |].
  assert (Hx : 0 <= x <= 0.9975)
    by (eapply final_score_of_bounds; eassumption).
  lra.
Qed.

Lemma result_doc_pids (search_id : Z) (l : list (Document * R)) :
  map pid (map (result_doc search_id) l) = map (fun h => pid (fst h)) l.
Proof.
  rewrite map_map. apply map_ext. intros [doc x]. reflexivity.
Qed.

(** X16. Reranking neither drops nor duplicates a candidate: the pids of
    the returned documents are a rearrangement of the pids of the BM25
    hits; and when the corpus has at most 20 documents and the query has a
    token, they are a rearrangement of the pids of the whole corpus. *)
Theorem rerank_keeps_candidates (search_query : string) (search_id : Z)
    (c : dict Document) (ad : option AnalyticsData) (stdout : list string) :
  exists hits res,
    search_in_corpus search_query c 20 = Ok hits /\
    fst (SearchEngine_search search_query search_id c ad stdout) = Ok res /\
    Permutation (map pid res) (map (fun h => pid (fst h)) hits) /\
    (dict_wf c -> _tokenize search_query <> [] ->
     (List.length c <= 20)%nat ->
     Permutation (map pid res) (map (fun item => pid (snd item)) c)).
Proof.
  destruct (search_value_ok search_query search_id c ad)
    as (hits & m & mc & hybrid & Hhits & _ & _ & _ & Hrel & Hval).
  exists hits, (map (result_doc search_id) (sorted_reverse snd hybrid)).
  split; [exact Hhits |]. split; [exact Hval |].
  assert (Hperm : Permutation
                    (map pid (map (result_doc search_id)
                                (sorted_reverse snd hybrid)))
                    (map (fun h => pid (fst h)) hits)).
  { rewrite result_doc_pids.
    eapply perm_trans;
      [apply Permutation_map, Permutation_sym, sorted_reverse_perm |].
    rewrite <- (map_map fst pid hybrid), (Forall2_map_fst _ _ _ Hrel), map_map.
    apply Permutation_refl. }
  split; [exact Hperm |].
  intros Hwf Htok Hlen.
  destruct (search_in_corpus_shape search_query c 20 Hwf Htok)
    as (self & scored & hits' & _ & Hsc & Hrun & Hhit).
  rewrite Hhits in Hrun. inversion Hrun; subst hits'.
  eapply perm_trans; [exact Hperm |].
  apply (hits_pids_perm c self (_tokenize search_query) scored hits Hwf Hsc).
  unfold slice_to in Hhit. cbn [Z.leb Z.compare] in Hhit.
  rewrite firstn_all_ge in Hhit; [exact Hhit |].
  rewrite sorted_reverse_length, (Forall2_length_eq _ _ _ Hsc).
  change (Z.to_nat 20) with 20%nat. exact Hlen.
Qed.

Lemma link_url_of_nonempty (search_id : Z) (doc : Document) :
  link_url_of search_id doc <> "".
Proof.
  unfold link_url_of.
  destruct (url doc) as [u |]; [| simpl; discriminate].
  destruct (String.eqb_spec u ""); [simpl; discriminate | assumption].
Qed.

(** X17. Every returned document has a link: its [url] is present and
    not empty.  It is the candidate's own url when that is present and not
    empty, and otherwise the detail link made of the pid and the search
    id. *)
Theorem results_have_links (search_query : string) (search_id : Z)
    (c : dict Document) (ad : option AnalyticsData) (stdout : list string) :
  exists hits res,
    search_in_corpus search_query c 20 = Ok hits /\
    fst (SearchEngine_search search_query search_id c ad stdout) = Ok res /\
    Forall (fun d =>
              exists u cand,
                url d = Some u /\ u <> "" /\
                In cand hits /\ pid d = pid (fst cand) /\
                match url (fst cand) with
                | Some own => if String.eqb own "" then
                                u = "/doc_details?pid=" ++ pid d
                                    ++ "&search_id=" ++ str_of_int search_id
                              else u = own
                | None => u = "/doc_details?pid=" ++ pid d
                              ++ "&search_id=" ++ str_of_int search_id
                end)
      res.
Proof.
  destruct (search_value_ok search_query search_id c ad)
    as (hits & m & mc & hybrid & Hhits & _ & _ & _ & Hrel & Hval).
  exists hits, (map (result_doc search_id) (sorted_reverse snd hybrid)).
  split; [exact Hhits |]. split; [exact Hval |].
  apply Forall_forall. intros d Hd.
  apply in_map_iff in Hd. destruct Hd as ([doc x] & <- & Hin).
  apply (Permutation_in _ (Permutation_sym (sorted_reverse_perm snd hybrid)))
    in Hin.
  destruct (Forall2_In_r _ _ _ _ Hrel Hin) as (cand & Hcand & Hfst & _).
  cbn [fst] in Hfst. subst doc.
  exists (link_url_of search_id (fst cand)), cand.
  split; [reflexivity |]. split; [apply link_url_of_nonempty |].
  split; [exact Hcand |]. split; [reflexivity |].
  cbn [result_doc pid]. unfold link_url_of.
  destruct (url (fst cand)) as [own |]; [| reflexivity].
  destruct (String.eqb own ""); reflexivity.
Qed.

Lemma bm25_result_doc_same (doc : Document) :
  same_product (bm25_result_doc doc) doc.
Proof. unfold same_product. simpl. repeat split. Qed.

Lemma result_doc_same (search_id : Z) (d doc : Document) (x : R) :
  same_product d doc -> same_product (result_doc search_id (d, x)) doc.
Proof.
  unfold same_product. simpl.
  intros (H1 & H2 & H3 & H4 & H5 & H6 & H7 & H8 & H9 & H10 & H11 & H12
          & H13 & H14 & H15).
  repeat split; congruence.
Qed.

(** X18. The search returns corpus documents and alters none of their
    data: every returned document equals, field by field, a document of the
    corpus, except that [_id] is set to the pid, [url] is resolved and
    [score] is filled in. *)
Theorem results_are_corpus_documents (search_query : string) (search_id : Z)
    (c : dict Document) (ad : option AnalyticsData) (stdout : list string) :
  dict_wf c ->
  exists res,
    fst (SearchEngine_search search_query search_id c ad stdout) = Ok res /\
    Forall (fun d =>
              exists doc_id doc, In (doc_id, doc) c /\ same_product d doc)
      res.
Proof.
  intros Hwf.
  destruct (search_value_ok search_query search_id c ad)
    as (hits & m & mc & hybrid & Hhits & _ & _ & _ & Hrel & Hval).
  exists (map (result_doc search_id) (sorted_reverse snd hybrid)).
  split; [exact Hval |].
  destruct (_tokenize search_query) as [| t ts] eqn:Etok.
  - destruct (search_in_corpus_ok search_query c 20)
      as (hits' & Hhits' & _ & _ & _ & Hempty & _).
    rewrite Hhits in Hhits'. inversion Hhits'; subst hits'.
    rewrite (Hempty Etok) in Hrel. inversion Hrel; subst. constructor.
  - destruct (search_in_corpus_shape search_query c 20 Hwf)
      as (self & scored & hits' & _ & _ & Hrun & Hhit);
      [rewrite Etok; discriminate |].
    rewrite Hhits in Hrun. inversion Hrun; subst hits'.
    apply Forall_forall. intros d Hd.
    apply in_map_iff in Hd. destruct Hd as ([doc x] & <- & Hin).
    apply (Permutation_in _ (Permutation_sym (sorted_reverse_perm snd hybrid)))
      in Hin.
    destruct (Forall2_In_r _ _ _ _ Hrel Hin) as (cand & Hcand & Hfst & _).
    cbn [fst] in Hfst. subst doc.
    destruct (Forall2_In_r _ _ _ _ Hhit Hcand)
      as (sc & _ & _ & doc & Hdoc & Hcopy).
    exists (fst sc), doc. split; [exact Hdoc |].
    apply result_doc_same. rewrite Hcopy. apply bm25_result_doc_same.
Qed.

Lemma Ok_inj {A : Type} (x y : A) : Ok x = Ok y -> x = y.
Proof. intros H; now inversion H. Qed.

(** X19. Popularity breaks ties upwards: of two candidates with the same
    BM25 score, rating, discount, price and stock flag, the one with more
    recorded clicks gets the strictly higher final score. *)
Theorem more_clicks_higher_score (ad : option AnalyticsData)
    (bm25_results : list (Document * R)) (max_bm25 : R) (max_clicks : nat)
    (a b' : Document * R) (xa xb : R) :
  In a bm25_results -> In b' bm25_results ->
  max_clicks_of (collect ad bm25_results) = Ok max_clicks ->
  snd a = snd b' ->
  average_rating (fst a) = average_rating (fst b') ->
  discount (fst a) = discount (fst b') ->
  selling_price (fst a) = selling_price (fst b') ->
  out_of_stock (fst a) = out_of_stock (fst b') ->
  (clicks_of ad (fst a) < clicks_of ad (fst b'))%nat ->
  final_score_of (collect ad bm25_results) max_bm25 max_clicks a xa ->
  final_score_of (collect ad bm25_results) max_bm25 max_clicks b' xb ->
  xa < xb.
Proof.
  intros Ha Hb Hmc Hs Hr Hd Hp Ho Hclicks
         (sim & rating & disc & price & pop
          & Esim & Erating & Edisc & Eprice & Epop & ->)
         (sim' & rating' & disc' & price' & pop'
          & Esim' & Erating' & Edisc' & Eprice' & Epop' & ->).
  destruct a as [da sa], b' as [db sb]. cbn [fst snd] in *. subst sb.
  rewrite Esim in Esim'. apply Ok_inj in Esim'. subst sim'.
  unfold rating_norm_of in Erating, Erating'. rewrite Hr, Erating' in Erating.
  apply Ok_inj in Erating. subst rating'.
  unfold discount_norm_of in Edisc, Edisc'. rewrite Hd, Edisc' in Edisc.
  apply Ok_inj in Edisc. subst disc'.
  unfold price_score_of in Eprice, Eprice'. rewrite Hp, Eprice' in Eprice.
  apply Ok_inj in Eprice. subst price'.
  destruct (collect_clicks ad bm25_results da sa Ha) as [Ega Efa].
  destruct (collect_clicks ad bm25_results db sa Hb) as [Egb Efb].
  pose proof (max_clicks_of_ge _ _ _ _ Hmc Efb) as Hle.
  unfold popularity_norm_of, pydiv in Epop, Epop'.
  rewrite Ega in Epop. rewrite Egb in Epop'.
  destruct (Nat.eqb_spec max_clicks 0) as [Hz | Hnz]; [lia |].
  assert (Hm : 0 < INR max_clicks) by (apply lt_0_INR; lia).
  destruct (Req_dec_T (INR max_clicks) 0); [lra |].
  apply Ok_inj in Epop, Epop'. subst pop pop'.
  apply lt_INR in Hclicks.
  assert (Hpop : INR (clicks_of ad da) / INR max_clicks
                 < INR (clicks_of ad db) / INR max_clicks).
  { unfold Rdiv. apply Rmult_lt_compat_r;
      [now apply Rinv_0_lt_compat | exact Hclicks]. }
  unfold weighted. rewrite Ho. destruct (out_of_stock db); lra.
Qed.

(** X20. A lower price never scores lower: of two candidates with a
    selling price the cheaper one gets a price score at least as high,
    strictly higher when it is strictly cheaper, and both scores lie in
    [0, 1]. *)
Theorem cheaper_scores_no_lower (ad : option AnalyticsData)
    (bm25_results : list (Document * R)) (a b' : Document * R)
    (pa pb va vb : R) :
  In a bm25_results -> In b' bm25_results ->
  selling_price (fst a) = Some pa -> selling_price (fst b') = Some pb ->
  pa <= pb ->
  price_score_of (collect ad bm25_results) (fst a) = Ok va ->
  price_score_of (collect ad bm25_results) (fst b') = Ok vb ->
  vb <= va /\ (pa < pb -> vb < va) /\ 0 <= vb /\ va <= 1.
Proof.
  intros Ha Hb Hpa Hpb Hle Eva Evb.
  destruct a as [da sa], b' as [db sb]. cbn [fst] in *.
  destruct (collect_bounded ad bm25_results da sa pa Ha Hpa)
    as (lo & hi & Hlo & Hhi & Ba).
  destruct (collect_bounded ad bm25_results db sb pb Hb Hpb)
    as (lo' & hi' & Hlo' & Hhi' & Bb).
  rewrite Hlo in Hlo'. rewrite Hhi in Hhi'.
  inversion Hlo'; inversion Hhi'; subst lo' hi'.
  unfold price_score_of, pydiv in Eva, Evb.
  rewrite Hpa, Hlo, Hhi in Eva. rewrite Hpb, Hlo, Hhi in Evb.
  destruct (Req_dec_T hi lo) as [Heq | Hne].
  - apply Ok_inj in Eva, Evb. subst va vb. repeat split; lra.
  - destruct (Req_dec_T (hi - lo) 0); [lra |].
    apply Ok_inj in Eva, Evb. subst va vb.
    assert (Hd : 0 < / (hi - lo)) by (apply Rinv_0_lt_compat; lra).
    assert (H1 : (pb - lo) / (hi - lo) <= 1).
    { apply (Rmult_le_reg_r (hi - lo)); [lra |].
      unfold Rdiv. rewrite Rmult_assoc, Rinv_l by lra. lra. }
    unfold Rdiv in *. repeat split; try nra.
Qed.

(** ** Click bookkeeping *)

Lemma count_click_ok (fact_clicks : dict nat) (k : string) :
  count_click fact_clicks k
  = Ok (dict_set fact_clicks k (dict_get fact_clicks k 0%nat + 1)%nat).
Proof.
  unfold count_click, dict_item, dict_get.
  destruct (existsb (String.eqb k) (dict_keys fact_clicks)) eqn:E.
  - apply existsb_exists in E. destruct E as (k' & Hin & Heq).
    apply String.eqb_eq in Heq. subst k'.
    apply dict_find_in_keys in Hin.
    destruct (dict_find fact_clicks k); [reflexivity | congruence].
  - destruct (dict_find fact_clicks k) as [v |] eqn:F; [| reflexivity].
    exfalso.
    assert (Hin : In k (dict_keys fact_clicks)).
    { apply dict_find_in_keys. congruence. }
    assert (existsb (String.eqb k) (dict_keys fact_clicks) = true).
    { apply existsb_exists. exists k. split; [exact Hin | apply String.eqb_refl]. }
    congruence.
Qed.

Lemma count_clicks_run (ids : list string) (d0 : dict nat) :
  for_each count_click ids d0 = Ok (bump_frequencies d0 ids).
Proof.
  unfold bump_frequencies.
  revert d0; induction ids as [| k ids IH]; intros d0; cbn [for_each fold_left].
  - reflexivity.
  - rewrite count_click_ok. cbn [bind]. apply IH.
Qed.

Lemma bump_frequencies_values (d0 : dict nat) (ids : list string) :
  Forall (fun v => 1 <= v)%nat (dict_values d0) ->
  Forall (fun v => 1 <= v)%nat (dict_values (bump_frequencies d0 ids)).
Proof.
  unfold bump_frequencies.
  revert d0; induction ids as [| k ids IH]; intros d0 H; cbn [fold_left].
  - exact H.
  - apply IH. apply dict_set_values; [exact H | lia].
Qed.

(** X21. Click counting never fails and counts exactly: after the clicks
    [ids] on a click table [d0], the count of every id is its old count
    plus the number of times it was clicked, ids that were not clicked keep
    their entry, the table still has no duplicate key and, if it had only
    positive counts, it still has.  Started from the empty table, the
    table's keys are the clicked ids and the popularity that the reranker
    reads for a document is the number of clicks on its pid. *)
Theorem click_counts_count_clicks (ids : list string) (d0 : dict nat) :
  exists d,
    for_each count_click ids d0 = Ok d /\
    (forall k,
        dict_get d k 0%nat
        = (dict_get d0 k 0 + count_occ string_dec ids k)%nat) /\
    (forall k, In k (dict_keys d) <-> In k (dict_keys d0) \/ In k ids) /\
    (dict_wf d0 -> dict_wf d) /\
    (Forall (fun v => 1 <= v)%nat (dict_values d0) ->
     Forall (fun v => 1 <= v)%nat (dict_values d)) /\
    (d0 = [] ->
     forall doc,
       clicks_of (Some {| fact_clicks := d |}) doc
       = count_occ string_dec ids (pid doc)).
Proof.
  exists (bump_frequencies d0 ids).
  split; [apply count_clicks_run |].
  split; [intros k; apply bump_frequencies_get |].
  split; [intros k; apply bump_frequencies_keys |].
  split; [apply Counter_fold_wf |].
  split; [apply bump_frequencies_values |].
  intros -> doc. cbn [clicks_of fact_clicks].
  rewrite bump_frequencies_get. reflexivity.
Qed.

Lemma map_result_raises {A B : Type} (f : A -> result B) (l : list A) (e : exn) :
  (forall x e', In x l -> f x = Raise e' -> e' = e) ->
  (exists x, In x l /\ f x = Raise e) ->
  map_result f l = Raise e.
Proof.
  induction l as [| x l IH]; intros Honly (x0 & Hin & Hx0); [destruct Hin |].
  cbn [map_result].
  destruct (f x) as [y | e'] eqn:Ex.
  - cbn [bind].
    destruct Hin as [<- | Hin]; [congruence |].
    rewrite IH; [reflexivity | | eauto].
    intros z e'' Hz. apply Honly. now right.
  - cbn [bind]. f_equal. apply (Honly x e'); [now left | exact Ex].
Qed.

Lemma dict_item_raise {V : Type} (d : dict V) (k : string) (e : exn) :
  dict_item d k = Raise e -> e = KeyError /\ ~ In k (dict_keys d).
Proof.
  unfold dict_item. destruct (dict_find d k) eqn:E; [discriminate |].
  intros H; inversion H. split; [reflexivity |].
  intros Hin. apply dict_find_in_keys in Hin. congruence.
Qed.

Lemma dict_item_missing {V : Type} (d : dict V) (k : string) :
  ~ In k (dict_keys d) -> dict_item d k = Raise KeyError.
Proof.
  intros Hnin. unfold dict_item.
  destruct (dict_find d k) eqn:E; [| reflexivity].
  exfalso. apply Hnin. apply dict_find_in_keys. congruence.
Qed.

Lemma stats_row_ok (fact_clicks : dict nat) (c : dict Document) (k : string) :
  In k (dict_keys fact_clicks) -> In k (dict_keys c) ->
  exists doc,
    dict_find c k = Some doc /\
    stats_row fact_clicks c k
    = Ok {| stats_pid := pid doc; stats_title := title doc;
            stats_description := description doc; stats_url := url doc;
            stats_count := dict_get fact_clicks k 0%nat |}.
Proof.
  intros Hfc Hc. unfold stats_row.
  destruct (dict_item_in c k Hc) as (doc & -> & Hdoc).
  destruct (dict_item_in fact_clicks k Hfc) as (v & -> & Hv).
  exists doc. split; [exact Hdoc |]. cbn [bind].
  unfold dict_get. rewrite Hv. reflexivity.
Qed.

Lemma stats_row_raise (fact_clicks : dict nat) (c : dict Document) (k : string)
    (e : exn) :
  stats_row fact_clicks c k = Raise e -> e = KeyError.
Proof.
  unfold stats_row.
  destruct (dict_item c k) as [doc | e1] eqn:E1; cbn [bind].
  - destruct (dict_item fact_clicks k) as [v | e2] eqn:E2; cbn [bind];
      [discriminate |].
    intros H; inversion H; subst. apply (dict_item_raise _ _ _ E2).
  - intros H; inversion H; subst. apply (dict_item_raise _ _ _ E1).
Qed.

Lemma stats_raise_on_unknown_id (fact_clicks : dict nat) (c : dict Document) :
  (exists k, In k (dict_keys fact_clicks) /\ ~ In k (dict_keys c)) ->
  stats fact_clicks c = Raise KeyError /\
  dashboard_visited_docs fact_clicks c = Raise KeyError.
Proof.
  intros (k & Hk & Hmissing). split.
  - unfold stats.
    rewrite (map_result_raises (stats_row fact_clicks c) _ KeyError);
      [reflexivity | |].
    + intros x e _ He. apply (stats_row_raise _ _ _ _ He).
    + exists k. split; [exact Hk |]. unfold stats_row.
      now rewrite (dict_item_missing c k Hmissing).
  - unfold dashboard_visited_docs, dict_items.
    unfold dict_keys in Hk. apply in_map_iff in Hk.
    destruct Hk as ([k' v] & Hfst & Hin). cbn [fst] in Hfst. subst k'.
    rewrite (map_result_raises _ _ KeyError); [reflexivity | |].
    + intros [k1 v1] e _ He.
      destruct (dict_item c k1) eqn:E; cbn [bind] in He; [discriminate |].
      inversion He; subst. apply (dict_item_raise _ _ _ E).
    + exists (k, v). split; [exact Hin |].
      now rewrite (dict_item_missing c k Hmissing).
Qed.

(** X22. The statistics and the dashboard pages need every clicked id to
    be a key of the corpus.  If it is, [stats] returns one row per clicked
    id, with the pid, title, description and url of the corpus document and
    the id's click count, and [dashboard] one pair per entry of the click
    table, both sorted by count, largest first, equal counts in the order
    of first click.  If some clicked id is not a key of the corpus, both
    raise [KeyError]. *)
Theorem stats_need_known_ids (fact_clicks : dict nat) (c : dict Document) :
  ((forall k, In k (dict_keys fact_clicks) -> In k (dict_keys c)) ->
   exists rows,
     Forall2 (fun k row =>
                exists doc,
                  dict_find c k = Some doc /\
                  row = {| stats_pid := pid doc; stats_title := title doc;
                           stats_description := description doc;
                           stats_url := url doc;
                           stats_count := dict_get fact_clicks k 0%nat |})
       (dict_keys fact_clicks) rows /\
     stats fact_clicks c
     = Ok (sorted_reverse (fun doc => INR (stats_count doc)) rows) /\
     descending (fun doc => INR (stats_count doc))
       (sorted_reverse (fun doc => INR (stats_count doc)) rows) /\
     dashboard_visited_docs fact_clicks c
     = Ok (sorted_reverse (fun x => INR (snd x)) fact_clicks) /\
     descending (fun x : string * nat => INR (snd x))
       (sorted_reverse (fun x => INR (snd x)) fact_clicks)) /\
  ((exists k, In k (dict_keys fact_clicks) /\ ~ In k (dict_keys c)) ->
   stats fact_clicks c = Raise KeyError /\
   dashboard_visited_docs fact_clicks c = Raise KeyError).
Proof.
  split.
  - intros Hknown.
    destruct (map_result_Forall2 (stats_row fact_clicks c)
                (fun k row =>
                   exists doc,
                     dict_find c k = Some doc /\
                     row = {| stats_pid := pid doc; stats_title := title doc;
                              stats_description := description doc;
                              stats_url := url doc;
                              stats_count := dict_get fact_clicks k 0%nat |})
                (dict_keys fact_clicks)) as (rows & Hrun & Hrel).
    { intros k Hk.
      destruct (stats_row_ok fact_clicks c k Hk (Hknown k Hk))
        as (doc & Hdoc & Hrow).
      eexists; split; [exact Hrow |]. exists doc. auto. }
    exists rows. split; [exact Hrel |].
    split; [unfold stats; rewrite Hrun; reflexivity |].
    split; [apply sorted_reverse_descending |].
    split; [| apply sorted_reverse_descending].
    + unfold dashboard_visited_docs, dict_items.
      rewrite (map_result_ok _ (fun x => x)).
      * cbn [bind]. now rewrite map_id.
      * intros [k v] Hin.
        destruct (dict_item_in c k) as (doc & -> & _); [| reflexivity].
        apply Hknown. unfold dict_keys. change k with (fst (k, v)).
        now apply in_map.
  - apply stats_raise_on_unknown_id.
Qed.

(** X23. One click on an id that the corpus does not have breaks the
    statistics for good: whatever else is clicked before and after it, on
    the resulting click table [stats] and [dashboard] raise [KeyError],
    although the counting itself succeeded. *)
Theorem unknown_click_breaks_stats (before after : list string)
    (unknown : string) (c : dict Document) :
  ~ In unknown (dict_keys c) ->
  exists d,
    for_each count_click (before ++ unknown :: after) [] = Ok d /\
    stats d c = Raise KeyError /\
    dashboard_visited_docs d c = Raise KeyError.
Proof.
  intros Hmissing.
  exists (bump_frequencies [] (before ++ unknown :: after)).
  split; [apply count_clicks_run |].
  apply stats_raise_on_unknown_id. exists unknown. split; [| exact Hmissing].
  apply bump_frequencies_keys. right. apply in_or_app. right. now left.
Qed.

Lemma last_ranking_fold (results : list Document) (n : nat) (d : dict nat) :
  NoDup (map pid results) ->
  let d' := fold_left (fun d '(idx, doc) => dict_set d (pid doc) idx)
              (combine (seq n (List.length results)) results) d in
  (forall i doc, nth_error results i = Some doc ->
                 dict_find d' (pid doc) = Some (n + i)%nat) /\
  (forall p, ~ In p (map pid results) -> dict_find d' p = dict_find d p).
Proof.
  revert n d; induction results as [| doc0 results IH]; intros n d Hnd.
  - simpl. split; [intros [| i] doc H; discriminate | reflexivity].
  - cbn [List.length seq combine fold_left map] in *.
    inversion Hnd as [| ? ? Hfresh Hnd']; subst.
    destruct (IH (S n) (dict_set d (pid doc0) n) Hnd') as [Hin Hout].
    split.
    + intros [| i] doc Hnth; cbn [nth_error] in Hnth.
      * inversion Hnth; subst doc.
        rewrite (Hout _ Hfresh), dict_find_set, String.eqb_refl.
        f_equal. lia.
      * rewrite (Hin i doc Hnth). f_equal. lia.
    + intros p Hp. rewrite Hout by (intros H; apply Hp; now right).
      rewrite dict_find_set.
      destruct (String.eqb_spec p (pid doc0)) as [-> | _]; [| reflexivity].
      exfalso. apply Hp. now left.
Qed.

(** X24. The rank stored with a search is found again at the click: for
    results with distinct pids, looking up the pid of the result at
    position [i] in the stored ranking gives [i], counted from 0; a pid that
    was not among the results, or a session without a ranking, gives no
    rank. *)
Theorem click_rank_is_position (results : list Document) :
  NoDup (map pid results) ->
  (forall i doc,
      nth_error results i = Some doc ->
      click_rank (Some (last_ranking results)) (pid doc) = Some i) /\
  (forall p,
      ~ In p (map pid results) ->
      click_rank (Some (last_ranking results)) p = None) /\
  (forall p, click_rank None p = None).
Proof.
  intros Hnd. destruct (last_ranking_fold results 0 [] Hnd) as [Hin Hout].
  split; [| split].
  - intros i doc Hnth. exact (Hin i doc Hnth).
  - intros p Hp. exact (Hout p Hp).
  - reflexivity.
Qed.

(** ** Scores and texts *)

(** X26. The BM25 score of a document depends on its text only through
    its tokens: two documents of the corpus with the same token list, for
    instance texts that differ in letter case or punctuation only, get the
    same BM25 score under every query. *)
Theorem same_tokens_same_score (c : dict Document) (k b0 : R)
    (self : BM25Index) (id1 id2 : string) (d1 d2 : Document)
    (query_tokens : list string) :
  BM25Index_init c k b0 = Ok self -> dict_wf c ->
  In (id1, d1) c -> In (id2, d2) c ->
  doc_tokens d1 = doc_tokens d2 ->
  _calculate_bm25_score self id1 query_tokens
  = _calculate_bm25_score self id2 query_tokens.
Proof.
  intros Hinit Hwf H1 H2 Htok.
  destruct (BM25Index_init_inv _ _ _ _ Hinit)
    as (_ & _ & _ & _ & Hdl & Hdtf & _).
  destruct (build_loop_tables c Hwf) as [E1 E2].
  unfold _calculate_bm25_score. rewrite Hdl, Hdtf, E1, E2.
  unfold dict_get.
  rewrite !(dict_find_map_item (fun d => List.length (doc_tokens d))),
          !(dict_find_map_item (fun d => Counter (doc_tokens d))).
  rewrite (dict_find_In c id1 d1 Hwf H1), (dict_find_In c id2 d2 Hwf H2).
  simpl. rewrite Htok. reflexivity.
Qed.

(* ---------------------------------------------------------------- *)
(** ** The final score in the words of the specification *)

Lemma Forall2_In_l {A B : Type} (P : A -> B -> Prop) (l : list A) (l' : list B)
    (x : A) :
  Forall2 P l l' -> In x l -> exists y, In y l' /\ P x y.
Proof.
  induction 1 as [| a b' l l' Hab _ IH]; simpl; [tauto |].
  intros [<- | Hin].
  - exists b'. auto.
  - destruct (IH Hin) as (y & Hy & Hp). exists y. auto.
Qed.













(* ---------------------------------------------------------------- *)
(** ** Every document of the corpus is scored and kept *)

Lemma zero_score_entry (c : dict Document) (self : BM25Index)
    (q : list string) (scored : list (string * R)) (doc_id : string)
    (doc : Document) :
  BM25Index_init c 1.5 0.75 = Ok self -> dict_wf c ->
  Forall2 (scored_as self q) c scored ->
  In (doc_id, doc) c ->
  (forall t, In t q -> ~ In t (doc_tokens doc)) ->
  In (doc_id, 0) scored.
Proof.
  intros Hinit Hwf Hrel Hin Hdis.
  pose proof (init_index_ok c 1.5 0.75 self Hinit ltac:(lra) ltac:(lra)) as Hok.
  destruct (Forall2_In_l _ _ _ _ Hrel Hin) as ([id x] & Hsc & Hfst & s & Hs & Hx).
  simpl in Hfst, Hs, Hx. subst id.
  destruct (for_each_bm25_zero_iff self doc_id q Hok) as (s' & Hs' & _ & Hiff).
  unfold _calculate_bm25_score in Hs. rewrite Hs' in Hs.
  injection Hs as <-.
  assert (H0 : s' = 0).
  { apply Hiff. apply Forall_forall. intros t Ht.
    rewrite (init_term_freqs_count c 1.5 0.75 self doc_id doc t Hinit Hwf Hin).
    apply count_occ_not_In. now apply Hdis. }
  assert (Ex : x = 0).
  { rewrite Hx, H0. unfold _apply_metadata_boosts. lra. }
  now rewrite <- Ex.
Qed.

(** C10.  For a non-empty corpus and a query with at least one token,
    every document of the corpus gets an entry in the score table, also a
    document that shares no token with the query, whose entry has score 0;
    the BM25 stage returns the first [min(top_k, |C|)] entries of the
    ranking of that whole table, each as the copy of its corpus document,
    so nothing is left out because of its score: the result has exactly
    [min(top_k, |C|)] documents, and when [top_k] is at least [|C|] they
    are the documents of the corpus.  [SearchEngine.search], which asks for
    20, returns exactly [min(20, |C|)] documents: the candidates of the
    BM25 stage, none dropped, each showing a document of the corpus, and
    all of the corpus when it has at most 20 documents. *)
Theorem corpus_scored_and_kept (search_query : string) (search_id : Z)
    (c : dict Document) (ad : option AnalyticsData) (stdout : list string) :
  dict_wf c -> c <> [] -> _tokenize search_query <> [] ->
  (forall top_k, (0 <= top_k)%Z ->
     exists self scored hits,
       BM25Index_init c 1.5 0.75 = Ok self /\
       Forall2 (scored_as self (_tokenize search_query)) c scored /\
       (forall doc_id doc,
           In (doc_id, doc) c ->
           (forall t, In t (_tokenize search_query) ->
                      ~ In t (doc_tokens doc)) ->
           In (doc_id, 0) scored) /\
       search_in_corpus search_query c top_k = Ok hits /\
       Forall2 (hit_of c)
         (firstn (Z.to_nat top_k) (sorted_reverse snd scored)) hits /\
       List.length hits = Nat.min (Z.to_nat top_k) (List.length c) /\
       ((List.length c <= Z.to_nat top_k)%nat ->
        Permutation (map (fun h => pid (fst h)) hits)
          (map (fun item => pid (snd item)) c))) /\
  exists hits res,
    search_in_corpus search_query c 20 = Ok hits /\
    fst (SearchEngine_search search_query search_id c ad stdout) = Ok res /\
    List.length res = Nat.min 20 (List.length c) /\
    Permutation (map pid res) (map (fun h => pid (fst h)) hits) /\
    Forall (fun d =>
              exists doc_id doc, In (doc_id, doc) c /\ same_product d doc)
      res /\
    ((List.length c <= 20)%nat ->
     Permutation (map pid res) (map (fun item => pid (snd item)) c)).
Proof.
  intros Hwf _ Htok.
  assert (Hstage : forall top_k, (0 <= top_k)%Z ->
            exists self scored hits,
              BM25Index_init c 1.5 0.75 = Ok self /\
              Forall2 (scored_as self (_tokenize search_query)) c scored /\
              search_in_corpus search_query c top_k = Ok hits /\
              Forall2 (hit_of c)
                (firstn (Z.to_nat top_k) (sorted_reverse snd scored)) hits /\
              List.length hits = Nat.min (Z.to_nat top_k) (List.length c) /\
              ((List.length c <= Z.to_nat top_k)%nat ->
               Permutation (map (fun h => pid (fst h)) hits)
                 (map (fun item => pid (snd item)) c))).
  { intros top_k Hk.
    destruct (search_in_corpus_shape search_query c top_k Hwf Htok)
      as (self & scored & hits & Hinit & Hrel & Hrun & Hhits).
    unfold slice_to in Hhits. destruct (Z.leb_spec 0 top_k); [| lia].
    exists self, scored, hits.
    split; [exact Hinit |]. split; [exact Hrel |]. split; [exact Hrun |].
    split; [exact Hhits |]. split.
    - rewrite (Forall2_length_eq _ _ _ Hhits), length_firstn,
              sorted_reverse_length, (Forall2_length_eq _ _ _ Hrel).
      reflexivity.
    - intros Hall.
      apply (hits_pids_perm c self (_tokenize search_query) scored hits
               Hwf Hrel).
      rewrite firstn_all_ge in Hhits; [exact Hhits |].
      now rewrite sorted_reverse_length, (Forall2_length_eq _ _ _ Hrel). }
  split.
  - intros top_k Hk.
    destruct (Hstage top_k Hk)
      as (self & scored & hits & Hinit & Hrel & Hrun & Hhits & Hlen & Hperm).
    exists self, scored, hits.
    split; [exact Hinit |]. split; [exact Hrel |].
    split; [| auto].
    intros doc_id doc Hin Hdis.
    exact (zero_score_entry c self (_tokenize search_query) scored doc_id doc
             Hinit Hwf Hrel Hin Hdis).
  - destruct (Hstage 20%Z ltac:(lia))
      as (self & scored & hits & Hinit & Hsc & Hrun & Hhit & Hlen & Hall).
    destruct (search_value_ok search_query search_id c ad)
      as (hits' & m & mc & hybrid & Hhits' & _ & _ & _ & Hrel & Hval).
    rewrite Hrun in Hhits'. injection Hhits' as <-.
    exists hits, (map (result_doc search_id) (sorted_reverse snd hybrid)).
    split; [exact Hrun |]. split; [exact Hval |].
    assert (Hperm : Permutation
                      (map pid (map (result_doc search_id)
                                  (sorted_reverse snd hybrid)))
                      (map (fun h => pid (fst h)) hits)).
    { rewrite result_doc_pids.
      eapply perm_trans;
        [apply Permutation_map, Permutation_sym, sorted_reverse_perm |].
      rewrite <- (map_map fst pid hybrid), (Forall2_map_fst _ _ _ Hrel),
              map_map.
      apply Permutation_refl. }
    split; [| split; [exact Hperm | split]].
    + rewrite length_map, sorted_reverse_length,
              (Forall2_length_eq _ _ _ Hrel).
      exact Hlen.
    + apply Forall_forall. intros d Hd.
      apply in_map_iff in Hd. destruct Hd as ([doc x] & <- & Hin).
      apply (Permutation_in _
               (Permutation_sym (sorted_reverse_perm snd hybrid))) in Hin.
      destruct (Forall2_In_r _ _ _ _ Hrel Hin) as (cand & Hcand & Hfst & _).
      cbn [fst] in Hfst. subst doc.
      destruct (Forall2_In_r _ _ _ _ Hhit Hcand)
        as (sc & _ & _ & doc & Hdoc & Hcopy).
      exists (fst sc), doc. split; [exact Hdoc |].
      apply result_doc_same. rewrite Hcopy. apply bm25_result_doc_same.
    + intros Hsmall. eapply perm_trans; [exact Hperm |].
      apply Hall. change (Z.to_nat 20) with 20%nat. exact Hsmall.
Qed.

End Search.

(* ================================================================== *)
(** * Sample evaluations *)

Example tokenize_sample :
  _tokenize None "The Red-Shoes, and  OF 42nd street!"
  = ["red"; "shoes"; "42nd"; "street"].
Proof. vm_compute. reflexivity. Qed.

Example tokenize_stopwords_only : _tokenize None "the and of" = [].
Proof. vm_compute. reflexivity. Qed.

Example tokenize_nltk_list :
  _tokenize (Some ["red"]) "the red shoes" = ["the"; "shoes"].
Proof. vm_compute. reflexivity. Qed.

Example Counter_sample :
  Counter ["red"; "shoes"; "red"] = [("red", 2%nat); ("shoes", 1%nat)].
Proof. vm_compute. reflexivity. Qed.

Example slice_to_negative : slice_to [1; 2; 3; 4]%nat (-1) = [1; 2; 3]%nat.
Proof. vm_compute. reflexivity. Qed.

Example scenario_doc_lengths :
  bs_doc_lengths (build_loop None SCENARIO_CORPUS)
  = [("A", 5%nat); ("B", 5%nat); ("C", 6%nat)]
  /\ bs_total_length (build_loop None SCENARIO_CORPUS) = 16%nat.
Proof. split; vm_compute; reflexivity. Qed.

Example scenario_doc_frequencies :
  bs_doc_frequencies (build_loop None SCENARIO_CORPUS)
  = [("red", 2%nat); ("running", 1%nat); ("shoes", 2%nat);
     ("comfortable", 1%nat); ("blue", 1%nat); ("jacket", 1%nat);
     ("warm", 1%nat); ("winter", 1%nat); ("sale", 1%nat);
     ("discounted", 1%nat)].
Proof. vm_compute. reflexivity. Qed.

Example sorted_reverse_sample :
  sorted_reverse snd [("a", 1); ("b", 2); ("c", 1)]
  = [("b", 2); ("a", 1); ("c", 1)].
Proof.
  unfold sorted_reverse; simpl.
  repeat (destruct (Rlt_dec _ _); try lra; simpl).
  reflexivity.
Qed.

(* ================================================================== *)
(** * The statements at sample inputs

    All with the fallback stopword list ([nltk_english = None]). *)

Lemma STOPWORD_CORPUS_wf : dict_wf STOPWORD_CORPUS.
Proof.
  unfold dict_wf; simpl. repeat constructor; simpl; intuition discriminate.
Defined.

Lemma SCENARIO_CORPUS_wf : dict_wf SCENARIO_CORPUS.
Proof.
  unfold dict_wf; simpl. repeat constructor; simpl; intuition discriminate.
Defined.

Lemma STOPWORD_CORPUS_tokenless : tokenless None STOPWORD_CORPUS.
Proof.
  unfold tokenless, STOPWORD_CORPUS.
  constructor; [vm_compute; reflexivity | constructor].
Defined.

(** The claim C1 as the specification states it fails on the corpus whose
    one document reads "The" / "of the ...": with the query "shoes" the
    search returns one document, not the empty list. *)
Lemma tokenless_corpus_counterexample :
  STOPWORD_CORPUS <> [] /\
  tokenless None STOPWORD_CORPUS /\
  _tokenize None "shoes" = ["shoes"] /\
  (exists hit, search_in_corpus None "shoes" STOPWORD_CORPUS 20 = Ok [hit]) /\
  (exists d,
      fst (SearchEngine_search None "shoes" 7 STOPWORD_CORPUS None []) = Ok [d]) /\
  fst (SearchEngine_search None "shoes" 7 STOPWORD_CORPUS None []) <> Ok [].
Proof.
  assert (Htok : _tokenize None "shoes" = ["shoes"]) by (vm_compute; reflexivity).
  destruct (search_value_length None "shoes" 7 STOPWORD_CORPUS None)
    as (hits & res & Hhits & Hres & Hlen).
  destruct (search_in_corpus_ok None "shoes" STOPWORD_CORPUS 20)
    as (hits' & Hhits' & _ & _ & _ & _ & Hexact).
  rewrite Hhits in Hhits'. inversion Hhits'; subst hits'.
  assert (H1 : List.length hits = 1%nat).
  { apply Hexact; [rewrite Htok; discriminate | apply STOPWORD_CORPUS_wf | lia]. }
  rewrite H1 in Hlen.
  cbn [SearchEngine_search fst]. rewrite Hhits, Hres.
  split; [discriminate |].
  split; [apply STOPWORD_CORPUS_tokenless |].
  split; [exact Htok |].
  split; [| split].
  - destruct hits as [| h [| h' hits]]; try discriminate. now exists h.
  - destruct res as [| d [| d' res]]; try discriminate. now exists d.
  - intros Heq. inversion Heq; subst res. discriminate.
Qed.

Lemma tokenless_corpus_scores_zero_witness :
  dict_wf STOPWORD_CORPUS /\ STOPWORD_CORPUS <> [] /\
  tokenless None STOPWORD_CORPUS /\ _tokenize None "shoes" <> [] /\
  exists self hits res,
    BM25Index_init None STOPWORD_CORPUS 1.5 0.75 = Ok self /\
    avg_doc_length self = 0 /\
    search_in_corpus None "shoes" STOPWORD_CORPUS 20 = Ok hits /\
    Forall (fun h => snd h = 0) hits /\
    List.length hits = Nat.min 20 (List.length STOPWORD_CORPUS) /\
    fst (SearchEngine_search None "shoes" 7 STOPWORD_CORPUS None []) = Ok res /\
    List.length res = Nat.min 20 (List.length STOPWORD_CORPUS) /\
    res <> [].
Proof.
  assert (Hne : STOPWORD_CORPUS <> []) by discriminate.
  assert (Htok : _tokenize None "shoes" <> []) by (vm_compute; discriminate).
  split; [apply STOPWORD_CORPUS_wf |].
  split; [exact Hne |].
  split; [apply STOPWORD_CORPUS_tokenless |].
  split; [exact Htok |].
  exact (tokenless_corpus_scores_zero None "shoes" 7 STOPWORD_CORPUS None []
           STOPWORD_CORPUS_wf Hne STOPWORD_CORPUS_tokenless Htok).
Defined.

Lemma metadata_boost_multiplicative_witness :
  let rated := sample_doc "p" "t" "d" (Some 4.5) None None false in
  let plain := sample_doc "q" "t" "d" (Some 3.9) None None true in
  rating_present_ge_4 rated = true /\ out_of_stock rated = false /\
  _apply_metadata_boosts 2 rated = 2 * 1.32 /\
  rating_present_ge_4 plain = false /\ out_of_stock plain = true /\
  _apply_metadata_boosts 2 plain = 2.
Proof.
  intros rated plain.
  assert (Hr : rating_present_ge_4 rated = true).
  { unfold rating_present_ge_4; simpl.
    destruct (Rge_dec 4.5 4.0); [reflexivity | lra]. }
  assert (Hp : rating_present_ge_4 plain = false).
  { unfold rating_present_ge_4; simpl.
    destruct (Rge_dec 3.9 4.0); [lra | reflexivity]. }
  split; [exact Hr |]. split; [reflexivity |].
  split; [exact (proj1 (proj2 (metadata_boost_multiplicative 2 rated))
                   Hr eq_refl) |].
  split; [exact Hp |]. split; [reflexivity |].
  exact (proj1 (proj2 (proj2 (metadata_boost_multiplicative 2 plain)))
           Hp eq_refl).
Defined.

Lemma idf_decreasing_positive_witness :
  exists self v1 v2,
    BM25Index_init None SCENARIO_CORPUS 1.5 0.75 = Ok self /\
    (dict_get (doc_frequencies self) "jacket" 0
     < dict_get (doc_frequencies self) "red" 0)%nat /\
    _calculate_idf self "jacket" = Ok v1 /\
    _calculate_idf self "red" = Ok v2 /\
    v2 < v1 /\ 0 < v2.
Proof.
  destruct (BM25Index_init_ok None SCENARIO_CORPUS 1.5 0.75)
    as (self & Hinit & _ & _); [lra | lra |].
  destruct (BM25Index_init_inv None _ _ _ _ Hinit) as (_ & _ & _ & Hdf & _).
  pose proof (idf_decreasing_positive None SCENARIO_CORPUS 1.5 0.75 self Hinit)
    as [Hval Hmono].
  destruct (Hval "jacket") as (_ & E1 & _).
  destruct (Hval "red") as (_ & E2 & Hpos).
  assert (Hlt : (dict_get (doc_frequencies self) "jacket" 0
                 < dict_get (doc_frequencies self) "red" 0)%nat).
  { rewrite Hdf. vm_compute. lia. }
  do 3 eexists. split; [exact Hinit |]. split; [exact Hlt |].
  split; [exact E1 |]. split; [exact E2 |].
  split; [exact (Hmono _ _ _ _ Hlt E1 E2) | exact Hpos].
Defined.

Lemma avg_doc_length_division_safe_witness :
  exists self,
    BM25Index_init None SCENARIO_CORPUS 1.5 0.75 = Ok self /\
    dict_get (dict_get (doc_term_freqs self) "A" []) "red" 0%nat <> 0%nat /\
    (0 < dict_get (doc_lengths self) "A" 0)%nat /\
    0 < avg_doc_length self /\
    exists score,
      _calculate_bm25_score self "A" ["red"; "shoes"] = Ok score /\ 0 <= score.
Proof.
  destruct (BM25Index_init_ok None SCENARIO_CORPUS 1.5 0.75)
    as (self & Hinit & _ & _); [lra | lra |].
  destruct (BM25Index_init_inv None _ _ _ _ Hinit)
    as (_ & _ & _ & _ & _ & Hdtf & _).
  pose proof (avg_doc_length_division_safe None SCENARIO_CORPUS 1.5 0.75 self
                Hinit) as [Hdiv Hscore].
  assert (Htf : dict_get (dict_get (doc_term_freqs self) "A" []) "red" 0%nat
                <> 0%nat).
  { rewrite Hdtf. vm_compute. discriminate. }
  destruct (proj2 (Hdiv "A" "red" 0) Htf) as (Hlen & _ & Havg & _).
  exists self. split; [exact Hinit |]. split; [exact Htf |].
  split; [exact Hlen |]. split; [exact Havg |].
  apply Hscore; lra.
Defined.

Lemma empty_inputs_empty_result_witness :
  _tokenize None "the and of" = [] /\
  fst (SearchEngine_search None "the and of" 7 SCENARIO_CORPUS None []) = Ok [] /\
  fst (SearchEngine_search None "red shoes" 7 [] None []) = Ok [].
Proof.
  assert (Htok : _tokenize None "the and of" = []) by (vm_compute; reflexivity).
  split; [exact Htok |].
  split.
  - exact (proj2 (empty_inputs_empty_result None "the and of" 7 None [])
             SCENARIO_CORPUS Htok).
  - exact (proj1 (empty_inputs_empty_result None "red shoes" 7 None [])).
Defined.

(* ================================================================== *)
(** * The further properties at sample inputs *)

Lemma search_ignores_case_and_punctuation_witness :
  same_text_for_search "Red-Shoes!" "red shoes " = true /\
  _tokenize None "Red-Shoes!" = _tokenize None "red shoes " /\
  fst (SearchEngine_search None "Red-Shoes!" 7 SCENARIO_CORPUS None [])
  = fst (SearchEngine_search None "red shoes " 7 SCENARIO_CORPUS None []).
Proof.
  assert (H : same_text_for_search "Red-Shoes!" "red shoes " = true)
    by (vm_compute; reflexivity).
  split; [exact H |].
  exact (search_ignores_case_and_punctuation None "Red-Shoes!" "red shoes " 7
           SCENARIO_CORPUS None [] H).
Defined.

Lemma index_tables_follow_corpus_witness :
  exists self,
    BM25Index_init None SCENARIO_CORPUS 1.5 0.75 = Ok self /\
    dict_wf SCENARIO_CORPUS /\
    dict_get (doc_lengths self) "C" 0%nat = 6%nat /\
    dict_get (dict_get (doc_term_freqs self) "C" []) "red" 0%nat = 2%nat /\
    dict_get (doc_lengths self) "Z" 0%nat = 0%nat.
Proof.
  destruct (BM25Index_init_ok None SCENARIO_CORPUS 1.5 0.75)
    as (self & Hinit & _ & _); [lra | lra |].
  pose proof (index_tables_follow_corpus None SCENARIO_CORPUS 1.5 0.75 self
                Hinit SCENARIO_CORPUS_wf) as (_ & _ & Hin & Hout).
  exists self. split; [exact Hinit |]. split; [apply SCENARIO_CORPUS_wf |].
  destruct (Hin "C" (sample_doc "C" "red shoes sale" "discounted red shoes"
                       (Some 4.8) (Some 40) (Some 30) true))
    as [Hlen Htf]; [simpl; auto |].
  split; [rewrite Hlen; vm_compute; reflexivity |].
  split; [rewrite Htf; vm_compute; reflexivity |].
  apply Hout. simpl. intuition discriminate.
Defined.

Lemma document_frequency_counts_documents_witness :
  exists self,
    BM25Index_init None SCENARIO_CORPUS 1.5 0.75 = Ok self /\
    dict_get (doc_frequencies self) "shoes" 0%nat = 2%nat /\
    dict_get (doc_frequencies self) "hat" 0%nat = 0%nat.
Proof.
  destruct (BM25Index_init_ok None SCENARIO_CORPUS 1.5 0.75)
    as (self & Hinit & _ & _); [lra | lra |].
  exists self. split; [exact Hinit |].
  split.
  - rewrite (document_frequency_counts_documents None SCENARIO_CORPUS 1.5 0.75
               self "shoes" Hinit).
    vm_compute. reflexivity.
  - rewrite (document_frequency_counts_documents None SCENARIO_CORPUS 1.5 0.75
               self "hat" Hinit).
    vm_compute. reflexivity.
Defined.

Lemma avg_doc_length_is_mean_witness :
  exists self,
    BM25Index_init None SCENARIO_CORPUS 1.5 0.75 = Ok self /\
    avg_doc_length self = 16 / 3.
Proof.
  destruct (BM25Index_init_ok None SCENARIO_CORPUS 1.5 0.75)
    as (self & Hinit & _ & _); [lra | lra |].
  pose proof (avg_doc_length_is_mean None SCENARIO_CORPUS 1.5 0.75 self
                Hinit SCENARIO_CORPUS_wf) as (Hmean & _ & Hsum & _).
  exists self. split; [exact Hinit |].
  rewrite (Hmean ltac:(discriminate)), Hsum.
  replace (list_sum
             (map (fun item => List.length (doc_tokens None (snd item)))
                SCENARIO_CORPUS)) with 16%nat
    by (vm_compute; reflexivity).
  simpl. lra.
Defined.

Lemma bm25_zero_iff_no_shared_token_witness :
  exists self,
    BM25Index_init None SCENARIO_CORPUS 1.5 0.75 = Ok self /\
    _calculate_bm25_score self "B" ["red"; "shoes"] = Ok 0 /\
    _calculate_bm25_score self "Z" ["red"; "shoes"] = Ok 0.0.
Proof.
  destruct (BM25Index_init_ok None SCENARIO_CORPUS 1.5 0.75)
    as (self & Hinit & _ & _); [lra | lra |].
  pose proof (bm25_zero_iff_no_shared_token None SCENARIO_CORPUS 1.5 0.75 self
                Hinit ltac:(lra) ltac:(lra) SCENARIO_CORPUS_wf)
    as [Hin Hout].
  exists self. split; [exact Hinit |]. split.
  - destruct (Hin "B" (sample_doc "B" "blue jacket" "warm winter jacket"
                         (Some 3.0) (Some 80) None false) ["red"; "shoes"])
      as (s & Hs & _ & Hiff); [simpl; auto |].
    rewrite Hs. f_equal. apply Hiff.
    intros t Ht. vm_compute. simpl in Ht.
    intuition (subst; discriminate).
  - apply Hout. simpl. intuition discriminate.
Defined.

Lemma bm25_longer_query_no_lower_witness :
  exists self s1 s12,
    BM25Index_init None SCENARIO_CORPUS 1.5 0.75 = Ok self /\
    _calculate_bm25_score self "A" ["red"] = Ok s1 /\
    _calculate_bm25_score self "A" ["red"; "shoes"] = Ok s12 /\
    0 <= s1 <= s12.
Proof.
  destruct (BM25Index_init_ok None SCENARIO_CORPUS 1.5 0.75)
    as (self & Hinit & _ & _); [lra | lra |].
  destruct (bm25_longer_query_no_lower None SCENARIO_CORPUS 1.5 0.75 self "A"
              ["red"] ["shoes"] Hinit ltac:(lra) ltac:(lra))
    as (s1 & s12 & H1 & H12 & Hle).
  exists self, s1, s12. auto.
Defined.

Lemma bm25_score_ignores_absent_tokens_witness :
  exists self,
    BM25Index_init None SCENARIO_CORPUS 1.5 0.75 = Ok self /\
    _calculate_bm25_score self "A" ["red"; "shoes"]
    = _calculate_bm25_score self "A" ["red"; "jacket"; "shoes"; "hat"].
Proof.
  destruct (BM25Index_init_ok None SCENARIO_CORPUS 1.5 0.75)
    as (self & Hinit & _ & _); [lra | lra |].
  exists self. split; [exact Hinit |].
  exact (bm25_score_ignores_absent_tokens None SCENARIO_CORPUS 1.5 0.75 self
           "A" (sample_doc "A" "red running shoes" "comfortable shoes"
                  (Some 4.5) (Some 50) None false)
           ["red"; "jacket"; "shoes"; "hat"] Hinit SCENARIO_CORPUS_wf
           ltac:(simpl; auto)).
Defined.


Lemma scenario_query_tokens : _tokenize None "red shoes" <> [].
Proof. vm_compute. discriminate. Defined.

Lemma bm25_stage_scores_sorts_cuts_witness :
  dict_wf SCENARIO_CORPUS /\ _tokenize None "red shoes" <> [] /\
  exists scored hits,
    dict_keys scored = ["A"; "B"; "C"] /\
    search_in_corpus None "red shoes" SCENARIO_CORPUS 2 = Ok hits /\
    Forall2 (hit_of SCENARIO_CORPUS)
      (slice_to (sorted_reverse snd scored) 2) hits.
Proof.
  split; [apply SCENARIO_CORPUS_wf |]. split; [apply scenario_query_tokens |].
  destruct (bm25_stage_scores_sorts_cuts None "red shoes" SCENARIO_CORPUS 2
              SCENARIO_CORPUS_wf scenario_query_tokens)
    as (self & scored & hits & _ & _ & Hkeys & _ & _ & Hrun & Hhits & _).
  exists scored, hits. split; [exact Hkeys |]. split; assumption.
Defined.

Lemma bm25_hits_best_first_witness :
  dict_wf SCENARIO_CORPUS /\ _tokenize None "red shoes" <> [] /\
  exists hits,
    search_in_corpus None "red shoes" SCENARIO_CORPUS 2 = Ok hits /\
    descending snd hits.
Proof.
  split; [apply SCENARIO_CORPUS_wf |]. split; [apply scenario_query_tokens |].
  destruct (bm25_hits_best_first None "red shoes" SCENARIO_CORPUS 2
              SCENARIO_CORPUS_wf scenario_query_tokens)
    as (self & scored & hits & _ & _ & Hrun & Hdesc & _).
  exists hits. split; assumption.
Defined.

Lemma bm25_negative_top_k_witness :
  dict_wf SCENARIO_CORPUS /\ _tokenize None "red shoes" <> [] /\ (-1 < 0)%Z /\
  exists (kept dropped : list (string * R)) hits,
    List.length dropped = 1%nat /\
    Forall (fun kd => Forall (fun d => snd d <= snd kd) dropped) kept /\
    search_in_corpus None "red shoes" SCENARIO_CORPUS (-1) = Ok hits /\
    Forall2 (hit_of SCENARIO_CORPUS) kept hits /\
    List.length hits = 2%nat.
Proof.
  split; [apply SCENARIO_CORPUS_wf |]. split; [apply scenario_query_tokens |].
  split; [lia |].
  destruct (bm25_negative_top_k None "red shoes" SCENARIO_CORPUS (-1)
              SCENARIO_CORPUS_wf scenario_query_tokens ltac:(lia))
    as (self & scored & kept & dropped & hits & _ & _ & _ & Hd & Hle & Hrun
        & Hhit & Hlen).
  exists kept, dropped, hits. auto.
Defined.

Lemma bm25_returns_whole_corpus_witness :
  dict_wf SCENARIO_CORPUS /\ _tokenize None "red shoes" <> [] /\
  (Z.of_nat (List.length SCENARIO_CORPUS) <= 20)%Z /\
  exists hits,
    search_in_corpus None "red shoes" SCENARIO_CORPUS 20 = Ok hits /\
    Permutation (map (fun h => pid (fst h)) hits) ["A"; "B"; "C"].
Proof.
  split; [apply SCENARIO_CORPUS_wf |]. split; [apply scenario_query_tokens |].
  split; [simpl; lia |].
  exact (bm25_returns_whole_corpus None "red shoes" SCENARIO_CORPUS 20
           SCENARIO_CORPUS_wf scenario_query_tokens ltac:(simpl; lia)).
Defined.

Lemma rerank_keeps_candidates_witness :
  exists res,
    fst (SearchEngine_search None "red shoes" 7 SCENARIO_CORPUS None []) = Ok res /\
    Permutation (map pid res) ["A"; "B"; "C"].
Proof.
  destruct (rerank_keeps_candidates None "red shoes" 7 SCENARIO_CORPUS None [])
    as (hits & res & _ & Hres & _ & Hall).
  exists res. split; [exact Hres |].
  exact (Hall SCENARIO_CORPUS_wf scenario_query_tokens ltac:(simpl; lia)).
Defined.

Lemma results_are_corpus_documents_witness :
  dict_wf SCENARIO_CORPUS /\
  exists res,
    fst (SearchEngine_search None "red shoes" 7 SCENARIO_CORPUS None []) = Ok res /\
    Forall (fun d =>
              exists doc_id doc,
                In (doc_id, doc) SCENARIO_CORPUS /\ same_product d doc)
      res.
Proof.
  split; [apply SCENARIO_CORPUS_wf |].
  exact (results_are_corpus_documents None "red shoes" 7 SCENARIO_CORPUS None []
           SCENARIO_CORPUS_wf).
Defined.

Lemma same_tokens_same_score_witness :
  exists self,
    BM25Index_init None CASE_CORPUS 1.5 0.75 = Ok self /\
    dict_wf CASE_CORPUS /\
    doc_tokens None (sample_doc "u" "Red Shoes!" "SALE" None None None false)
    = doc_tokens None (sample_doc "v" "red, shoes" "sale." None None None true) /\
    _calculate_bm25_score self "u" ["shoes"]
    = _calculate_bm25_score self "v" ["shoes"].
Proof.
  assert (Hwf : dict_wf CASE_CORPUS).
  { unfold dict_wf; simpl. repeat constructor; simpl; intuition discriminate. }
  assert (Htok : doc_tokens None
                   (sample_doc "u" "Red Shoes!" "SALE" None None None false)
                 = doc_tokens None
                     (sample_doc "v" "red, shoes" "sale." None None None true))
    by (vm_compute; reflexivity).
  destruct (BM25Index_init_ok None CASE_CORPUS 1.5 0.75)
    as (self & Hinit & _ & _); [lra | lra |].
  exists self. split; [exact Hinit |]. split; [exact Hwf |].
  split; [exact Htok |].
  apply (same_tokens_same_score None CASE_CORPUS 1.5 0.75 self "u" "v"
           (sample_doc "u" "Red Shoes!" "SALE" None None None false)
           (sample_doc "v" "red, shoes" "sale." None None None true)
           ["shoes"] Hinit Hwf); [simpl; auto | simpl; auto | exact Htok].
Defined.

Lemma more_clicks_higher_score_witness :
  let a := (sample_doc "p" "t" "d" None None None false, 1) in
  let b' := (sample_doc "q" "t" "d" None None None false, 1) in
  In a TWIN_CANDIDATES /\ In b' TWIN_CANDIDATES /\
  max_clicks_of (collect TWIN_CLICKS TWIN_CANDIDATES) = Ok 100%nat /\
  (clicks_of TWIN_CLICKS (fst a) < clicks_of TWIN_CLICKS (fst b'))%nat /\
  exists xa xb,
    final_score_of (collect TWIN_CLICKS TWIN_CANDIDATES) 1 100 a xa /\
    final_score_of (collect TWIN_CLICKS TWIN_CANDIDATES) 1 100 b' xb /\
    xa < xb.
Proof.
  intros a b'.
  assert (Ha : In a TWIN_CANDIDATES) by (simpl; auto).
  assert (Hb : In b' TWIN_CANDIDATES) by (simpl; auto).
  assert (Hmc : max_clicks_of (collect TWIN_CLICKS TWIN_CANDIDATES)
                = Ok 100%nat) by (vm_compute; reflexivity).
  assert (Hlt : (clicks_of TWIN_CLICKS (fst a)
                 < clicks_of TWIN_CLICKS (fst b'))%nat)
    by (vm_compute; lia).
  destruct (hybrid_step_ok (collect TWIN_CLICKS TWIN_CANDIDATES) 1 100 a)
    as (xa & _ & Hxa & _);
    [simpl; lra | lra | intros p Hp; discriminate |].
  destruct (hybrid_step_ok (collect TWIN_CLICKS TWIN_CANDIDATES) 1 100 b')
    as (xb & _ & Hxb & _);
    [simpl; lra | lra | intros p Hp; discriminate |].
  split; [exact Ha |]. split; [exact Hb |]. split; [exact Hmc |].
  split; [exact Hlt |].
  exists xa, xb. split; [exact Hxa |]. split; [exact Hxb |].
  exact (more_clicks_higher_score TWIN_CLICKS TWIN_CANDIDATES 1 100 a b' xa xb
           Ha Hb Hmc eq_refl eq_refl eq_refl eq_refl eq_refl Hlt Hxa Hxb).
Defined.

Lemma cheaper_scores_no_lower_witness :
  let a := (sample_doc "p" "t" "d" None (Some 40) None false, 1) in
  let b' := (sample_doc "q" "t" "d" None (Some 80) None false, 1) in
  In a PRICED_CANDIDATES /\ In b' PRICED_CANDIDATES /\ 40 <= 80 /\
  exists va vb,
    price_score_of (collect None PRICED_CANDIDATES) (fst a) = Ok va /\
    price_score_of (collect None PRICED_CANDIDATES) (fst b') = Ok vb /\
    vb < va.
Proof.
  intros a b'.
  assert (Ha : In a PRICED_CANDIDATES) by (simpl; auto).
  assert (Hb : In b' PRICED_CANDIDATES) by (simpl; auto).
  destruct (price_score_of_ok (collect None PRICED_CANDIDATES) (fst a))
    as (va & Hva & _).
  { intros p Hp. exact (collect_bounded None PRICED_CANDIDATES _ _ p Ha Hp). }
  destruct (price_score_of_ok (collect None PRICED_CANDIDATES) (fst b'))
    as (vb & Hvb & _).
  { intros p Hp. exact (collect_bounded None PRICED_CANDIDATES _ _ p Hb Hp). }
  split; [exact Ha |]. split; [exact Hb |]. split; [lra |].
  exists va, vb. split; [exact Hva |]. split; [exact Hvb |].
  apply (proj1 (proj2 (cheaper_scores_no_lower None PRICED_CANDIDATES a b'
                         40 80 va vb Ha Hb eq_refl eq_refl ltac:(lra)
                         Hva Hvb))).
  lra.
Defined.

Lemma click_counts_count_clicks_witness :
  exists d,
    for_each count_click ["A"; "C"; "A"] [] = Ok d /\
    dict_get d "A" 0%nat = 2%nat /\ dict_get d "B" 0%nat = 0%nat /\
    clicks_of (Some {| fact_clicks := d |})
      (sample_doc "A" "t" "d" None None None false) = 2%nat.
Proof.
  destruct (click_counts_count_clicks ["A"; "C"; "A"] [])
    as (d & Hrun & Hget & _ & _ & _ & Hclicks).
  exists d. split; [exact Hrun |].
  split; [rewrite Hget; vm_compute; reflexivity |].
  split; [rewrite Hget; vm_compute; reflexivity |].
  rewrite (Hclicks eq_refl). vm_compute. reflexivity.
Defined.

Lemma stats_need_known_ids_witness :
  (exists rows,
      stats [("C", 2%nat); ("A", 5%nat)] SCENARIO_CORPUS
      = Ok (sorted_reverse (fun doc => INR (stats_count doc)) rows) /\
      List.length rows = 2%nat) /\
  stats [("C", 2%nat); ("Z", 1%nat)] SCENARIO_CORPUS = Raise KeyError.
Proof.
  split.
  - destruct (proj1 (stats_need_known_ids [("C", 2%nat); ("A", 5%nat)]
                       SCENARIO_CORPUS))
      as (rows & Hrel & Hrun & _).
    { simpl. intuition (subst; auto). }
    exists rows. split; [exact Hrun |].
    apply (Forall2_length_eq _ _ _ Hrel).
  - apply (proj2 (stats_need_known_ids [("C", 2%nat); ("Z", 1%nat)]
                    SCENARIO_CORPUS)).
    exists "Z". simpl. split; [auto | intuition discriminate].
Defined.

Lemma unknown_click_breaks_stats_witness :
  ~ In "Z" (dict_keys SCENARIO_CORPUS) /\
  exists d,
    for_each count_click (["A"] ++ "Z" :: ["C"]) [] = Ok d /\
    stats d SCENARIO_CORPUS = Raise KeyError /\
    dashboard_visited_docs d SCENARIO_CORPUS = Raise KeyError.
Proof.
  assert (H : ~ In "Z" (dict_keys SCENARIO_CORPUS))
    by (simpl; intuition discriminate).
  split; [exact H |].
  exact (unknown_click_breaks_stats ["A"] ["C"] "Z" SCENARIO_CORPUS H).
Defined.

Lemma click_rank_is_position_witness :
  let results := [ sample_doc "A" "t" "d" None None None false;
                   sample_doc "C" "t" "d" None None None false ] in
  NoDup (map pid results) /\
  click_rank (Some (last_ranking results)) "C" = Some 1%nat /\
  click_rank (Some (last_ranking results)) "B" = None.
Proof.
  intros results.
  assert (Hnd : NoDup (map pid results)).
  { simpl. repeat constructor; simpl; intuition discriminate. }
  destruct (click_rank_is_position results Hnd) as (Hin & Hout & _).
  split; [exact Hnd |]. split.
  - exact (Hin 1%nat (sample_doc "C" "t" "d" None None None false) eq_refl).
  - apply Hout. simpl. intuition discriminate.
Defined.


Lemma final_score_range_witness :
  prices_not_negative SCENARIO_CORPUS /\
  exists res,
    fst (SearchEngine_search None "red shoes" 7 SCENARIO_CORPUS None [])
    = Ok res /\
    Forall (fun d => exists x, score d = Some x /\ 0 <= x <= 1) res.
Proof.
  assert (H : prices_not_negative SCENARIO_CORPUS)
    by (unfold prices_not_negative, SCENARIO_CORPUS;
        repeat constructor; simpl; lra).
  split; [exact H |].
  exact (final_score_range None "red shoes" 7 SCENARIO_CORPUS None [] H).
Defined.

Lemma corpus_scored_and_kept_witness :
  dict_wf SCENARIO_CORPUS /\ SCENARIO_CORPUS <> [] /\
  _tokenize None "red shoes" <> [] /\
  (exists self scored hits,
      BM25Index_init None SCENARIO_CORPUS 1.5 0.75 = Ok self /\
      Forall2 (scored_as self (_tokenize None "red shoes"))
        SCENARIO_CORPUS scored /\
      In ("B", 0) scored /\
      search_in_corpus None "red shoes" SCENARIO_CORPUS 2 = Ok hits /\
      List.length hits = 2%nat) /\
  exists res,
    fst (SearchEngine_search None "red shoes" 7 SCENARIO_CORPUS None [])
    = Ok res /\
    List.length res = 3%nat /\
    Permutation (map pid res) ["A"; "B"; "C"].
Proof.
  assert (Hne : SCENARIO_CORPUS <> []) by discriminate.
  pose proof (corpus_scored_and_kept None "red shoes" 7 SCENARIO_CORPUS None []
                SCENARIO_CORPUS_wf Hne scenario_query_tokens)
    as [Hstage (hits20 & res & _ & Hres & Hlen & _ & _ & Hall)].
  split; [apply SCENARIO_CORPUS_wf |].
  split; [exact Hne |]. split; [apply scenario_query_tokens |].
  split.
  - destruct (Hstage 2%Z ltac:(lia))
      as (self & scored & hits & Hinit & Hrel & Hzero & Hrun & _ & Hlen2 & _).
    exists self, scored, hits.
    split; [exact Hinit |]. split; [exact Hrel |].
    split; [| split; [exact Hrun | exact Hlen2]].
    apply (Hzero "B" (sample_doc "B" "blue jacket" "warm winter jacket"
                        (Some 3.0) (Some 80) None false)).
    + simpl. auto.
    + intros t Ht. vm_compute. vm_compute in Ht.
      intuition (subst; discriminate).
  - exists res. split; [exact Hres |]. split; [exact Hlen |].
    apply Hall. simpl. lia.
Defined.

